(** * ts-nvml: a shallow embedding of the binding core and its properties

    The development follows the layout of the TypeScript sources:

    - [types/enums.ts], [types/result.ts]   : status codes, [NvmlError], [Result]
    - [bindings/library.ts], [utils/library-path.ts] : the library handle manager
    - [bindings/init.ts], [bindings/device.ts], [bindings/system.ts],
      [bindings/process.ts]                 : lazily bound native entry points
    - [device.ts]                           : the [Device] query facade
    - [nvml.ts]                             : the [Nvml] namespace

    JavaScript code that can throw, mutate module-level variables and call
    into the native library is modelled in a state-and-exception monad over
    an explicit [World]; the native library itself is a parameter. *)

From Stdlib Require Import ZArith List String Ascii Bool Lia Floats.
From stdpp Require Import base option list gmap strings pretty.

Local Open Scope Z_scope.
Local Open Scope string_scope.

(* ===================================================================== *)
(** ** JavaScript numbers that are not plain small integers               *)
(* ===================================================================== *)

(** Status codes, counts, percentages and 32-bit identifiers are integers
    that a double represents exactly; they are modelled in [Z].  Values that
    JavaScript computes with a rounding step are IEEE-754 binary64 numbers,
    modelled with Rocq's primitive floats. *)
Module Js.

(** [Number(b)] for a BigInt [b], and the implicit conversion of an
    integer that reaches JavaScript as a [number]: the nearest double,
    ties to even. *)
Definition Number (z : Z) : float :=
  SF2Prim (binary_normalize prec emax z 0 false).

(** [Math.round]: the integral double closest to [x], the one towards
    plus infinity on a tie; NaN, infinities and zeros are returned as
    they are, and a negative [x] that rounds to zero gives [-0]. *)
Definition Math_round (x : float) : float :=
  match Prim2SF x with
  | S754_finite s m e =>
      (* |x| = m * 2^e, so 2|x| = m * 2^(e+1) *)
      let twice_num := if (0 <=? e + 1)%Z then Z.pos m * 2 ^ (e + 1) else Z.pos m in
      let twice_den := if (0 <=? e + 1)%Z then 1 else 2 ^ (- (e + 1)) in
      (* floor (x + 1/2) = floor ((2x + 1) / 2) *)
      let n := if s
               then (- twice_num + twice_den) / (2 * twice_den)
               else (twice_num + twice_den) / (2 * twice_den) in
      if (n =? 0)%Z then (if s then neg_zero else 0%float) else Number n
  | _ => x
  end.

(** Template-literal rendering of an integer-valued number. *)
Definition show (z : Z) : string := pretty z.

(** [s.includes(c)] for a one-character needle. *)
Fixpoint includes (s : string) (c : ascii) : bool :=
  match s with
  | EmptyString => false
  | String a rest => if Ascii.eqb a c then true else includes rest c
  end.

(** The white space [String.prototype.trim] removes, among code units
    below 256: TAB, LF, VT, FF, CR, SPACE and NBSP. *)
Definition is_white_space (a : ascii) : bool :=
  let n := N_of_ascii a in
  ((9 <=? n) && (n <=? 13) || (n =? 32) || (n =? 160))%N.

(** [s.trim().length === 0]: trimming leaves nothing exactly when every
    code unit is white space. *)
Fixpoint trim_is_empty (s : string) : bool :=
  match s with
  | EmptyString => true
  | String a rest => is_white_space a && trim_is_empty rest
  end.

(** [s.replace(/\0/g, '')]: every NUL is removed. *)
Fixpoint remove_nuls (s : string) : string :=
  match s with
  | EmptyString => EmptyString
  | String a rest =>
      if Ascii.eqb a Ascii.zero then remove_nuls rest else String a (remove_nuls rest)
  end.

(** [s.split('\0')[0]]: the text before the first NUL. *)
Fixpoint before_first_nul (s : string) : string :=
  match s with
  | EmptyString => EmptyString
  | String a rest =>
      if Ascii.eqb a Ascii.zero then EmptyString else String a (before_first_nul rest)
  end.

(** A buffer of [size] bytes allocated zero-filled ([Buffer.alloc]) into
    which the native side wrote [written], read back as text. *)
Fixpoint buffer (size : nat) (written : string) : string :=
  match size with
  | O => EmptyString
  | S k =>
      match written with
      | EmptyString => String Ascii.zero (buffer k EmptyString)
      | String a rest => String a (buffer k rest)
      end
  end.

End Js.

(* ===================================================================== *)
(** ** types/enums.ts                                                     *)
(* ===================================================================== *)

Module NvmlReturn.
Definition SUCCESS : Z := 0.
Definition ERROR_UNINITIALIZED : Z := 1.
Definition ERROR_INVALID_ARGUMENT : Z := 2.
Definition ERROR_NOT_SUPPORTED : Z := 3.
Definition ERROR_NO_PERMISSION : Z := 4.
Definition ERROR_ALREADY_INITIALIZED : Z := 5.
Definition ERROR_NOT_FOUND : Z := 6.
Definition ERROR_INSUFFICIENT_SIZE : Z := 7.
Definition ERROR_INSUFFICIENT_POWER : Z := 8.
Definition ERROR_DRIVER_NOT_LOADED : Z := 9.
Definition ERROR_TIMEOUT : Z := 10.
Definition ERROR_IRQ_ISSUE : Z := 11.
Definition ERROR_LIBRARY_NOT_FOUND : Z := 12.
Definition ERROR_FUNCTION_NOT_FOUND : Z := 13.
Definition ERROR_CORRUPTED_INFOROM : Z := 14.
Definition ERROR_GPU_IS_LOST : Z := 15.
Definition ERROR_RESET_REQUIRED : Z := 16.
Definition ERROR_OPERATING_SYSTEM : Z := 17.
Definition ERROR_LIB_RM_VERSION_MISMATCH : Z := 18.
Definition ERROR_IN_USE : Z := 19.
Definition ERROR_MEMORY : Z := 20.
Definition ERROR_NO_DATA : Z := 21.
Definition ERROR_VGPU_ECC_NOT_SUPPORTED : Z := 22.
Definition ERROR_INSUFFICIENT_RESOURCES : Z := 23.
Definition ERROR_FREQ_NOT_SUPPORTED : Z := 24.
Definition ERROR_ARGUMENT_VERSION_MISMATCH : Z := 25.
Definition ERROR_DEPRECATED : Z := 26.
Definition ERROR_NOT_READY : Z := 27.
Definition ERROR_GPU_NOT_FOUND : Z := 28.
Definition ERROR_INVALID_STATE : Z := 29.
Definition ERROR_UNKNOWN : Z := 999.
End NvmlReturn.

Module NvmlTemperatureSensors.
Definition GPU : Z := 0.
End NvmlTemperatureSensors.

Module NvmlMemoryErrorType.
Definition CORRECTED : Z := 0.
Definition UNCORRECTED : Z := 1.
End NvmlMemoryErrorType.

Module NvmlEccCounterType.
Definition VOLATILE : Z := 0.
Definition AGGREGATE : Z := 1.
End NvmlEccCounterType.

(** The code-to-text table of [nvmlErrorString]. *)
Definition messages : gmap Z string :=
  list_to_map
    [ (NvmlReturn.SUCCESS, "Success");
      (NvmlReturn.ERROR_UNINITIALIZED, "NVML was not initialized");
      (NvmlReturn.ERROR_INVALID_ARGUMENT, "Invalid argument");
      (NvmlReturn.ERROR_NOT_SUPPORTED, "Operation not supported");
      (NvmlReturn.ERROR_NO_PERMISSION, "Insufficient permissions");
      (NvmlReturn.ERROR_ALREADY_INITIALIZED, "NVML already initialized");
      (NvmlReturn.ERROR_NOT_FOUND, "Not found");
      (NvmlReturn.ERROR_INSUFFICIENT_SIZE, "Insufficient buffer size");
      (NvmlReturn.ERROR_INSUFFICIENT_POWER, "Insufficient power");
      (NvmlReturn.ERROR_DRIVER_NOT_LOADED, "NVIDIA driver not loaded");
      (NvmlReturn.ERROR_TIMEOUT, "Operation timed out");
      (NvmlReturn.ERROR_IRQ_ISSUE, "Interrupt request issue");
      (NvmlReturn.ERROR_LIBRARY_NOT_FOUND, "NVML library not found");
      (NvmlReturn.ERROR_FUNCTION_NOT_FOUND, "Function not found");
      (NvmlReturn.ERROR_CORRUPTED_INFOROM, "InfoROM corrupted");
      (NvmlReturn.ERROR_GPU_IS_LOST, "GPU is lost");
      (NvmlReturn.ERROR_RESET_REQUIRED, "GPU reset required");
      (NvmlReturn.ERROR_OPERATING_SYSTEM, "Operating system error");
      (NvmlReturn.ERROR_LIB_RM_VERSION_MISMATCH, "RM/library version mismatch");
      (NvmlReturn.ERROR_IN_USE, "GPU is in use");
      (NvmlReturn.ERROR_MEMORY, "Memory allocation failed");
      (NvmlReturn.ERROR_NO_DATA, "No data available");
      (NvmlReturn.ERROR_VGPU_ECC_NOT_SUPPORTED, "vGPU ECC not supported");
      (NvmlReturn.ERROR_INSUFFICIENT_RESOURCES, "Insufficient resources");
      (NvmlReturn.ERROR_FREQ_NOT_SUPPORTED, "Frequency not supported");
      (NvmlReturn.ERROR_ARGUMENT_VERSION_MISMATCH, "Argument version mismatch");
      (NvmlReturn.ERROR_DEPRECATED, "Deprecated function");
      (NvmlReturn.ERROR_NOT_READY, "Not ready");
      (NvmlReturn.ERROR_GPU_NOT_FOUND, "GPU not found");
      (NvmlReturn.ERROR_INVALID_STATE, "Invalid state");
      (NvmlReturn.ERROR_UNKNOWN, "Unknown error") ].

(** [messages[ret] ?? `Unknown error code: ${ret}`] *)
Definition nvmlErrorString (ret : Z) : string :=
  default ("Unknown error code: " +:+ Js.show ret) (messages !! ret).

(* ===================================================================== *)
(** ** types/result.ts                                                    *)
(* ===================================================================== *)

(** [class NvmlError extends Error]: a status code and a message. *)
Record NvmlError : Type := mkNvmlError { code : Z; message : string }.

(** What a [throw] can carry in this code base: an [NvmlError], or a plain
    [Error] with its message. *)
Inductive Exn : Type :=
| ExnNvml (e : NvmlError)
| ExnError (msg : string).

(** How a JavaScript call ends. *)
Inductive Outcome (A : Type) : Type :=
| Returned (a : A)
| Thrown (ex : Exn).
Arguments Returned {A} a.
Arguments Thrown {A} ex.

(** A computation over mutable state [S] that returns or throws. *)
Definition Eff (S A : Type) : Type := S -> Outcome A * S.

Definition ret_ {S A} (a : A) : Eff S A := fun s => (Returned a, s).
Definition throw {S A} (ex : Exn) : Eff S A := fun s => (Thrown ex, s).
Definition bind {S A B} (m : Eff S A) (k : A -> Eff S B) : Eff S B :=
  fun s =>
    match m s with
    | (Returned a, s') => k a s'
    | (Thrown ex, s') => (Thrown ex, s')
    end.

Declare Scope eff_scope.
Delimit Scope eff_scope with eff.
Notation "'let*' x ':=' m 'in' k" := (bind m (fun x => k))
  (at level 10, x pattern, m at level 100, k at level 200) : eff_scope.
Notation "m ';;' k" := (bind m (fun _ => k))
  (at level 100, k at level 200, right associativity) : eff_scope.
Local Open Scope eff_scope.

Definition new_NvmlError (code : Z) (message : option string) : NvmlError :=
  mkNvmlError code (default (nvmlErrorString code) message).

(** [NvmlError.fromReturn]; an absent or empty [context] is falsy. *)
Definition fromReturn (ret : Z) (context : option string) : NvmlError :=
  let baseMessage := nvmlErrorString ret in
  let message :=
    match context with
    | Some c => if String.eqb c "" then baseMessage else c +:+ ": " +:+ baseMessage
    | None => baseMessage
    end in
  new_NvmlError ret (Some message).

Definition NvmlError_is (e : NvmlError) (c : Z) : bool := (code e =? c)%Z.

(** [type Result<T, E = NvmlError>] *)
Inductive Result (T : Type) : Type :=
| Ok (value : T)
| Err (error : NvmlError).
Arguments Ok {T} value.
Arguments Err {T} error.

Definition ok {T} (value : T) : Result T := Ok value.
Definition err {T} (error : NvmlError) : Result T := Err error.
Definition errFromReturn {T} (ret : Z) (context : option string) : Result T :=
  err (fromReturn ret context).

Definition unwrap {S T} (result : Result T) : Eff S T :=
  match result with
  | Ok value => ret_ value
  | Err error => throw (ExnNvml error)
  end.

Definition unwrapOr {T} (result : Result T) (defaultValue : T) : T :=
  match result with
  | Ok value => value
  | Err _ => defaultValue
  end.

(** [map] and [andThen] take a JavaScript callback, which may itself have
    effects or throw; it is a computation in [Eff S]. *)
Definition map {S T U} (result : Result T) (fn : T -> Eff S U) : Eff S (Result U) :=
  match result with
  | Ok value => let* u := fn value in ret_ (ok u)
  | Err error => ret_ (Err error)
  end.

Definition andThen {S T U} (result : Result T) (fn : T -> Eff S (Result U))
  : Eff S (Result U) :=
  match result with
  | Ok value => fn value
  | Err error => ret_ (Err error)
  end.

Definition isSuccess (ret : Z) : bool := (ret =? NvmlReturn.SUCCESS)%Z.

(* ===================================================================== *)
(** ** The world the wrapper runs in                                      *)
(* ===================================================================== *)

(** A library handle returned by [koffi.load]: handles of distinct loads
    are distinct, so a handle is the ordinal of the load that made it. *)
Definition LibHandle : Type := nat.

(** [KoffiNvmlDevice]: an opaque native device reference. *)
Definition KoffiNvmlDevice : Type := Z.

(** [NvmlFunc]: what [lib.func(signature)] returns, a callable bound to the
    library handle it was resolved against. *)
Record NvmlFunc : Type := mkNvmlFunc { bound_lib : LibHandle; signature : string }.

(** Observable effects, in the order they happen. *)
Inductive Event : Type :=
| EvWarn (msg : string)                      (* console.warn *)
| EvLoad (path : string) (h : LibHandle)     (* koffi.load succeeded *)
| EvBind (f : NvmlFunc)                      (* lib.func(signature) *)
| EvCall (f : NvmlFunc)                      (* a native call through [f] *)
| EvNow.                                     (* new Date() *)

(** What [koffi.load] does with a path. *)
Inductive LoadResult : Type :=
| Loaded
| LoadThrowsError (message : string)
| LoadThrowsOther.

(** What [lib.func(signature)] does on a loaded library: it hands back a
    callable, or throws when the library does not export the symbol. *)
Inductive FuncResult : Type :=
| Bound
| FuncThrows (message : string).

(** The host platform: the environment variable, the file system, the
    loader, the symbol resolver of a loaded library and the wall clock (read
    after a given history). *)
Record Host : Type := mkHost {
  env_NVML_LIBRARY_PATH : option string;
  existsSync : string -> bool;
  koffi_load : string -> LoadResult;
  koffi_func : LibHandle -> string -> FuncResult;
  wallclock : list Event -> Z
}.

(** [bindings/types.ts]: raw structs as Koffi hands them over. *)
Record RawNvmlMemory : Type := mkRawNvmlMemory {
  raw_total : Z; raw_free : Z; raw_used : Z }.
Record RawNvmlUtilization : Type := mkRawNvmlUtilization {
  raw_gpu : Z; raw_memory : Z }.
Record RawNvmlPciInfo : Type := mkRawNvmlPciInfo {
  raw_busIdLegacy : string; raw_domain : Z; raw_bus : Z; raw_device : Z;
  raw_pciDeviceId : Z; raw_pciSubSystemId : Z; raw_busId : string }.
(** [bindings/process.ts] *)
Record RawProcessInfo : Type := mkRawProcessInfo {
  raw_pid : Z; usedGpuMemory : Z; gpuInstanceId : Z; computeInstanceId : Z }.

Definition NVML_DEVICE_NAME_BUFFER_SIZE : Z := 64.
Definition NVML_DEVICE_UUID_BUFFER_SIZE : Z := 80.
Definition NVML_SYSTEM_DRIVER_VERSION_BUFFER_SIZE : Z := 80.
Definition NVML_SYSTEM_NVML_VERSION_BUFFER_SIZE : Z := 80.
Definition MAX_PROCESSES : Z := 128.

(** The native entry points the wrapper binds, by their C names, each with
    its in-arguments; the index is what the call hands back: the status
    code and the content of the out-parameters after the call. *)
Module C.
Inductive Call : Type -> Type :=
| nvmlInit_v2 : Call Z
| nvmlShutdown : Call Z
| nvmlDeviceGetCount_v2 : Call (Z * Z)
| nvmlDeviceGetHandleByIndex_v2 (index : Z) : Call (Z * option KoffiNvmlDevice)
| nvmlDeviceGetHandleByUUID (uuid : string) : Call (Z * option KoffiNvmlDevice)
| nvmlDeviceGetName (device : KoffiNvmlDevice) (length : Z) : Call (Z * string)
| nvmlDeviceGetUUID (device : KoffiNvmlDevice) (length : Z) : Call (Z * string)
| nvmlDeviceGetMemoryInfo (device : KoffiNvmlDevice) : Call (Z * RawNvmlMemory)
| nvmlDeviceGetUtilizationRates (device : KoffiNvmlDevice)
    : Call (Z * RawNvmlUtilization)
| nvmlDeviceGetTemperature (device : KoffiNvmlDevice) (sensorType : Z) : Call (Z * Z)
| nvmlDeviceGetPowerUsage (device : KoffiNvmlDevice) : Call (Z * Z)
| nvmlDeviceGetPowerManagementLimit (device : KoffiNvmlDevice) : Call (Z * Z)
| nvmlDeviceGetFanSpeed (device : KoffiNvmlDevice) : Call (Z * Z)
| nvmlDeviceGetPerformanceState (device : KoffiNvmlDevice) : Call (Z * Z)
| nvmlDeviceGetPciInfo_v3 (device : KoffiNvmlDevice) : Call (Z * RawNvmlPciInfo)
| nvmlDeviceGetPersistenceMode (device : KoffiNvmlDevice) : Call (Z * Z)
| nvmlDeviceGetDisplayActive (device : KoffiNvmlDevice) : Call (Z * Z)
| nvmlDeviceGetComputeMode (device : KoffiNvmlDevice) : Call (Z * Z)
| nvmlDeviceGetMigMode (device : KoffiNvmlDevice) : Call (Z * Z * Z)
| nvmlDeviceGetTotalEccErrors (device : KoffiNvmlDevice) (errorType counterType : Z)
    : Call (Z * Z)
| nvmlDeviceGetComputeRunningProcesses_v3 (device : KoffiNvmlDevice) (infoCount : Z)
    : Call (Z * Z * list RawProcessInfo)
| nvmlDeviceGetGraphicsRunningProcesses_v3 (device : KoffiNvmlDevice) (infoCount : Z)
    : Call (Z * Z * list RawProcessInfo)
| nvmlSystemGetDriverVersion (length : Z) : Call (Z * string)
| nvmlSystemGetNVMLVersion (length : Z) : Call (Z * string)
| nvmlSystemGetCudaDriverVersion_v2 : Call (Z * Z)
| nvmlSystemGetProcessName (pid : Z) (length : Z) : Call (Z * string).
End C.

(** The native library with driver state [D]: what a call made through a
    callable bound to library handle [h] returns, and the state after. *)
Definition Native (D : Type) : Type :=
  forall R : Type, LibHandle -> C.Call R -> D -> R * D.

(** The module-level variables of the wrapper, the driver behind the
    native library, and the history of effects. *)
Record World (D : Type) : Type := mkWorld {
  initialized : bool;                 (* nvml.ts: let initialized *)
  lib : option LibHandle;             (* library.ts: let lib *)
  libraryPath : option string;        (* library.ts: let libraryPath *)
  slots : gmap string NvmlFunc;       (* the [_deviceGetCount], ... variables,
                                         keyed by the signature each holds *)
  loads : nat;                        (* koffi.load calls that succeeded *)
  driver : D;
  trace : list Event
}.
Arguments mkWorld {D}.
Arguments initialized {D}.
Arguments lib {D}.
Arguments libraryPath {D}.
Arguments slots {D}.
Arguments loads {D}.
Arguments driver {D}.
Arguments trace {D}.

(** The state of a freshly imported module graph. *)
Definition freshWorld {D} (d : D) : World D :=
  mkWorld false None None ∅ 0%nat d [].

Definition M (D A : Type) : Type := Eff (World D) A.

Section WorldOps.
Context {D : Type}.

Definition emit (ev : Event) : M D unit := fun w =>
  (Returned tt,
   mkWorld (initialized w) (lib w) (libraryPath w) (slots w) (loads w) (driver w)
           (trace w ++ [ev])).

Definition set_initialized (b : bool) : M D unit := fun w =>
  (Returned tt,
   mkWorld b (lib w) (libraryPath w) (slots w) (loads w) (driver w) (trace w)).

Definition set_lib (l : option LibHandle) (path : option string) : M D unit := fun w =>
  (Returned tt,
   mkWorld (initialized w) l path (slots w) (loads w) (driver w) (trace w)).

Definition set_slot (sig : string) (f : NvmlFunc) : M D unit := fun w =>
  (Returned tt,
   mkWorld (initialized w) (lib w) (libraryPath w) (<[sig := f]> (slots w))
           (loads w) (driver w) (trace w)).

Definition fresh_handle : M D LibHandle := fun w =>
  (Returned (loads w),
   mkWorld (initialized w) (lib w) (libraryPath w) (slots w) (S (loads w))
           (driver w) (trace w)).

Definition read {A} (f : World D -> A) : M D A := fun w => (Returned (f w), w).

(** A call into the native library through the callable [f]. *)
Definition invoke (N : Native D) {R} (f : NvmlFunc) (c : C.Call R) : M D R := fun w =>
  let '(r, d) := N R (bound_lib f) c (driver w) in
  (Returned r,
   mkWorld (initialized w) (lib w) (libraryPath w) (slots w) (loads w) d
           (trace w ++ [EvCall f])).
End WorldOps.

(* ===================================================================== *)
(** ** utils/library-path.ts                                              *)
(* ===================================================================== *)

Definition DEFAULT_LIBRARY_PATHS : list string :=
  [ "libnvidia-ml.so.1";
    "libnvidia-ml.so";
    "/usr/lib/x86_64-linux-gnu/libnvidia-ml.so.1";
    "/usr/lib64/libnvidia-ml.so.1";
    "/usr/lib/libnvidia-ml.so.1";
    "/usr/lib/aarch64-linux-gnu/libnvidia-ml.so.1";
    "/usr/local/cuda/lib64/stubs/libnvidia-ml.so";
    "/usr/local/cuda/targets/x86_64-linux/lib/stubs/libnvidia-ml.so" ].

Definition truthy (s : string) : bool := negb (String.eqb s "").

Section LibraryPath.
Context (H : Host) {D : Type}.

(** The [for (const path of DEFAULT_LIBRARY_PATHS)] loop. *)
Fixpoint tryDefaultPaths (paths : list string) : option string :=
  match paths with
  | [] => None
  | path :: rest =>
      if negb (Js.includes path "/") then Some path
      else if existsSync H path then Some path
      else tryDefaultPaths rest
  end.

Definition findLibraryPath : M D (option string) :=
  match env_NVML_LIBRARY_PATH H with
  | Some envPath =>
      if truthy envPath then
        if existsSync H envPath then ret_ (Some envPath)
        else
          emit (EvWarn ("NVML_LIBRARY_PATH set to '" +:+ envPath +:+
                        "' but file not found, searching default paths")) ;;
          ret_ (tryDefaultPaths DEFAULT_LIBRARY_PATHS)
      else ret_ (tryDefaultPaths DEFAULT_LIBRARY_PATHS)
  | None => ret_ (tryDefaultPaths DEFAULT_LIBRARY_PATHS)
  end.

Definition getSearchPaths : list string :=
  match env_NVML_LIBRARY_PATH H with
  | Some envPath =>
      if truthy envPath then envPath :: DEFAULT_LIBRARY_PATHS
      else DEFAULT_LIBRARY_PATHS
  | None => DEFAULT_LIBRARY_PATHS
  end.
End LibraryPath.

(* ===================================================================== *)
(** ** bindings/library.ts                                                *)
(* ===================================================================== *)

Definition newline : string := String (ascii_of_nat 10) "".

Fixpoint join (sep : string) (parts : list string) : string :=
  match parts with
  | [] => ""
  | [p] => p
  | p :: rest => p +:+ sep +:+ join sep rest
  end.

Section Library.
Context (H : Host) {D : Type}.

Definition getLibrary : M D LibHandle :=
  let* cached := read lib in
  match cached with
  | Some l => ret_ l
  | None =>
      let* path := findLibraryPath H in
      match path with
      | None =>
          let searchPaths := getSearchPaths H in
          throw (ExnError
            ("Could not find libnvidia-ml.so. " +:+
             "Ensure NVIDIA drivers are installed or set NVML_LIBRARY_PATH environment variable." +:+
             newline +:+ "Searched paths:" +:+ newline +:+
             join newline (List.map (fun p => "  - " +:+ p) searchPaths)))
      | Some path =>
          match koffi_load H path with
          | Loaded =>
              let* l := fresh_handle in
              emit (EvLoad path l) ;;
              set_lib (Some l) (Some path) ;;
              ret_ l
          | LoadThrowsError message =>
              throw (ExnError ("Failed to load NVML library from '" +:+ path +:+
                               "': " +:+ message))
          | LoadThrowsOther =>
              throw (ExnError ("Failed to load NVML library from '" +:+ path +:+
                               "': " +:+ "Unknown error loading library"))
          end
      end
  end.

Definition isLibraryLoaded : M D bool :=
  read (fun w => match lib w with Some _ => true | None => false end).

Definition getLoadedLibraryPath : M D (option string) := read libraryPath.

Definition unloadLibrary : M D unit := set_lib None None.

(** The shape every lazily initialised binding getter has:
    [if (!_f) { _f = getLibrary().func(sig) } return _f].
    [lib.func] belongs to Koffi: it hands back a callable or throws an
    [Error]; no getter catches it, and the assignment to [_f] does not
    happen when it throws. *)
Definition lazyBinding (sig : string) : M D NvmlFunc :=
  let* held := read (fun w => slots w !! sig) in
  match held with
  | Some f => ret_ f
  | None =>
      let* l := getLibrary in
      match koffi_func H l sig with
      | Bound =>
          let f := mkNvmlFunc l sig in
          emit (EvBind f) ;;
          set_slot sig f ;;
          ret_ f
      | FuncThrows message => throw (ExnError message)
      end
  end.
End Library.

(* ===================================================================== *)
(** ** bindings/init.ts, bindings/device.ts, bindings/system.ts,
       bindings/process.ts                                                *)
(* ===================================================================== *)

(** [new Array(MAX_PROCESSES)] filled with zeroed entries, after the native
    side wrote [written] into its first cells. *)
Fixpoint infoArray (size : nat) (written : list RawProcessInfo) : list RawProcessInfo :=
  match size with
  | O => []
  | S k =>
      match written with
      | [] => mkRawProcessInfo 0 0 0 0 :: infoArray k []
      | info :: rest => info :: infoArray k rest
      end
  end.

(** The extraction loop [for (i = 0; i < count && i < MAX_PROCESSES; i++)]
    that keeps the entries with [pid > 0]. *)
Definition validProcesses (count : Z) (infos : list RawProcessInfo) : list RawProcessInfo :=
  List.filter (fun info => (0 <? raw_pid info)%Z)
              (take (Z.to_nat (Z.min count MAX_PROCESSES)) infos).

(** [cudaVersionToString]. The argument is a C [int]; on such integers
    [Math.floor(version / 1000)] is the floor quotient and [%] is the
    remainder with the sign of the dividend. *)
Definition cudaVersionToString (version : Z) : string :=
  let major := version / 1000 in
  let minor := Z.rem version 1000 / 10 in
  Js.show major +:+ "." +:+ Js.show minor.

Section Bindings.
Context (H : Host) {D : Type} (N : Native D).

(* --- bindings/init.ts --- *)
Definition getNvmlInit : M D NvmlFunc := lazyBinding H "int nvmlInit_v2()".
Definition getNvmlShutdown : M D NvmlFunc := lazyBinding H "int nvmlShutdown()".

Definition nvmlInit : M D Z :=
  let* f := getNvmlInit in invoke N f C.nvmlInit_v2.
Definition nvmlShutdown : M D Z :=
  let* f := getNvmlShutdown in invoke N f C.nvmlShutdown.

(* --- bindings/device.ts: getters --- *)
Definition getDeviceGetCount : M D NvmlFunc :=
  lazyBinding H "int nvmlDeviceGetCount_v2(_Out_ uint *deviceCount)".
Definition getDeviceGetHandleByIndex : M D NvmlFunc :=
  lazyBinding H "int nvmlDeviceGetHandleByIndex_v2(uint index, _Out_ nvmlDevice* *device)".
Definition getDeviceGetHandleByUUID : M D NvmlFunc :=
  lazyBinding H "int nvmlDeviceGetHandleByUUID(str uuid, _Out_ nvmlDevice* *device)".
Definition getDeviceGetName : M D NvmlFunc :=
  lazyBinding H "int nvmlDeviceGetName(nvmlDevice* device, _Out_ str *name, uint length)".
Definition getDeviceGetUUID : M D NvmlFunc :=
  lazyBinding H "int nvmlDeviceGetUUID(nvmlDevice* device, _Out_ str *uuid, uint length)".
Definition getDeviceGetMemoryInfo : M D NvmlFunc :=
  lazyBinding H "int nvmlDeviceGetMemoryInfo(nvmlDevice* device, _Out_ nvmlMemory_t *memory)".
Definition getDeviceGetUtilizationRates : M D NvmlFunc :=
  lazyBinding H "int nvmlDeviceGetUtilizationRates(nvmlDevice* device, _Out_ nvmlUtilization_t *utilization)".
Definition getDeviceGetTemperature : M D NvmlFunc :=
  lazyBinding H "int nvmlDeviceGetTemperature(nvmlDevice* device, int sensorType, _Out_ uint *temp)".
Definition getDeviceGetPowerUsage : M D NvmlFunc :=
  lazyBinding H "int nvmlDeviceGetPowerUsage(nvmlDevice* device, _Out_ uint *power)".
Definition getDeviceGetPowerManagementLimit : M D NvmlFunc :=
  lazyBinding H "int nvmlDeviceGetPowerManagementLimit(nvmlDevice* device, _Out_ uint *limit)".
Definition getDeviceGetFanSpeed : M D NvmlFunc :=
  lazyBinding H "int nvmlDeviceGetFanSpeed(nvmlDevice* device, _Out_ uint *speed)".
Definition getDeviceGetPerformanceState : M D NvmlFunc :=
  lazyBinding H "int nvmlDeviceGetPerformanceState(nvmlDevice* device, _Out_ int *pState)".
Definition getDeviceGetPciInfo : M D NvmlFunc :=
  lazyBinding H "int nvmlDeviceGetPciInfo_v3(nvmlDevice* device, _Out_ nvmlPciInfo_t *pci)".
Definition getDeviceGetPersistenceMode : M D NvmlFunc :=
  lazyBinding H "int nvmlDeviceGetPersistenceMode(nvmlDevice* device, _Out_ int *mode)".
Definition getDeviceGetDisplayActive : M D NvmlFunc :=
  lazyBinding H "int nvmlDeviceGetDisplayActive(nvmlDevice* device, _Out_ int *isActive)".
Definition getDeviceGetComputeMode : M D NvmlFunc :=
  lazyBinding H "int nvmlDeviceGetComputeMode(nvmlDevice* device, _Out_ int *mode)".
Definition getDeviceGetMigMode : M D NvmlFunc :=
  lazyBinding H "int nvmlDeviceGetMigMode(nvmlDevice* device, _Out_ int *currentMode, _Out_ int *pendingMode)".
Definition getDeviceGetTotalEccErrors : M D NvmlFunc :=
  lazyBinding H "int nvmlDeviceGetTotalEccErrors(nvmlDevice* device, int errorType, int counterType, _Out_ uint64 *eccCounts)".

(* --- bindings/device.ts: exported binding functions --- *)
Definition nvmlDeviceGetCount : M D (Z * Z) :=
  let* f := getDeviceGetCount in
  invoke N f C.nvmlDeviceGetCount_v2.

Definition nvmlDeviceGetHandleByIndex (index : Z) : M D (Z * option KoffiNvmlDevice) :=
  let* f := getDeviceGetHandleByIndex in
  invoke N f (C.nvmlDeviceGetHandleByIndex_v2 index).

Definition nvmlDeviceGetHandleByUUID (uuid : string) : M D (Z * option KoffiNvmlDevice) :=
  let* f := getDeviceGetHandleByUUID in
  invoke N f (C.nvmlDeviceGetHandleByUUID uuid).

Definition nvmlDeviceGetName (device : KoffiNvmlDevice) : M D (Z * string) :=
  let* f := getDeviceGetName in
  let* (ret, written) :=
    invoke N f (C.nvmlDeviceGetName device NVML_DEVICE_NAME_BUFFER_SIZE) in
  let buffer := Js.buffer (Z.to_nat NVML_DEVICE_NAME_BUFFER_SIZE) written in
  let name := Js.remove_nuls buffer in
  ret_ (ret, name).

Definition nvmlDeviceGetUUID (device : KoffiNvmlDevice) : M D (Z * string) :=
  let* f := getDeviceGetUUID in
  let* (ret, written) :=
    invoke N f (C.nvmlDeviceGetUUID device NVML_DEVICE_UUID_BUFFER_SIZE) in
  let buffer := Js.buffer (Z.to_nat NVML_DEVICE_UUID_BUFFER_SIZE) written in
  let uuid := Js.remove_nuls buffer in
  ret_ (ret, uuid).

Definition nvmlDeviceGetMemoryInfo (device : KoffiNvmlDevice) : M D (Z * RawNvmlMemory) :=
  let* f := getDeviceGetMemoryInfo in
  invoke N f (C.nvmlDeviceGetMemoryInfo device).

Definition nvmlDeviceGetUtilizationRates (device : KoffiNvmlDevice)
  : M D (Z * RawNvmlUtilization) :=
  let* f := getDeviceGetUtilizationRates in
  invoke N f (C.nvmlDeviceGetUtilizationRates device).

Definition nvmlDeviceGetTemperature (device : KoffiNvmlDevice) (sensorType : Z)
  : M D (Z * Z) :=
  let* f := getDeviceGetTemperature in
  invoke N f (C.nvmlDeviceGetTemperature device sensorType).

Definition nvmlDeviceGetPowerUsage (device : KoffiNvmlDevice) : M D (Z * Z) :=
  let* f := getDeviceGetPowerUsage in
  invoke N f (C.nvmlDeviceGetPowerUsage device).

Definition nvmlDeviceGetPowerManagementLimit (device : KoffiNvmlDevice) : M D (Z * Z) :=
  let* f := getDeviceGetPowerManagementLimit in
  invoke N f (C.nvmlDeviceGetPowerManagementLimit device).

Definition nvmlDeviceGetFanSpeed (device : KoffiNvmlDevice) : M D (Z * Z) :=
  let* f := getDeviceGetFanSpeed in
  invoke N f (C.nvmlDeviceGetFanSpeed device).

Definition nvmlDeviceGetPerformanceState (device : KoffiNvmlDevice) : M D (Z * Z) :=
  let* f := getDeviceGetPerformanceState in
  invoke N f (C.nvmlDeviceGetPerformanceState device).

Definition nvmlDeviceGetPciInfo (device : KoffiNvmlDevice) : M D (Z * RawNvmlPciInfo) :=
  let* f := getDeviceGetPciInfo in
  invoke N f (C.nvmlDeviceGetPciInfo_v3 device).

Definition nvmlDeviceGetPersistenceMode (device : KoffiNvmlDevice) : M D (Z * bool) :=
  let* f := getDeviceGetPersistenceMode in
  let* (ret, mode) := invoke N f (C.nvmlDeviceGetPersistenceMode device) in
  ret_ (ret, (mode =? 1)%Z).

Definition nvmlDeviceGetDisplayActive (device : KoffiNvmlDevice) : M D (Z * bool) :=
  let* f := getDeviceGetDisplayActive in
  let* (ret, isActive) := invoke N f (C.nvmlDeviceGetDisplayActive device) in
  ret_ (ret, (isActive =? 1)%Z).

Definition nvmlDeviceGetComputeMode (device : KoffiNvmlDevice) : M D (Z * Z) :=
  let* f := getDeviceGetComputeMode in
  invoke N f (C.nvmlDeviceGetComputeMode device).

Definition nvmlDeviceGetMigMode (device : KoffiNvmlDevice) : M D (Z * Z * Z) :=
  let* f := getDeviceGetMigMode in
  invoke N f (C.nvmlDeviceGetMigMode device).

Definition nvmlDeviceGetTotalEccErrors (device : KoffiNvmlDevice)
    (errorType counterType : Z) : M D (Z * Z) :=
  let* f := getDeviceGetTotalEccErrors in
  invoke N f (C.nvmlDeviceGetTotalEccErrors device errorType counterType).

(* --- bindings/system.ts --- *)
Definition getSystemGetDriverVersion : M D NvmlFunc :=
  lazyBinding H "int nvmlSystemGetDriverVersion(_Out_ str *version, uint length)".
Definition getSystemGetNvmlVersion : M D NvmlFunc :=
  lazyBinding H "int nvmlSystemGetNVMLVersion(_Out_ str *version, uint length)".
Definition getSystemGetCudaDriverVersion_v2 : M D NvmlFunc :=
  lazyBinding H "int nvmlSystemGetCudaDriverVersion_v2(_Out_ int *cudaDriverVersion)".
Definition getSystemGetProcessName : M D NvmlFunc :=
  lazyBinding H "int nvmlSystemGetProcessName(uint pid, _Out_ str *name, uint length)".

Definition nvmlSystemGetDriverVersion : M D (Z * string) :=
  let* f := getSystemGetDriverVersion in
  let* (ret, written) :=
    invoke N f (C.nvmlSystemGetDriverVersion NVML_SYSTEM_DRIVER_VERSION_BUFFER_SIZE) in
  let buffer := Js.buffer (Z.to_nat NVML_SYSTEM_DRIVER_VERSION_BUFFER_SIZE) written in
  let version := Js.remove_nuls buffer in
  ret_ (ret, version).

Definition nvmlSystemGetNvmlVersion : M D (Z * string) :=
  let* f := getSystemGetNvmlVersion in
  let* (ret, written) :=
    invoke N f (C.nvmlSystemGetNVMLVersion NVML_SYSTEM_NVML_VERSION_BUFFER_SIZE) in
  let buffer := Js.buffer (Z.to_nat NVML_SYSTEM_NVML_VERSION_BUFFER_SIZE) written in
  let version := Js.remove_nuls buffer in
  ret_ (ret, version).

Definition nvmlSystemGetCudaDriverVersion_v2 : M D (Z * Z) :=
  let* f := getSystemGetCudaDriverVersion_v2 in
  invoke N f C.nvmlSystemGetCudaDriverVersion_v2.

Definition nvmlSystemGetProcessName (pid : Z) : M D (Z * string) :=
  let* f := getSystemGetProcessName in
  let* (ret, written) := invoke N f (C.nvmlSystemGetProcessName pid 256) in
  let buffer := Js.buffer 256 written in
  let name := Js.before_first_nul buffer in
  ret_ (ret, name).

(* --- bindings/process.ts --- *)
Definition getDeviceGetComputeRunningProcesses : M D NvmlFunc :=
  lazyBinding H "int nvmlDeviceGetComputeRunningProcesses_v3(nvmlDevice* device, _Inout_ uint *infoCount, _Out_ nvmlProcessInfo_v2_t *infos)".
Definition getDeviceGetGraphicsRunningProcesses : M D NvmlFunc :=
  lazyBinding H "int nvmlDeviceGetGraphicsRunningProcesses_v3(nvmlDevice* device, _Inout_ uint *infoCount, _Out_ nvmlProcessInfo_v2_t *infos)".

Definition nvmlDeviceGetComputeRunningProcesses (device : KoffiNvmlDevice)
  : M D (Z * list RawProcessInfo) :=
  let* f := getDeviceGetComputeRunningProcesses in
  let* (ret, count, written) :=
    invoke N f (C.nvmlDeviceGetComputeRunningProcesses_v3 device MAX_PROCESSES) in
  let infos := infoArray (Z.to_nat MAX_PROCESSES) written in
  ret_ (ret, validProcesses count infos).

Definition nvmlDeviceGetGraphicsRunningProcesses (device : KoffiNvmlDevice)
  : M D (Z * list RawProcessInfo) :=
  let* f := getDeviceGetGraphicsRunningProcesses in
  let* (ret, count, written) :=
    invoke N f (C.nvmlDeviceGetGraphicsRunningProcesses_v3 device MAX_PROCESSES) in
  let infos := infoArray (Z.to_nat MAX_PROCESSES) written in
  ret_ (ret, validProcesses count infos).
End Bindings.

(* ===================================================================== *)
(** ** types/structs.ts                                                   *)
(* ===================================================================== *)

Module MemoryInfo.
Record t : Type := mk { total : Z; free : Z; used : Z }.
End MemoryInfo.

Module UtilizationRates.
Record t : Type := mk { gpu : Z; memory : Z }.
End UtilizationRates.

Module PciInfo.
Record t : Type := mk {
  busId : string; domain : Z; bus : Z; device : Z; function : Z;
  pciDeviceId : Z; pciSubsystemId : Z }.
End PciInfo.

Module GpuBasicInfo.
Record t : Type := mk {
  index : Z; name : string; memoryTotalMiB : float; memoryTotalGiB : float }.
End GpuBasicInfo.

Module GpuStatus.
Record t : Type := mk {
  index : Z;
  name : string;
  persistenceMode : bool;
  pciBusId : string;
  displayActive : bool;
  eccErrorsCorrected : option float;
  fanSpeed : option Z;
  temperature : Z;
  pstate : Z;
  powerDraw : float;
  powerLimit : float;
  memoryUsedMiB : float;
  memoryTotalMiB : float;
  utilizationGpu : Z;
  utilizationMemory : Z;
  computeMode : Z;
  migMode : option bool }.
End GpuStatus.

Module GpuProcess.
Record t : Type := mk {
  gpuIndex : Z; pid : Z; processName : string; usedMemoryMiB : float }.
End GpuProcess.

Module DriverInfo.
Record t : Type := mk {
  driverVersion : string; nvmlVersion : string; cudaVersion : string }.
End DriverInfo.

Module SystemSnapshot.
Record t : Type := mk {
  timestamp : Z;
  driver : DriverInfo.t;
  gpus : list GpuStatus.t;
  processes : list GpuProcess.t }.
End SystemSnapshot.

(* ===================================================================== *)
(** ** device.ts                                                          *)
(* ===================================================================== *)

Module Device.
Record t : Type := mk { handle : KoffiNvmlDevice; index : Z }.

Section Methods.
Context (H : Host) {D : Type} (N : Native D).

(** [index] is typed [number] and modelled in [Z], so of the guard
    [typeof index !== 'number' || !Number.isInteger(index) || index < 0]
    only the last disjunct can hold. *)
Definition getByIndex (index : Z) : M D t :=
  if (index <? 0)%Z then
    throw (ExnError ("Invalid device index: expected non-negative integer, got "
                     +:+ Js.show index))
  else
    let* (ret, device) := nvmlDeviceGetHandleByIndex H N index in
    match device with
    | Some device =>
        if negb (isSuccess ret) then
          throw (ExnNvml (fromReturn ret
                   (Some ("Failed to get device at index " +:+ Js.show index))))
        else ret_ (mk device index)
    | None =>
        throw (ExnNvml (fromReturn ret
                 (Some ("Failed to get device at index " +:+ Js.show index))))
    end.

Definition getByUUID (uuid : string) : M D t :=
  if Js.trim_is_empty uuid then
    throw (ExnError "Invalid device UUID: expected non-empty string")
  else
    let* (ret, device) := nvmlDeviceGetHandleByUUID H N uuid in
    match device with
    | Some device =>
        if negb (isSuccess ret) then
          throw (ExnNvml (fromReturn ret
                   (Some ("Failed to get device with UUID " +:+ uuid))))
        else ret_ (mk device (-1))
    | None =>
        throw (ExnNvml (fromReturn ret
                 (Some ("Failed to get device with UUID " +:+ uuid))))
    end.

Definition getName (this : t) : M D (Result string) :=
  let* (ret, name) := nvmlDeviceGetName H N (handle this) in
  if negb (isSuccess ret) then
    ret_ (errFromReturn ret (Some "Failed to get device name"))
  else ret_ (ok name).

Definition getUUID (this : t) : M D (Result string) :=
  let* (ret, uuid) := nvmlDeviceGetUUID H N (handle this) in
  if negb (isSuccess ret) then
    ret_ (errFromReturn ret (Some "Failed to get device UUID"))
  else ret_ (ok uuid).

Definition getMemoryInfo (this : t) : M D (Result MemoryInfo.t) :=
  let* (ret, memory) := nvmlDeviceGetMemoryInfo H N (handle this) in
  if negb (isSuccess ret) then
    ret_ (errFromReturn ret (Some "Failed to get memory info"))
  else ret_ (ok (MemoryInfo.mk (raw_total memory) (raw_free memory) (raw_used memory))).

Definition getUtilizationRates (this : t) : M D (Result UtilizationRates.t) :=
  let* (ret, utilization) := nvmlDeviceGetUtilizationRates H N (handle this) in
  if negb (isSuccess ret) then
    ret_ (errFromReturn ret (Some "Failed to get utilization rates"))
  else ret_ (ok (UtilizationRates.mk (raw_gpu utilization) (raw_memory utilization))).

Definition getTemperature (this : t) : M D (Result Z) :=
  let* (ret, temperature) :=
    nvmlDeviceGetTemperature H N (handle this) NvmlTemperatureSensors.GPU in
  if negb (isSuccess ret) then
    ret_ (errFromReturn ret (Some "Failed to get temperature"))
  else ret_ (ok temperature).

Definition getPowerUsage (this : t) : M D (Result float) :=
  let* (ret, power) := nvmlDeviceGetPowerUsage H N (handle this) in
  if negb (isSuccess ret) then
    ret_ (errFromReturn ret (Some "Failed to get power usage"))
  else ret_ (ok (Js.Number power / 1000)%float).

Definition getPowerLimit (this : t) : M D (Result float) :=
  let* (ret, limit) := nvmlDeviceGetPowerManagementLimit H N (handle this) in
  if negb (isSuccess ret) then
    ret_ (errFromReturn ret (Some "Failed to get power limit"))
  else ret_ (ok (Js.Number limit / 1000)%float).

Definition getFanSpeed (this : t) : M D (Result (option Z)) :=
  let* (ret, speed) := nvmlDeviceGetFanSpeed H N (handle this) in
  if (ret =? NvmlReturn.ERROR_NOT_SUPPORTED)%Z then ret_ (ok None)
  else if negb (isSuccess ret) then
    ret_ (errFromReturn ret (Some "Failed to get fan speed"))
  else ret_ (ok (Some speed)).

Definition getPerformanceState (this : t) : M D (Result Z) :=
  let* (ret, pState) := nvmlDeviceGetPerformanceState H N (handle this) in
  if negb (isSuccess ret) then
    ret_ (errFromReturn ret (Some "Failed to get performance state"))
  else ret_ (ok pState).

Definition getPciInfo (this : t) : M D (Result PciInfo.t) :=
  let* (ret, pci) := nvmlDeviceGetPciInfo H N (handle this) in
  if negb (isSuccess ret) then
    ret_ (errFromReturn ret (Some "Failed to get PCI info"))
  else ret_ (ok (PciInfo.mk (raw_busId pci) (raw_domain pci) (raw_bus pci)
                            (raw_device pci) 0 (raw_pciDeviceId pci)
                            (raw_pciSubSystemId pci))).

Definition getPersistenceMode (this : t) : M D (Result bool) :=
  let* (ret, enabled) := nvmlDeviceGetPersistenceMode H N (handle this) in
  if negb (isSuccess ret) then
    ret_ (errFromReturn ret (Some "Failed to get persistence mode"))
  else ret_ (ok enabled).

Definition getDisplayActive (this : t) : M D (Result bool) :=
  let* (ret, active) := nvmlDeviceGetDisplayActive H N (handle this) in
  if negb (isSuccess ret) then
    ret_ (errFromReturn ret (Some "Failed to get display active status"))
  else ret_ (ok active).

Definition getComputeMode (this : t) : M D (Result Z) :=
  let* (ret, mode) := nvmlDeviceGetComputeMode H N (handle this) in
  if negb (isSuccess ret) then
    ret_ (errFromReturn ret (Some "Failed to get compute mode"))
  else ret_ (ok mode).

Definition getMigMode (this : t) : M D (Result (option bool)) :=
  let* (ret, currentMode, pendingMode) := nvmlDeviceGetMigMode H N (handle this) in
  if (ret =? NvmlReturn.ERROR_NOT_SUPPORTED)%Z then ret_ (ok None)
  else if negb (isSuccess ret) then
    ret_ (errFromReturn ret (Some "Failed to get MIG mode"))
  else ret_ (ok (Some (currentMode =? 1)%Z)).

Definition getEccErrorsCorrected (this : t) : M D (Result (option float)) :=
  let* (ret, count) :=
    nvmlDeviceGetTotalEccErrors H N (handle this)
      NvmlMemoryErrorType.CORRECTED NvmlEccCounterType.VOLATILE in
  if (ret =? NvmlReturn.ERROR_NOT_SUPPORTED)%Z then ret_ (ok None)
  else if negb (isSuccess ret) then
    ret_ (errFromReturn ret (Some "Failed to get ECC errors"))
  else ret_ (ok (Some (Js.Number count))).

Definition getBasicInfo (this : t) : M D (Result GpuBasicInfo.t) :=
  let* nameResult := getName this in
  match nameResult with
  | Err error => ret_ (Err error)
  | Ok name =>
  let* memoryResult := getMemoryInfo this in
  match memoryResult with
  | Err error => ret_ (Err error)
  | Ok memory =>
  let totalMiB := Js.Number (Z.quot (MemoryInfo.total memory) (1024 * 1024)) in
  ret_ (ok (GpuBasicInfo.mk (index this) name totalMiB
              (Js.Math_round ((totalMiB / 1024) * 10) / 10)%float))
  end end.

Definition getStatus (this : t) : M D (Result GpuStatus.t) :=
  let* nameResult := getName this in
  match nameResult with Err error => ret_ (Err error) | Ok name =>
  let* persistenceResult := getPersistenceMode this in
  match persistenceResult with Err error => ret_ (Err error) | Ok persistence =>
  let* pciResult := getPciInfo this in
  match pciResult with Err error => ret_ (Err error) | Ok pci =>
  let* displayResult := getDisplayActive this in
  match displayResult with Err error => ret_ (Err error) | Ok display =>
  let* eccResult := getEccErrorsCorrected this in
  match eccResult with Err error => ret_ (Err error) | Ok ecc =>
  let* fanResult := getFanSpeed this in
  match fanResult with Err error => ret_ (Err error) | Ok fan =>
  let* tempResult := getTemperature this in
  match tempResult with Err error => ret_ (Err error) | Ok temp =>
  let* pstateResult := getPerformanceState this in
  match pstateResult with Err error => ret_ (Err error) | Ok pstate =>
  let* powerResult := getPowerUsage this in
  match powerResult with Err error => ret_ (Err error) | Ok power =>
  let* powerLimitResult := getPowerLimit this in
  match powerLimitResult with Err error => ret_ (Err error) | Ok powerLimit =>
  let* memoryResult := getMemoryInfo this in
  match memoryResult with Err error => ret_ (Err error) | Ok memory =>
  let* utilResult := getUtilizationRates this in
  match utilResult with Err error => ret_ (Err error) | Ok util =>
  let* computeModeResult := getComputeMode this in
  match computeModeResult with Err error => ret_ (Err error) | Ok computeMode =>
  let* migResult := getMigMode this in
  match migResult with Err error => ret_ (Err error) | Ok mig =>
  let usedMiB := Js.Number (Z.quot (MemoryInfo.used memory) (1024 * 1024)) in
  let totalMiB := Js.Number (Z.quot (MemoryInfo.total memory) (1024 * 1024)) in
  ret_ (ok (GpuStatus.mk (index this) name persistence (PciInfo.busId pci) display
              ecc fan temp pstate power powerLimit usedMiB totalMiB
              (UtilizationRates.gpu util) (UtilizationRates.memory util)
              computeMode mig))
  end end end end end end end end end end end end end end.

(** The [for (const rawProc of allRawProcesses)] loop of [getProcesses],
    with its two accumulators [seenPids] and [processes]. *)
Fixpoint collectProcesses (this : t) (allRawProcesses : list RawProcessInfo)
    (seenPids : gset Z) (processes : list GpuProcess.t) : M D (list GpuProcess.t) :=
  match allRawProcesses with
  | [] => ret_ processes
  | rawProc :: rest =>
      if bool_decide (raw_pid rawProc ∈ seenPids) then
        collectProcesses this rest seenPids processes
      else
        let seenPids := {[ raw_pid rawProc ]} ∪ seenPids in
        let* (ret, name) := nvmlSystemGetProcessName H N (raw_pid rawProc) in
        let processName :=
          if isSuccess ret then name else "pid:" +:+ Js.show (raw_pid rawProc) in
        let usedMemoryMiB := Js.Number (Z.quot (usedGpuMemory rawProc) (1024 * 1024)) in
        collectProcesses this rest seenPids
          (processes ++
           [GpuProcess.mk (index this) (raw_pid rawProc) processName usedMemoryMiB])
  end.

Definition getProcesses (this : t) : M D (Result (list GpuProcess.t)) :=
  let* (cret, computeProcesses) :=
    nvmlDeviceGetComputeRunningProcesses H N (handle this) in
  if negb (isSuccess cret) then
    ret_ (errFromReturn cret (Some "Failed to get compute processes"))
  else
    let* (gret, graphicsProcesses) :=
      nvmlDeviceGetGraphicsRunningProcesses H N (handle this) in
    if negb (isSuccess gret) then
      ret_ (errFromReturn gret (Some "Failed to get graphics processes"))
    else
      let allRawProcesses := (computeProcesses ++ graphicsProcesses)%list in
      let* processes := collectProcesses this allRawProcesses ∅ [] in
      ret_ (ok processes).

Definition getHandle (this : t) : KoffiNvmlDevice := handle this.
End Methods.
End Device.

(* ===================================================================== *)
(** ** nvml.ts                                                            *)
(* ===================================================================== *)

Module Nvml.
Section Namespace.
Context (H : Host) {D : Type} (N : Native D).

Definition init : M D unit :=
  let* ret := nvmlInit H N in
  if negb (isSuccess ret) then
    throw (ExnNvml (fromReturn ret (Some "Failed to initialize NVML")))
  else set_initialized true.

Definition shutdown : M D unit :=
  let* ret := nvmlShutdown H N in
  if negb (isSuccess ret) then
    throw (ExnNvml (fromReturn ret (Some "Failed to shutdown NVML")))
  else set_initialized false.

Definition isInitialized : M D bool := read initialized.

Definition ensureInitialized : M D unit :=
  let* flag := read initialized in
  if negb flag then
    throw (ExnNvml (new_NvmlError NvmlReturn.ERROR_UNINITIALIZED
                      (Some "NVML not initialized. Call Nvml.init() first.")))
  else ret_ tt.

Definition getDeviceCount : M D Z :=
  ensureInitialized ;;
  let* (ret, count) := nvmlDeviceGetCount H N in
  if negb (isSuccess ret) then
    throw (ExnNvml (fromReturn ret (Some "Failed to get device count")))
  else ret_ count.

Definition getDevice (index : Z) : M D Device.t :=
  ensureInitialized ;;
  Device.getByIndex H N index.

Definition getDeviceByUUID (uuid : string) : M D Device.t :=
  ensureInitialized ;;
  Device.getByUUID H N uuid.

(** [for (let i = 0; i < count; i++) devices.push(Device.getByIndex(i))]:
    [remaining] iterations are left, the next one is for index [i]. *)
Fixpoint pushDevices (remaining : nat) (i : Z) (devices : list Device.t)
  : M D (list Device.t) :=
  match remaining with
  | O => ret_ devices
  | S k =>
      let* device := Device.getByIndex H N i in
      pushDevices k (i + 1) (devices ++ [device])%list
  end.

Definition getAllDevices : M D (list Device.t) :=
  let* count := getDeviceCount in
  pushDevices (Z.to_nat count) 0 [].

Definition getDriverInfo : M D (Result DriverInfo.t) :=
  ensureInitialized ;;
  let* (dret, driverVersion) := nvmlSystemGetDriverVersion H N in
  if negb (isSuccess dret) then
    ret_ (errFromReturn dret (Some "Failed to get driver version"))
  else
    let* (nret, nvmlVersion) := nvmlSystemGetNvmlVersion H N in
    if negb (isSuccess nret) then
      ret_ (errFromReturn nret (Some "Failed to get NVML version"))
    else
      let* (cret, cudaVersion) := nvmlSystemGetCudaDriverVersion_v2 H N in
      if negb (isSuccess cret) then
        ret_ (errFromReturn cret (Some "Failed to get CUDA version"))
      else
        ret_ (ok (DriverInfo.mk driverVersion nvmlVersion
                    (cudaVersionToString cudaVersion))).

Definition getDriverVersion : M D (Result string) :=
  ensureInitialized ;;
  let* (ret, version) := nvmlSystemGetDriverVersion H N in
  if negb (isSuccess ret) then
    ret_ (errFromReturn ret (Some "Failed to get driver version"))
  else ret_ (ok version).

Definition getNvmlVersion : M D (Result string) :=
  ensureInitialized ;;
  let* (ret, version) := nvmlSystemGetNvmlVersion H N in
  if negb (isSuccess ret) then
    ret_ (errFromReturn ret (Some "Failed to get NVML version"))
  else ret_ (ok version).

Definition getCudaVersion : M D (Result string) :=
  ensureInitialized ;;
  let* (ret, version) := nvmlSystemGetCudaDriverVersion_v2 H N in
  if negb (isSuccess ret) then
    ret_ (errFromReturn ret (Some "Failed to get CUDA version"))
  else ret_ (ok (cudaVersionToString version)).

(** The status loop of [getAllGpuStatus]. *)
Fixpoint pushStatuses (remaining : nat) (i : Z) (statuses : list GpuStatus.t)
  : M D (Result (list GpuStatus.t)) :=
  match remaining with
  | O => ret_ (ok statuses)
  | S k =>
      let* device := Device.getByIndex H N i in
      let* statusResult := Device.getStatus H N device in
      match statusResult with
      | Err error => ret_ (Err error)
      | Ok status => pushStatuses k (i + 1) (statuses ++ [status])%list
      end
  end.

Definition getAllGpuStatus : M D (Result (list GpuStatus.t)) :=
  ensureInitialized ;;
  let* (ret, count) := nvmlDeviceGetCount H N in
  if negb (isSuccess ret) then
    ret_ (errFromReturn ret (Some "Failed to get device count"))
  else pushStatuses (Z.to_nat count) 0 [].

(** The process loop of [getSystemSnapshot]. *)
Fixpoint pushProcesses (remaining : nat) (i : Z) (allProcesses : list GpuProcess.t)
  : M D (Result (list GpuProcess.t)) :=
  match remaining with
  | O => ret_ (ok allProcesses)
  | S k =>
      let* device := Device.getByIndex H N i in
      let* processResult := Device.getProcesses H N device in
      match processResult with
      | Err error => ret_ (Err error)
      | Ok processes => pushProcesses k (i + 1) (allProcesses ++ processes)%list
      end
  end.

(** [new Date()]: a reading of the wall clock. *)
Definition newDate : M D Z :=
  let* history := read trace in
  emit EvNow ;;
  ret_ (wallclock H history).

Definition getSystemSnapshot : M D (Result SystemSnapshot.t) :=
  ensureInitialized ;;
  let* driverInfoResult := getDriverInfo in
  match driverInfoResult with
  | Err error => ret_ (Err error)
  | Ok driverInfo =>
  let* gpuStatusResult := getAllGpuStatus in
  match gpuStatusResult with
  | Err error => ret_ (Err error)
  | Ok gpuStatus =>
  let* (ret, count) := nvmlDeviceGetCount H N in
  if negb (isSuccess ret) then
    ret_ (errFromReturn ret (Some "Failed to get device count for process query"))
  else
    let* processesResult := pushProcesses (Z.to_nat count) 0 [] in
    match processesResult with
    | Err error => ret_ (Err error)
    | Ok allProcesses =>
        let* timestamp := newDate in
        ret_ (ok (SystemSnapshot.mk timestamp driverInfo gpuStatus allProcesses))
    end
  end end.
End Namespace.
End Nvml.

(* ===================================================================== *)
(** ** A simulated single-GPU system (test/mocks/nvml-mock.ts)            *)
(* ===================================================================== *)

(** The machine the unit tests simulate, one GPU and three processes, as a
    native library.  Its driver state holds what the two process queries
    report, whether the GPU has a fan, and after how many further native
    calls the GPU falls off the bus (never, when [None]), so that failures
    can be simulated too. *)
Module Mock.

Definition mockDeviceHandle : KoffiNvmlDevice := 4096.

Definition mockUuid : string := "GPU-mock-uuid-1234-5678-abcdef".

Definition mockProcessName (pid : Z) : option string :=
  if (pid =? 1234)%Z then Some "/usr/bin/python3"
  else if (pid =? 5678)%Z then Some "/opt/cuda/bin/cuda-app"
  else if (pid =? 9999)%Z then Some "/usr/bin/Xorg"
  else None.

Record Driver : Type := mkDriver {
  compute : list RawProcessInfo;
  graphics : list RawProcessInfo;
  has_fan : bool;
  lost_after : option nat
}.

(** The status of the next call: success, or [ERROR_GPU_IS_LOST]. *)
Definition status (d : Driver) : Z :=
  match lost_after d with
  | Some O => NvmlReturn.ERROR_GPU_IS_LOST
  | _ => NvmlReturn.SUCCESS
  end.

(** One native call has been served. *)
Definition tick (d : Driver) : Driver :=
  mkDriver (compute d) (graphics d) (has_fan d)
    (match lost_after d with
     | Some (S n) => Some n
     | other => other
     end).

Definition mockDriver : Driver :=
  mkDriver
    [ mkRawProcessInfo 1234 (512 * 1024 * 1024) 0 0;
      mkRawProcessInfo 5678 (1024 * 1024 * 1024) 0 0 ]
    [ mkRawProcessInfo 9999 (256 * 1024 * 1024) 0 0 ]
    true None.

Definition native : Native Driver := fun R h c =>
  match c in C.Call R return Driver -> R * Driver with
  | C.nvmlInit_v2 => fun d => (status d, d)
  | C.nvmlShutdown => fun d => (status d, d)
  | C.nvmlDeviceGetCount_v2 => fun d => ((status d, 1), tick d)
  | C.nvmlDeviceGetHandleByIndex_v2 index => fun d =>
      (if (status d =? 0)%Z then
         if (index =? 0)%Z then (0, Some mockDeviceHandle) else (2, None)
       else (status d, None), tick d)
  | C.nvmlDeviceGetHandleByUUID uuid => fun d =>
      (if (status d =? 0)%Z then
         if String.eqb uuid mockUuid then (0, Some mockDeviceHandle) else (6, None)
       else (status d, None), tick d)
  | C.nvmlDeviceGetName _ _ => fun d => ((status d, "NVIDIA Mock GPU"), tick d)
  | C.nvmlDeviceGetUUID _ _ => fun d => ((status d, mockUuid), tick d)
  | C.nvmlDeviceGetMemoryInfo _ => fun d =>
      ((status d,
        mkRawNvmlMemory (8 * 1024 * 1024 * 1024) (6 * 1024 * 1024 * 1024)
                        (2 * 1024 * 1024 * 1024)), tick d)
  | C.nvmlDeviceGetUtilizationRates _ => fun d =>
      ((status d, mkRawNvmlUtilization 45 25), tick d)
  | C.nvmlDeviceGetTemperature _ _ => fun d => ((status d, 55), tick d)
  | C.nvmlDeviceGetPowerUsage _ => fun d => ((status d, 150000), tick d)
  | C.nvmlDeviceGetPowerManagementLimit _ => fun d => ((status d, 300000), tick d)
  | C.nvmlDeviceGetFanSpeed _ => fun d =>
      (if (status d =? 0)%Z then
         if has_fan d then (0, 50) else (NvmlReturn.ERROR_NOT_SUPPORTED, 0)
       else (status d, 0), tick d)
  | C.nvmlDeviceGetPerformanceState _ => fun d => ((status d, 0), tick d)
  | C.nvmlDeviceGetPciInfo_v3 _ => fun d =>
      ((status d,
        mkRawNvmlPciInfo "0000:00:1E.0" 0 0 30 1193046 7903932 "00000000:00:1E.0"),
       tick d)
  | C.nvmlDeviceGetPersistenceMode _ => fun d => ((status d, 1), tick d)
  | C.nvmlDeviceGetDisplayActive _ => fun d => ((status d, 0), tick d)
  | C.nvmlDeviceGetComputeMode _ => fun d => ((status d, 0), tick d)
  | C.nvmlDeviceGetMigMode _ => fun d => ((status d, 0, 0), tick d)
  | C.nvmlDeviceGetTotalEccErrors _ _ _ => fun d => ((status d, 0), tick d)
  | C.nvmlDeviceGetComputeRunningProcesses_v3 _ _ => fun d =>
      ((status d, Z.of_nat (List.length (compute d)), compute d), tick d)
  | C.nvmlDeviceGetGraphicsRunningProcesses_v3 _ _ => fun d =>
      ((status d, Z.of_nat (List.length (graphics d)), graphics d), tick d)
  | C.nvmlSystemGetDriverVersion _ => fun d => ((status d, "535.154.05"), tick d)
  | C.nvmlSystemGetNVMLVersion _ => fun d => ((status d, "12.535.154.05"), tick d)
  | C.nvmlSystemGetCudaDriverVersion_v2 => fun d => ((status d, 12040), tick d)
  | C.nvmlSystemGetProcessName pid _ => fun d =>
      (match mockProcessName pid with
       | Some name => (0, name)
       | None => (NvmlReturn.ERROR_NOT_FOUND, "")
       end, tick d)
  end.

(** A host on which the dynamic linker finds the library, which exports
    every symbol asked of it; its clock ticks once per effect. *)
Definition host : Host :=
  mkHost None (fun _ => false) (fun _ => Loaded) (fun _ _ => Bound)
         (fun history => Z.of_nat (List.length history)).

(** The same host with a library that lacks the symbol of prototype
    [missing]. *)
Definition hostWithout (missing : string) : Host :=
  mkHost None (fun _ => false) (fun _ => Loaded)
         (fun _ sig =>
            if String.eqb sig missing
            then FuncThrows ("Cannot find function in shared library: " +:+ sig)
            else Bound)
         (fun history => Z.of_nat (List.length history)).

(** A host on which the library cannot be loaded. *)
Definition hostWithoutLibrary : Host :=
  mkHost None (fun _ => false)
         (fun _ => LoadThrowsError "cannot open shared object file")
         (fun _ _ => Bound)
         (fun history => Z.of_nat (List.length history)).

(** Run a computation for the world it leaves, whatever it returned. *)
Definition after {A} (m : M Driver A) (w : World Driver) : World Driver := snd (m w).

(** The module graph right after import. *)
Definition fresh : World Driver := freshWorld mockDriver.

(** After [Nvml.init()]. *)
Definition ready : World Driver := after (Nvml.init host native) fresh.

(** A fresh module graph on a machine whose GPU is already lost. *)
Definition freshLost : World Driver :=
  freshWorld (mkDriver (compute mockDriver) (graphics mockDriver) true (Some O)).

(** After [Nvml.init()], when the GPU is lost after [n] more native
    calls. *)
Definition readyLostAfter (n : nat) : World Driver :=
  mkWorld true (lib ready) (libraryPath ready) (slots ready) (loads ready)
          (mkDriver (compute mockDriver) (graphics mockDriver) true (Some n))
          (trace ready).

(** After [Nvml.init()], on a passively cooled GPU. *)
Definition readyPassive : World Driver :=
  after (Nvml.init host native)
        (freshWorld (mkDriver (compute mockDriver) (graphics mockDriver) false None)).

(** After [Nvml.init()], when a process runs in both a compute and a
    graphics context and two processes have no resolvable name. *)
Definition readyShared : World Driver :=
  after (Nvml.init host native)
        (freshWorld
           (mkDriver
              [ mkRawProcessInfo 1234 (512 * 1024 * 1024) 0 0;
                mkRawProcessInfo 4242 (64 * 1024 * 1024) 0 0 ]
              [ mkRawProcessInfo 777 (3 * 1024 * 1024) 0 0;
                mkRawProcessInfo 1234 (7 * 1024 * 1024) 0 0 ]
              true None)).

(** The device [Nvml.getDevice(0)] returns. *)
Definition device : Device.t := Device.mk mockDeviceHandle 0.

(** After [Nvml.init()] and one device count query. *)
Definition counted : World Driver := after (nvmlDeviceGetCount host native) ready.

(** Then the library is unloaded. *)
Definition unloaded : World Driver := after unloadLibrary counted.

(** Then a name query, whose symbol was not resolved before, makes the
    library manager load the library again. *)
Definition reloaded : World Driver :=
  after (nvmlDeviceGetName host native mockDeviceHandle) unloaded.
End Mock.

#[global] Instance NvmlFunc_eq_dec : EqDecision NvmlFunc.
Proof. solve_decision. Defined.

#[global] Instance Event_eq_dec : EqDecision Event.
Proof. solve_decision. Defined.

(** The effects recorded from world [w] to a later world [w']. *)
Definition since {D} (w w' : World D) : list Event :=
  drop (List.length (trace w)) (trace w').

(* ===================================================================== *)
(** ** Specification-side vocabulary                                      *)
(* ===================================================================== *)

(** The footprint of the binding layer and of every query built on it: the
    lifecycle flag is untouched, cached bindings stay as they are, a loaded
    library stays loaded, and the history grows by effects other than a
    reading of the clock. *)
Definition quiet {D} (w w' : World D) : Prop :=
  initialized w' = initialized w /\
  slots w ⊆ slots w' /\
  (forall l, lib w = Some l -> lib w' = Some l) /\
  exists evs, trace w' = (trace w ++ evs)%list /\ ~ In EvNow evs.

(** [m] stays within the footprint, however it ends. *)
Definition keeps {D A} (m : M D A) : Prop :=
  forall w o w', m w = (o, w') -> quiet w w'.

(** What [findLibraryPath] answers on host [H]. *)
Definition discovered (H : Host) : option string :=
  match env_NVML_LIBRARY_PATH H with
  | Some envPath =>
      if truthy envPath && existsSync H envPath then Some envPath
      else tryDefaultPaths H DEFAULT_LIBRARY_PATHS
  | None => tryDefaultPaths H DEFAULT_LIBRARY_PATHS
  end.

(** The native library can be loaded on host [H]. *)
Definition loadable (H : Host) : Prop :=
  exists path, discovered H = Some path /\ koffi_load H path = Loaded.

(** The prototypes the wrapper binds: two in [bindings/init.ts], eighteen
    in [bindings/device.ts], four in [bindings/system.ts] and two in
    [bindings/process.ts]. *)
Definition boundSignatures : list string :=
  [ "int nvmlInit_v2()";
    "int nvmlShutdown()";
    "int nvmlDeviceGetCount_v2(_Out_ uint *deviceCount)";
    "int nvmlDeviceGetHandleByIndex_v2(uint index, _Out_ nvmlDevice* *device)";
    "int nvmlDeviceGetHandleByUUID(str uuid, _Out_ nvmlDevice* *device)";
    "int nvmlDeviceGetName(nvmlDevice* device, _Out_ str *name, uint length)";
    "int nvmlDeviceGetUUID(nvmlDevice* device, _Out_ str *uuid, uint length)";
    "int nvmlDeviceGetMemoryInfo(nvmlDevice* device, _Out_ nvmlMemory_t *memory)";
    "int nvmlDeviceGetUtilizationRates(nvmlDevice* device, _Out_ nvmlUtilization_t *utilization)";
    "int nvmlDeviceGetTemperature(nvmlDevice* device, int sensorType, _Out_ uint *temp)";
    "int nvmlDeviceGetPowerUsage(nvmlDevice* device, _Out_ uint *power)";
    "int nvmlDeviceGetPowerManagementLimit(nvmlDevice* device, _Out_ uint *limit)";
    "int nvmlDeviceGetFanSpeed(nvmlDevice* device, _Out_ uint *speed)";
    "int nvmlDeviceGetPerformanceState(nvmlDevice* device, _Out_ int *pState)";
    "int nvmlDeviceGetPciInfo_v3(nvmlDevice* device, _Out_ nvmlPciInfo_t *pci)";
    "int nvmlDeviceGetPersistenceMode(nvmlDevice* device, _Out_ int *mode)";
    "int nvmlDeviceGetDisplayActive(nvmlDevice* device, _Out_ int *isActive)";
    "int nvmlDeviceGetComputeMode(nvmlDevice* device, _Out_ int *mode)";
    "int nvmlDeviceGetMigMode(nvmlDevice* device, _Out_ int *currentMode, _Out_ int *pendingMode)";
    "int nvmlDeviceGetTotalEccErrors(nvmlDevice* device, int errorType, int counterType, _Out_ uint64 *eccCounts)";
    "int nvmlSystemGetDriverVersion(_Out_ str *version, uint length)";
    "int nvmlSystemGetNVMLVersion(_Out_ str *version, uint length)";
    "int nvmlSystemGetCudaDriverVersion_v2(_Out_ int *cudaDriverVersion)";
    "int nvmlSystemGetProcessName(uint pid, _Out_ str *name, uint length)";
    "int nvmlDeviceGetComputeRunningProcesses_v3(nvmlDevice* device, _Inout_ uint *infoCount, _Out_ nvmlProcessInfo_v2_t *infos)";
    "int nvmlDeviceGetGraphicsRunningProcesses_v3(nvmlDevice* device, _Inout_ uint *infoCount, _Out_ nvmlProcessInfo_v2_t *infos)" ].

(** Every library loaded on host [H] exports the symbols the wrapper
    binds. *)
Definition exports (H : Host) : Prop :=
  forall l sig, List.In sig boundSignatures -> koffi_func H l sig = Bound.

(** The native library is loaded, or can be, and exports the symbols the
    wrapper binds. *)
Definition usable (H : Host) {D} (w : World D) : Prop :=
  (is_Some (lib w) \/ loadable H) /\ exports H.

(** A plain JavaScript [Error], as opposed to an [NvmlError]. *)
Definition plainError (ex : Exn) : Prop := exists message, ex = ExnError message.

(** Whatever [m] throws is a plain [Error]: it never throws an
    [NvmlError]. *)
Definition throwsOnlyErrors {D A} (m : M D A) : Prop :=
  forall w ex w', m w = (Thrown ex, w') -> plainError ex.

(** From a usable world, [m] returns (it does not throw) and stays within
    the footprint. *)
Definition returns (H : Host) {D A} (m : M D A) : Prop :=
  forall w, usable H w -> exists a w', m w = (Returned a, w') /\ quiet w w'.

(** The failure a [Result] carries, if any. *)
Definition failureOf {T} (r : Result T) : option NvmlError :=
  match r with
  | Ok _ => None
  | Err error => Some error
  end.

(** Run a query for its failure only. *)
Definition probe {D T} (q : M D (Result T)) : M D (option NvmlError) :=
  let* r := q in ret_ (failureOf r).

(** Run the probes in order and stop at the first failure, which is the
    answer; nothing after it is run. *)
Fixpoint firstFailure {D} (qs : list (M D (option NvmlError))) : M D (option NvmlError) :=
  match qs with
  | [] => ret_ None
  | q :: rest =>
      let* r := q in
      match r with
      | Some error => ret_ (Some error)
      | None => firstFailure rest
      end
  end.

(** The entries of [raws] whose process id is neither in [seen] nor earlier
    in [raws]: the first occurrence of each process id, in list order. *)
Fixpoint firstOccurrencesFrom (seen : gset Z) (raws : list RawProcessInfo)
  : list RawProcessInfo :=
  match raws with
  | [] => []
  | r :: rest =>
      if bool_decide (raw_pid r ∈ seen) then firstOccurrencesFrom seen rest
      else r :: firstOccurrencesFrom ({[ raw_pid r ]} ∪ seen) rest
  end.

Definition firstOccurrences (raws : list RawProcessInfo) : list RawProcessInfo :=
  firstOccurrencesFrom ∅ raws.

(** The entry reported for a raw process, given what the name lookup for
    its process id answered. *)
Definition entryOf (gpuIndex : Z) (r : RawProcessInfo) (reply : Z * string)
  : GpuProcess.t :=
  GpuProcess.mk gpuIndex (raw_pid r)
    (if isSuccess (fst reply) then snd reply else "pid:" +:+ Js.show (raw_pid r))
    (Js.Number (Z.quot (usedGpuMemory r) (1024 * 1024))).

(** Look the names of [pids] up, one native call each, in order. *)
Fixpoint lookupNames (H : Host) {D} (N : Native D) (pids : list Z)
  : M D (list (Z * string)) :=
  match pids with
  | [] => ret_ []
  | pid :: rest =>
      let* reply := nvmlSystemGetProcessName H N pid in
      let* replies := lookupNames H N rest in
      ret_ (reply :: replies)
  end.

Fixpoint zipEntries (gpuIndex : Z) (rs : list RawProcessInfo) (replies : list (Z * string))
  : list GpuProcess.t :=
  match rs, replies with
  | r :: rs', reply :: replies' => entryOf gpuIndex r reply :: zipEntries gpuIndex rs' replies'
  | _, _ => []
  end.

(** The first entry of [raws] with process id [p]. *)
Definition firstWithPid (p : Z) (raws : list RawProcessInfo) : option RawProcessInfo :=
  List.find (fun r => (raw_pid r =? p)%Z) raws.

(** The failure a query reports for status [ret]: the code itself, and the
    query's context followed by the text of the code. *)
Definition failureWith (context : string) (ret : Z) : NvmlError :=
  mkNvmlError ret (context +:+ ": " +:+ nvmlErrorString ret).

(** [query], built on [binding], treats every nonzero status as a failure
    with [context]; [status] reads the status code off what the binding
    returned. *)
Definition strictQuery {D A T} (binding : M D A) (status : A -> Z)
    (query : M D (Result T)) (context : string) : Prop :=
  forall w a w', binding w = (Returned a, w') ->
    (status a = 0 -> exists v, query w = (Returned (Ok v), w')) /\
    (status a <> 0 ->
     query w = (Returned (Err (failureWith context (status a))), w')).

(** [query], built on [binding], answers the not-supported status with a
    success that carries no value, and treats every other nonzero status as
    a failure with [context]. *)
Definition optionalQuery {D A T} (binding : M D A) (status : A -> Z)
    (query : M D (Result (option T))) (context : string) : Prop :=
  forall w a w', binding w = (Returned a, w') ->
    (status a = 0 -> exists v, query w = (Returned (Ok (Some v)), w')) /\
    (status a = NvmlReturn.ERROR_NOT_SUPPORTED ->
     query w = (Returned (Ok None), w')) /\
    (status a <> 0 -> status a <> NvmlReturn.ERROR_NOT_SUPPORTED ->
     query w = (Returned (Err (failureWith context (status a))), w')).

(** The error [ensureInitialized] raises. *)
Definition uninitializedError : NvmlError :=
  mkNvmlError NvmlReturn.ERROR_UNINITIALIZED "NVML not initialized. Call Nvml.init() first.".

(** While the lifecycle flag is down, [m] raises [uninitializedError] and
    leaves the world exactly as it was: no binding is resolved, no native
    call is made, nothing is recorded. *)
Definition failsUninitialized {D A} (m : M D A) : Prop :=
  forall w, initialized w = false -> m w = (Thrown (ExnNvml uninitializedError), w).

(** The single-field queries behind [getBasicInfo], in the order of the
    source. *)
Definition basicInfoFields (H : Host) {D} (N : Native D) (d : Device.t)
  : list (M D (option NvmlError)) :=
  [ probe (Device.getName H N d);
    probe (Device.getMemoryInfo H N d) ].

(** The single-field queries behind [getStatus], in the order of the
    source. *)
Definition statusFields (H : Host) {D} (N : Native D) (d : Device.t)
  : list (M D (option NvmlError)) :=
  [ probe (Device.getName H N d);
    probe (Device.getPersistenceMode H N d);
    probe (Device.getPciInfo H N d);
    probe (Device.getDisplayActive H N d);
    probe (Device.getEccErrorsCorrected H N d);
    probe (Device.getFanSpeed H N d);
    probe (Device.getTemperature H N d);
    probe (Device.getPerformanceState H N d);
    probe (Device.getPowerUsage H N d);
    probe (Device.getPowerLimit H N d);
    probe (Device.getMemoryInfo H N d);
    probe (Device.getUtilizationRates H N d);
    probe (Device.getComputeMode H N d);
    probe (Device.getMigMode H N d) ].

(** Running the probes [qs] one after the other from world [w], each one
    reports no failure, and the last one leaves world [w']. *)
Inductive allSucceed {D} : list (M D (option NvmlError)) -> World D -> World D -> Prop :=
| allSucceed_nil w : allSucceed [] w w
| allSucceed_cons q qs w w1 w2 :
    q w = (Returned None, w1) -> allSucceed qs w1 w2 -> allSucceed (q :: qs) w w2.

(** Looking the devices of the indices [i], [i+1], ... up one after the
    other from world [w], every lookup returns, the devices returned are
    [ds] in that order, and the last lookup leaves world [w']. *)
Inductive lookedUp (H : Host) {D} (N : Native D)
  : Z -> list Device.t -> World D -> World D -> Prop :=
| lookedUp_nil i w : lookedUp H N i [] w w
| lookedUp_cons i d ds w w1 w2 :
    Device.getByIndex H N i w = (Returned d, w1) ->
    lookedUp H N (i + 1) ds w1 w2 ->
    lookedUp H N i (d :: ds) w w2.

(** Index by index from [i], starting in world [w]: the device is looked
    up and its status queried, both succeed, the statuses are [sts] in that
    order, and the last query leaves world [w']. *)
Inductive statusesTaken (H : Host) {D} (N : Native D)
  : Z -> list GpuStatus.t -> World D -> World D -> Prop :=
| statusesTaken_nil i w : statusesTaken H N i [] w w
| statusesTaken_cons i d st sts w w1 w2 w3 :
    Device.getByIndex H N i w = (Returned d, w1) ->
    Device.getStatus H N d w1 = (Returned (Ok st), w2) ->
    statusesTaken H N (i + 1) sts w2 w3 ->
    statusesTaken H N i (st :: sts) w w3.

(** The number of native calls in a history. *)
Fixpoint nativeCalls (evs : list Event) : nat :=
  match evs with
  | [] => 0
  | EvCall _ :: rest => S (nativeCalls rest)
  | _ :: rest => nativeCalls rest
  end.

(** Whenever [m] returns, it has made exactly [k] native calls. *)
Definition spends {D A} (k : nat) (m : M D A) : Prop :=
  forall w a w', m w = (Returned a, w') ->
    nativeCalls (trace w') = (nativeCalls (trace w) + k)%nat.

(* ===================================================================== *)
(** ** Properties                                                         *)
(* ===================================================================== *)

(** *** The monad *)

Lemma bind_returned {S A B} (m : Eff S A) (k : A -> Eff S B) s a s' :
  m s = (Returned a, s') -> bind m k s = k a s'.
Proof. intros E. unfold bind. rewrite E. reflexivity. Qed.

Lemma bind_thrown {S A B} (m : Eff S A) (k : A -> Eff S B) s ex s' :
  m s = (Thrown ex, s') -> bind m k s = (Thrown ex, s').
Proof. intros E. unfold bind. rewrite E. reflexivity. Qed.

Lemma bind_inv {S A B} (m : Eff S A) (k : A -> Eff S B) s o s2 :
  bind m k s = (o, s2) ->
  (exists a s1, m s = (Returned a, s1) /\ k a s1 = (o, s2)) \/
  (exists ex, m s = (Thrown ex, s2) /\ o = Thrown ex).
Proof.
  unfold bind. destruct (m s) as [[a|ex] s1]; intros E.
  - left. eauto.
  - right. inversion E; subst. eauto.
Qed.

Lemma bind_assoc {S A B C} (m : Eff S A) (k : A -> Eff S B) (k' : B -> Eff S C) s :
  bind (bind m k) k' s = bind m (fun a => bind (k a) k') s.
Proof. unfold bind. destruct (m s) as [[a|ex] s1]; reflexivity. Qed.

(** A run is its outcome paired with the world it leaves. *)
Lemma run_outcome {A} (m : M Mock.Driver A) (w : World Mock.Driver) (o : Outcome A) :
  fst (m w) = o -> m w = (o, Mock.after m w).
Proof. unfold Mock.after. destruct (m w) as [o' w']. simpl. intros ->. reflexivity. Qed.

(** *** The footprint relation is a preorder *)

Lemma quiet_refl {D} (w : World D) : quiet w w.
Proof.
  repeat split; auto.
  exists []. split; [symmetry; apply app_nil_r | intros []].
Qed.

Lemma quiet_trans {D} (w1 w2 w3 : World D) : quiet w1 w2 -> quiet w2 w3 -> quiet w1 w3.
Proof.
  intros (F1 & S1 & L1 & e1 & T1 & N1) (F2 & S2 & L2 & e2 & T2 & N2).
  repeat split.
  - congruence.
  - etrans; eassumption.
  - auto.
  - exists (e1 ++ e2)%list. split.
    + rewrite T2, T1. symmetry. apply app_assoc.
    + rewrite in_app_iff. tauto.
Qed.

Lemma quiet_usable (H : Host) {D} (w w' : World D) :
  quiet w w' -> usable H w -> usable H w'.
Proof.
  intros (_ & _ & L & _) [[[l E]|Hl] He]; (split; [|exact He]);
    [left | right; assumption].
  exists l. auto.
Qed.

(** *** Footprint of the primitives *)

Section Footprint.
Context (H : Host) {D : Type} (N : Native D).

Lemma keeps_ret {A} (a : A) : keeps (ret_ a : M D A).
Proof. intros w o w' E. inversion E; subst. apply quiet_refl. Qed.

Lemma keeps_throw {A} ex : keeps (throw ex : M D A).
Proof. intros w o w' E. inversion E; subst. apply quiet_refl. Qed.

Lemma keeps_read {A} (f : World D -> A) : keeps (read f).
Proof. intros w o w' E. inversion E; subst. apply quiet_refl. Qed.

Lemma keeps_bind {A B} (m : M D A) (k : A -> M D B) :
  keeps m -> (forall a, keeps (k a)) -> keeps (bind m k).
Proof.
  intros Km Kk w o w' E.
  destruct (bind_inv _ _ _ _ _ E) as [(a & w1 & E1 & E2)|(ex & E1 & _)].
  - eapply quiet_trans; [eapply Km | eapply Kk]; eassumption.
  - eapply Km; eassumption.
Qed.

Lemma quiet_emit (w : World D) ev :
  ev <> EvNow ->
  quiet w (mkWorld (initialized w) (lib w) (libraryPath w) (slots w) (loads w)
                   (driver w) (trace w ++ [ev])%list).
Proof.
  intros Hev. repeat split; simpl; auto.
  exists [ev]. split; [reflexivity|]. intros [E|[]]. congruence.
Qed.

Lemma keeps_emit ev : ev <> EvNow -> keeps (emit ev : M D unit).
Proof. intros Hev w o w' E. inversion E; subst. apply quiet_emit, Hev. Qed.

Lemma keeps_invoke {R} (f : NvmlFunc) (c : C.Call R) : keeps (invoke N f c).
Proof.
  intros w o w' E. unfold invoke in E.
  destruct (N R (bound_lib f) c (driver w)) as [r d]. inversion E; subst.
  repeat split; simpl; auto.
  exists [EvCall f]. split; [reflexivity|]. intros [E'|[]]. discriminate.
Qed.

(** [findLibraryPath] answers [discovered H]; it only ever adds a warning
    to the history. *)
Lemma findLibraryPath_spec (w : World D) :
  exists evs,
    findLibraryPath H w =
      (Returned (discovered H),
       mkWorld (initialized w) (lib w) (libraryPath w) (slots w) (loads w)
               (driver w) (trace w ++ evs)%list) /\
    ~ In EvNow evs.
Proof.
  assert (Hnil : forall w0 : World D,
    w0 = mkWorld (initialized w0) (lib w0) (libraryPath w0) (slots w0) (loads w0)
                 (driver w0) (trace w0 ++ [])%list).
  { intros [? ? ? ? ? ? ?]; simpl. rewrite app_nil_r. reflexivity. }
  unfold findLibraryPath, discovered.
  destruct (env_NVML_LIBRARY_PATH H) as [envPath|].
  - destruct (truthy envPath); simpl.
    + destruct (existsSync H envPath); simpl.
      * exists []. split; [unfold ret_; f_equal; apply Hnil | intros []].
      * eexists [_]. split; [reflexivity | intros [E|[]]; discriminate].
    + exists []. split; [unfold ret_; f_equal; apply Hnil | intros []].
  - exists []. split; [unfold ret_; f_equal; apply Hnil | intros []].
Qed.

Lemma keeps_findLibraryPath : keeps (findLibraryPath H : M D _).
Proof.
  intros w o w' E. destruct (findLibraryPath_spec w) as (evs & E1 & Hn).
  rewrite E1 in E. inversion E; subst.
  repeat split; simpl; auto. exists evs. auto.
Qed.

(** [getLibrary] on a world whose library is loaded. *)
Lemma getLibrary_loaded (w : World D) l :
  lib w = Some l -> getLibrary H w = (Returned l, w).
Proof. intros E. unfold getLibrary, bind, read. rewrite E. reflexivity. Qed.

(** [getLibrary] on a world without a library, when the host can load
    one: a fresh handle, remembered with its path. *)
Lemma getLibrary_loads (w : World D) path :
  lib w = None -> discovered H = Some path -> koffi_load H path = Loaded ->
  exists evs,
    getLibrary H w =
      (Returned (loads w),
       mkWorld (initialized w) (Some (loads w)) (Some path) (slots w) (S (loads w))
               (driver w) (trace w ++ evs ++ [EvLoad path (loads w)])%list) /\
    ~ In EvNow evs.
Proof.
  intros El Ed Ek. destruct (findLibraryPath_spec w) as (evs & E1 & Hn).
  exists evs. split; [|exact Hn].
  unfold getLibrary. unfold bind at 1. unfold read. rewrite El.
  unfold bind at 1. rewrite E1, Ed, Ek.
  cbv [bind fresh_handle emit set_lib ret_]. simpl.
  rewrite <- app_assoc. reflexivity.
Qed.

Lemma keeps_getLibrary : keeps (getLibrary H : M D _).
Proof.
  intros w o w' E.
  destruct (lib w) as [l|] eqn:El.
  - rewrite (getLibrary_loaded w l El) in E. inversion E; subst. apply quiet_refl.
  - destruct (findLibraryPath_spec w) as (evs & E1 & Hn).
    unfold getLibrary in E. unfold bind at 1 in E. unfold read in E.
    rewrite El in E. unfold bind at 1 in E. rewrite E1 in E.
    destruct (discovered H) as [path|].
    + destruct (koffi_load H path).
      * cbv [bind fresh_handle emit set_lib ret_] in E. simpl in E.
        inversion E; subst. repeat split; simpl; auto.
        -- intros l Hl. congruence.
        -- exists (evs ++ [EvLoad path (loads w)])%list. split.
           ++ symmetry. apply app_assoc.
           ++ rewrite in_app_iff. intros [?|[?|[]]]; [tauto|discriminate].
      * inversion E; subst. repeat split; simpl; auto. exists evs. auto.
      * inversion E; subst. repeat split; simpl; auto. exists evs. auto.
    + inversion E; subst. repeat split; simpl; auto. exists evs. auto.
Qed.

(** [getLibrary] never touches the bindings or the driver. *)
Lemma getLibrary_frame (w : World D) o w' :
  getLibrary H w = (o, w') -> slots w' = slots w /\ driver w' = driver w.
Proof.
  intros E.
  destruct (lib w) as [l|] eqn:El.
  - rewrite (getLibrary_loaded w l El) in E. inversion E; subst. auto.
  - destruct (findLibraryPath_spec w) as (evs & E1 & Hn).
    unfold getLibrary in E. unfold bind at 1 in E. unfold read in E.
    rewrite El in E. unfold bind at 1 in E. rewrite E1 in E.
    destruct (discovered H) as [path|]; [destruct (koffi_load H path)|];
      cbv [bind fresh_handle emit set_lib ret_ throw] in E; simpl in E;
      inversion E; subst; auto.
Qed.

Lemma returns_getLibrary : returns H (getLibrary H : M D _).
Proof.
  intros w U. destruct (lib w) as [l|] eqn:El.
  - exists l, w. split; [apply getLibrary_loaded, El | apply quiet_refl].
  - destruct U as [[[l U]|(path & Ed & Ek)] _]; [congruence|].
    destruct (getLibrary_loads w path El Ed Ek) as (evs & E & Hn).
    do 2 eexists. split; [exact E|]. eapply keeps_getLibrary, E.
Qed.

(** A binding already held is returned as it is: no library access, no
    resolution, no effect at all. *)
Lemma lazyBinding_held (w : World D) sig f :
  slots w !! sig = Some f -> lazyBinding H sig w = (Returned f, w).
Proof. intros E. unfold lazyBinding, bind, read. rewrite E. reflexivity. Qed.

(** A binding not held yet is resolved against whatever [getLibrary]
    returns, and then held, when that library exports the symbol. *)
Lemma lazyBinding_resolves (w w1 : World D) sig l :
  slots w !! sig = None -> getLibrary H w = (Returned l, w1) ->
  koffi_func H l sig = Bound ->
  lazyBinding H sig w =
    (Returned (mkNvmlFunc l sig),
     mkWorld (initialized w1) (lib w1) (libraryPath w1)
             (<[sig := mkNvmlFunc l sig]> (slots w1)) (loads w1) (driver w1)
             (trace w1 ++ [EvBind (mkNvmlFunc l sig)])%list).
Proof.
  intros Es El Ef. unfold lazyBinding. unfold bind at 1. unfold read. rewrite Es.
  unfold bind at 1. rewrite El, Ef. reflexivity.
Qed.

(** When the library does not export the symbol, the getter throws the
    resolver's error from the world [getLibrary] left; nothing is held. *)
Lemma lazyBinding_missing (w w1 : World D) sig l message :
  slots w !! sig = None -> getLibrary H w = (Returned l, w1) ->
  koffi_func H l sig = FuncThrows message ->
  lazyBinding H sig w = (Thrown (ExnError message), w1).
Proof.
  intros Es El Ef. unfold lazyBinding. unfold bind at 1. unfold read. rewrite Es.
  unfold bind at 1. rewrite El, Ef. reflexivity.
Qed.

(** When [getLibrary] throws, so does the getter, from the same world. *)
Lemma lazyBinding_unloaded (w w1 : World D) sig ex :
  slots w !! sig = None -> getLibrary H w = (Thrown ex, w1) ->
  lazyBinding H sig w = (Thrown ex, w1).
Proof.
  intros Es El. unfold lazyBinding. unfold bind at 1. unfold read. rewrite Es.
  unfold bind at 1. rewrite El. reflexivity.
Qed.

Lemma keeps_lazyBinding sig : keeps (lazyBinding H sig : M D _).
Proof.
  intros w o w' E. destruct (slots w !! sig) as [f|] eqn:Es.
  - rewrite (lazyBinding_held w sig f Es) in E. inversion E; subst. apply quiet_refl.
  - destruct (getLibrary H w) as [[l|ex] w1] eqn:El.
    + destruct (koffi_func H l sig) as [|message] eqn:Ef.
      * rewrite (lazyBinding_resolves w w1 sig l Es El Ef) in E. inversion E; subst.
        pose proof (keeps_getLibrary _ _ _ El) as (Hf & Hs & Hl & evs & Ht & Hn).
        destruct (getLibrary_frame _ _ _ El) as [Hs1 _].
        repeat split; simpl; auto.
        -- rewrite Hs1. apply insert_subseteq, Es.
        -- exists (evs ++ [EvBind (mkNvmlFunc l sig)])%list. split.
           ++ rewrite Ht. symmetry. apply app_assoc.
           ++ rewrite in_app_iff. intros [?|[?|[]]]; [tauto|discriminate].
      * rewrite (lazyBinding_missing w w1 sig l message Es El Ef) in E.
        inversion E; subst. eapply keeps_getLibrary, El.
    + rewrite (lazyBinding_unloaded w w1 sig ex Es El) in E.
      inversion E; subst. eapply keeps_getLibrary, El.
Qed.

Lemma returns_lazyBinding sig :
  List.In sig boundSignatures -> returns H (lazyBinding H sig : M D _).
Proof.
  intros Hsig w U. destruct (slots w !! sig) as [f|] eqn:Es.
  - exists f, w. split; [apply lazyBinding_held, Es | apply quiet_refl].
  - destruct (returns_getLibrary w U) as (l & w1 & El & _).
    pose proof (proj2 U l sig Hsig) as Ef.
    do 2 eexists. split; [apply (lazyBinding_resolves w w1 sig l Es El Ef)|].
    eapply keeps_lazyBinding. apply (lazyBinding_resolves w w1 sig l Es El Ef).
Qed.

Lemma returns_ret {A} (a : A) : returns H (ret_ a : M D A).
Proof. intros w _. exists a, w. split; [reflexivity | apply quiet_refl]. Qed.

Lemma returns_read {A} (f : World D -> A) : returns H (read f).
Proof. intros w _. exists (f w), w. split; [reflexivity | apply quiet_refl]. Qed.

Lemma returns_bind {A B} (m : M D A) (k : A -> M D B) :
  returns H m -> (forall a, returns H (k a)) -> returns H (bind m k).
Proof.
  intros Rm Rk w U.
  destruct (Rm w U) as (a & w1 & E1 & Q1).
  destruct (Rk a w1 (quiet_usable H _ _ Q1 U)) as (b & w2 & E2 & Q2).
  exists b, w2. split.
  - rewrite (bind_returned _ _ _ _ _ E1). exact E2.
  - eapply quiet_trans; eassumption.
Qed.

Lemma returns_invoke {R} (f : NvmlFunc) (c : C.Call R) : returns H (invoke N f c).
Proof.
  intros w _. destruct (invoke N f c w) as [o w'] eqn:E.
  pose proof (keeps_invoke _ _ _ _ _ E) as Q.
  unfold invoke in E. destruct (N R (bound_lib f) c (driver w)) as [r d].
  inversion E; subst. eauto.
Qed.
End Footprint.

(** *** Footprint of the bindings and of the queries *)

Create HintDb bindings discriminated.
Create HintDb footprint discriminated.

#[export] Hint Unfold
  getNvmlInit getNvmlShutdown nvmlInit nvmlShutdown
  getDeviceGetCount getDeviceGetHandleByIndex getDeviceGetHandleByUUID
  getDeviceGetName getDeviceGetUUID getDeviceGetMemoryInfo
  getDeviceGetUtilizationRates getDeviceGetTemperature getDeviceGetPowerUsage
  getDeviceGetPowerManagementLimit getDeviceGetFanSpeed
  getDeviceGetPerformanceState getDeviceGetPciInfo getDeviceGetPersistenceMode
  getDeviceGetDisplayActive getDeviceGetComputeMode getDeviceGetMigMode
  getDeviceGetTotalEccErrors
  nvmlDeviceGetCount nvmlDeviceGetHandleByIndex nvmlDeviceGetHandleByUUID
  nvmlDeviceGetName nvmlDeviceGetUUID nvmlDeviceGetMemoryInfo
  nvmlDeviceGetUtilizationRates nvmlDeviceGetTemperature nvmlDeviceGetPowerUsage
  nvmlDeviceGetPowerManagementLimit nvmlDeviceGetFanSpeed
  nvmlDeviceGetPerformanceState nvmlDeviceGetPciInfo nvmlDeviceGetPersistenceMode
  nvmlDeviceGetDisplayActive nvmlDeviceGetComputeMode nvmlDeviceGetMigMode
  nvmlDeviceGetTotalEccErrors
  getSystemGetDriverVersion getSystemGetNvmlVersion
  getSystemGetCudaDriverVersion_v2 getSystemGetProcessName
  nvmlSystemGetDriverVersion nvmlSystemGetNvmlVersion
  nvmlSystemGetCudaDriverVersion_v2 nvmlSystemGetProcessName
  getDeviceGetComputeRunningProcesses getDeviceGetGraphicsRunningProcesses
  nvmlDeviceGetComputeRunningProcesses nvmlDeviceGetGraphicsRunningProcesses
  : bindings.

(** The signature at hand is one the wrapper binds. *)
Ltac bound_signature :=
  unfold boundSignatures; repeat first [ left; reflexivity | right ].

(** Decompose a goal [keeps m] or [returns H m] along the structure of [m]. *)
Ltac footprint :=
  repeat first
    [ apply keeps_ret | apply keeps_throw | apply keeps_read | apply keeps_invoke
    | apply keeps_lazyBinding
    | apply returns_ret | apply returns_read | apply returns_invoke
    | apply returns_lazyBinding; solve [bound_signature]
    | solve [auto with footprint]
    | apply keeps_bind; [ | intros ]
    | apply returns_bind; [ | intros ]
    | match goal with
      | |- keeps (match ?x with _ => _ end) => destruct x
      | |- returns _ (match ?x with _ => _ end) => destruct x
      end ].

Section BindingFootprint.
Context (H : Host) {D : Type} (N : Native D).

Local Ltac binding := intros; autounfold with bindings; footprint.

Lemma keeps_nvmlInit : keeps (nvmlInit H N). Proof. binding. Qed.
Lemma keeps_nvmlShutdown : keeps (nvmlShutdown H N). Proof. binding. Qed.
Lemma keeps_nvmlDeviceGetCount : keeps (nvmlDeviceGetCount H N).
Proof. binding. Qed.
Lemma keeps_nvmlDeviceGetHandleByIndex i : keeps (nvmlDeviceGetHandleByIndex H N i).
Proof. binding. Qed.
Lemma keeps_nvmlDeviceGetHandleByUUID u : keeps (nvmlDeviceGetHandleByUUID H N u).
Proof. binding. Qed.
Lemma keeps_nvmlDeviceGetName d : keeps (nvmlDeviceGetName H N d).
Proof. binding. Qed.
Lemma keeps_nvmlDeviceGetUUID d : keeps (nvmlDeviceGetUUID H N d).
Proof. binding. Qed.
Lemma keeps_nvmlDeviceGetMemoryInfo d : keeps (nvmlDeviceGetMemoryInfo H N d).
Proof. binding. Qed.
Lemma keeps_nvmlDeviceGetUtilizationRates d : keeps (nvmlDeviceGetUtilizationRates H N d).
Proof. binding. Qed.
Lemma keeps_nvmlDeviceGetTemperature d s : keeps (nvmlDeviceGetTemperature H N d s).
Proof. binding. Qed.
Lemma keeps_nvmlDeviceGetPowerUsage d : keeps (nvmlDeviceGetPowerUsage H N d).
Proof. binding. Qed.
Lemma keeps_nvmlDeviceGetPowerManagementLimit d :
  keeps (nvmlDeviceGetPowerManagementLimit H N d).
Proof. binding. Qed.
Lemma keeps_nvmlDeviceGetFanSpeed d : keeps (nvmlDeviceGetFanSpeed H N d).
Proof. binding. Qed.
Lemma keeps_nvmlDeviceGetPerformanceState d : keeps (nvmlDeviceGetPerformanceState H N d).
Proof. binding. Qed.
Lemma keeps_nvmlDeviceGetPciInfo d : keeps (nvmlDeviceGetPciInfo H N d).
Proof. binding. Qed.
Lemma keeps_nvmlDeviceGetPersistenceMode d : keeps (nvmlDeviceGetPersistenceMode H N d).
Proof. binding. Qed.
Lemma keeps_nvmlDeviceGetDisplayActive d : keeps (nvmlDeviceGetDisplayActive H N d).
Proof. binding. Qed.
Lemma keeps_nvmlDeviceGetComputeMode d : keeps (nvmlDeviceGetComputeMode H N d).
Proof. binding. Qed.
Lemma keeps_nvmlDeviceGetMigMode d : keeps (nvmlDeviceGetMigMode H N d).
Proof. binding. Qed.
Lemma keeps_nvmlDeviceGetTotalEccErrors d e c :
  keeps (nvmlDeviceGetTotalEccErrors H N d e c).
Proof. binding. Qed.
Lemma keeps_nvmlSystemGetDriverVersion : keeps (nvmlSystemGetDriverVersion H N).
Proof. binding. Qed.
Lemma keeps_nvmlSystemGetNvmlVersion : keeps (nvmlSystemGetNvmlVersion H N).
Proof. binding. Qed.
Lemma keeps_nvmlSystemGetCudaDriverVersion_v2 :
  keeps (nvmlSystemGetCudaDriverVersion_v2 H N).
Proof. binding. Qed.
Lemma keeps_nvmlSystemGetProcessName p : keeps (nvmlSystemGetProcessName H N p).
Proof. binding. Qed.
Lemma keeps_nvmlDeviceGetComputeRunningProcesses d :
  keeps (nvmlDeviceGetComputeRunningProcesses H N d).
Proof. binding. Qed.
Lemma keeps_nvmlDeviceGetGraphicsRunningProcesses d :
  keeps (nvmlDeviceGetGraphicsRunningProcesses H N d).
Proof. binding. Qed.

Lemma returns_nvmlInit : returns H (nvmlInit H N). Proof. binding. Qed.
Lemma returns_nvmlShutdown : returns H (nvmlShutdown H N). Proof. binding. Qed.
Lemma returns_nvmlDeviceGetCount : returns H (nvmlDeviceGetCount H N).
Proof. binding. Qed.
Lemma returns_nvmlDeviceGetHandleByIndex i :
  returns H (nvmlDeviceGetHandleByIndex H N i).
Proof. binding. Qed.
Lemma returns_nvmlDeviceGetHandleByUUID u :
  returns H (nvmlDeviceGetHandleByUUID H N u).
Proof. binding. Qed.
Lemma returns_nvmlDeviceGetName d : returns H (nvmlDeviceGetName H N d).
Proof. binding. Qed.
Lemma returns_nvmlDeviceGetUUID d : returns H (nvmlDeviceGetUUID H N d).
Proof. binding. Qed.
Lemma returns_nvmlDeviceGetMemoryInfo d : returns H (nvmlDeviceGetMemoryInfo H N d).
Proof. binding. Qed.
Lemma returns_nvmlDeviceGetUtilizationRates d :
  returns H (nvmlDeviceGetUtilizationRates H N d).
Proof. binding. Qed.
Lemma returns_nvmlDeviceGetTemperature d s :
  returns H (nvmlDeviceGetTemperature H N d s).
Proof. binding. Qed.
Lemma returns_nvmlDeviceGetPowerUsage d : returns H (nvmlDeviceGetPowerUsage H N d).
Proof. binding. Qed.
Lemma returns_nvmlDeviceGetPowerManagementLimit d :
  returns H (nvmlDeviceGetPowerManagementLimit H N d).
Proof. binding. Qed.
Lemma returns_nvmlDeviceGetFanSpeed d : returns H (nvmlDeviceGetFanSpeed H N d).
Proof. binding. Qed.
Lemma returns_nvmlDeviceGetPerformanceState d :
  returns H (nvmlDeviceGetPerformanceState H N d).
Proof. binding. Qed.
Lemma returns_nvmlDeviceGetPciInfo d : returns H (nvmlDeviceGetPciInfo H N d).
Proof. binding. Qed.
Lemma returns_nvmlDeviceGetPersistenceMode d :
  returns H (nvmlDeviceGetPersistenceMode H N d).
Proof. binding. Qed.
Lemma returns_nvmlDeviceGetDisplayActive d :
  returns H (nvmlDeviceGetDisplayActive H N d).
Proof. binding. Qed.
Lemma returns_nvmlDeviceGetComputeMode d : returns H (nvmlDeviceGetComputeMode H N d).
Proof. binding. Qed.
Lemma returns_nvmlDeviceGetMigMode d : returns H (nvmlDeviceGetMigMode H N d).
Proof. binding. Qed.
Lemma returns_nvmlDeviceGetTotalEccErrors d e c :
  returns H (nvmlDeviceGetTotalEccErrors H N d e c).
Proof. binding. Qed.
Lemma returns_nvmlSystemGetDriverVersion : returns H (nvmlSystemGetDriverVersion H N).
Proof. binding. Qed.
Lemma returns_nvmlSystemGetNvmlVersion : returns H (nvmlSystemGetNvmlVersion H N).
Proof. binding. Qed.
Lemma returns_nvmlSystemGetCudaDriverVersion_v2 :
  returns H (nvmlSystemGetCudaDriverVersion_v2 H N).
Proof. binding. Qed.
Lemma returns_nvmlSystemGetProcessName p : returns H (nvmlSystemGetProcessName H N p).
Proof. binding. Qed.
Lemma returns_nvmlDeviceGetComputeRunningProcesses d :
  returns H (nvmlDeviceGetComputeRunningProcesses H N d).
Proof. binding. Qed.
Lemma returns_nvmlDeviceGetGraphicsRunningProcesses d :
  returns H (nvmlDeviceGetGraphicsRunningProcesses H N d).
Proof. binding. Qed.
End BindingFootprint.

#[export] Hint Resolve
  keeps_nvmlInit keeps_nvmlShutdown keeps_nvmlDeviceGetCount
  keeps_nvmlDeviceGetHandleByIndex keeps_nvmlDeviceGetHandleByUUID
  keeps_nvmlDeviceGetName keeps_nvmlDeviceGetUUID keeps_nvmlDeviceGetMemoryInfo
  keeps_nvmlDeviceGetUtilizationRates keeps_nvmlDeviceGetTemperature
  keeps_nvmlDeviceGetPowerUsage keeps_nvmlDeviceGetPowerManagementLimit
  keeps_nvmlDeviceGetFanSpeed keeps_nvmlDeviceGetPerformanceState
  keeps_nvmlDeviceGetPciInfo keeps_nvmlDeviceGetPersistenceMode
  keeps_nvmlDeviceGetDisplayActive keeps_nvmlDeviceGetComputeMode
  keeps_nvmlDeviceGetMigMode keeps_nvmlDeviceGetTotalEccErrors
  keeps_nvmlSystemGetDriverVersion keeps_nvmlSystemGetNvmlVersion
  keeps_nvmlSystemGetCudaDriverVersion_v2 keeps_nvmlSystemGetProcessName
  keeps_nvmlDeviceGetComputeRunningProcesses
  keeps_nvmlDeviceGetGraphicsRunningProcesses
  returns_nvmlInit returns_nvmlShutdown returns_nvmlDeviceGetCount
  returns_nvmlDeviceGetHandleByIndex returns_nvmlDeviceGetHandleByUUID
  returns_nvmlDeviceGetName returns_nvmlDeviceGetUUID returns_nvmlDeviceGetMemoryInfo
  returns_nvmlDeviceGetUtilizationRates returns_nvmlDeviceGetTemperature
  returns_nvmlDeviceGetPowerUsage returns_nvmlDeviceGetPowerManagementLimit
  returns_nvmlDeviceGetFanSpeed returns_nvmlDeviceGetPerformanceState
  returns_nvmlDeviceGetPciInfo returns_nvmlDeviceGetPersistenceMode
  returns_nvmlDeviceGetDisplayActive returns_nvmlDeviceGetComputeMode
  returns_nvmlDeviceGetMigMode returns_nvmlDeviceGetTotalEccErrors
  returns_nvmlSystemGetDriverVersion returns_nvmlSystemGetNvmlVersion
  returns_nvmlSystemGetCudaDriverVersion_v2 returns_nvmlSystemGetProcessName
  returns_nvmlDeviceGetComputeRunningProcesses
  returns_nvmlDeviceGetGraphicsRunningProcesses
  : footprint.

Section QueryFootprint.
Context (H : Host) {D : Type} (N : Native D).

Local Ltac query f := intros; unfold f; footprint.

Lemma keeps_getName d : keeps (Device.getName H N d).
Proof. query @Device.getName. Qed.
Lemma keeps_getUUID d : keeps (Device.getUUID H N d).
Proof. query @Device.getUUID. Qed.
Lemma keeps_getMemoryInfo d : keeps (Device.getMemoryInfo H N d).
Proof. query @Device.getMemoryInfo. Qed.
Lemma keeps_getUtilizationRates d : keeps (Device.getUtilizationRates H N d).
Proof. query @Device.getUtilizationRates. Qed.
Lemma keeps_getTemperature d : keeps (Device.getTemperature H N d).
Proof. query @Device.getTemperature. Qed.
Lemma keeps_getPowerUsage d : keeps (Device.getPowerUsage H N d).
Proof. query @Device.getPowerUsage. Qed.
Lemma keeps_getPowerLimit d : keeps (Device.getPowerLimit H N d).
Proof. query @Device.getPowerLimit. Qed.
Lemma keeps_getFanSpeed d : keeps (Device.getFanSpeed H N d).
Proof. query @Device.getFanSpeed. Qed.
Lemma keeps_getPerformanceState d : keeps (Device.getPerformanceState H N d).
Proof. query @Device.getPerformanceState. Qed.
Lemma keeps_getPciInfo d : keeps (Device.getPciInfo H N d).
Proof. query @Device.getPciInfo. Qed.
Lemma keeps_getPersistenceMode d : keeps (Device.getPersistenceMode H N d).
Proof. query @Device.getPersistenceMode. Qed.
Lemma keeps_getDisplayActive d : keeps (Device.getDisplayActive H N d).
Proof. query @Device.getDisplayActive. Qed.
Lemma keeps_getComputeMode d : keeps (Device.getComputeMode H N d).
Proof. query @Device.getComputeMode. Qed.
Lemma keeps_getMigMode d : keeps (Device.getMigMode H N d).
Proof. query @Device.getMigMode. Qed.
Lemma keeps_getEccErrorsCorrected d : keeps (Device.getEccErrorsCorrected H N d).
Proof. query @Device.getEccErrorsCorrected. Qed.

Lemma returns_getName d : returns H (Device.getName H N d).
Proof. query @Device.getName. Qed.
Lemma returns_getUUID d : returns H (Device.getUUID H N d).
Proof. query @Device.getUUID. Qed.
Lemma returns_getMemoryInfo d : returns H (Device.getMemoryInfo H N d).
Proof. query @Device.getMemoryInfo. Qed.
Lemma returns_getUtilizationRates d : returns H (Device.getUtilizationRates H N d).
Proof. query @Device.getUtilizationRates. Qed.
Lemma returns_getTemperature d : returns H (Device.getTemperature H N d).
Proof. query @Device.getTemperature. Qed.
Lemma returns_getPowerUsage d : returns H (Device.getPowerUsage H N d).
Proof. query @Device.getPowerUsage. Qed.
Lemma returns_getPowerLimit d : returns H (Device.getPowerLimit H N d).
Proof. query @Device.getPowerLimit. Qed.
Lemma returns_getFanSpeed d : returns H (Device.getFanSpeed H N d).
Proof. query @Device.getFanSpeed. Qed.
Lemma returns_getPerformanceState d : returns H (Device.getPerformanceState H N d).
Proof. query @Device.getPerformanceState. Qed.
Lemma returns_getPciInfo d : returns H (Device.getPciInfo H N d).
Proof. query @Device.getPciInfo. Qed.
Lemma returns_getPersistenceMode d : returns H (Device.getPersistenceMode H N d).
Proof. query @Device.getPersistenceMode. Qed.
Lemma returns_getDisplayActive d : returns H (Device.getDisplayActive H N d).
Proof. query @Device.getDisplayActive. Qed.
Lemma returns_getComputeMode d : returns H (Device.getComputeMode H N d).
Proof. query @Device.getComputeMode. Qed.
Lemma returns_getMigMode d : returns H (Device.getMigMode H N d).
Proof. query @Device.getMigMode. Qed.
Lemma returns_getEccErrorsCorrected d : returns H (Device.getEccErrorsCorrected H N d).
Proof. query @Device.getEccErrorsCorrected. Qed.
End QueryFootprint.

#[export] Hint Resolve
  keeps_getName keeps_getUUID keeps_getMemoryInfo keeps_getUtilizationRates
  keeps_getTemperature keeps_getPowerUsage keeps_getPowerLimit keeps_getFanSpeed
  keeps_getPerformanceState keeps_getPciInfo keeps_getPersistenceMode
  keeps_getDisplayActive keeps_getComputeMode keeps_getMigMode
  keeps_getEccErrorsCorrected
  returns_getName returns_getUUID returns_getMemoryInfo returns_getUtilizationRates
  returns_getTemperature returns_getPowerUsage returns_getPowerLimit returns_getFanSpeed
  returns_getPerformanceState returns_getPciInfo returns_getPersistenceMode
  returns_getDisplayActive returns_getComputeMode returns_getMigMode
  returns_getEccErrorsCorrected
  : footprint.

Section CompositeFootprint.
Context (H : Host) {D : Type} (N : Native D).

Lemma keeps_getBasicInfo d : keeps (Device.getBasicInfo H N d).
Proof. unfold Device.getBasicInfo. footprint. Qed.
Lemma returns_getBasicInfo d : returns H (Device.getBasicInfo H N d).
Proof. unfold Device.getBasicInfo. footprint. Qed.

Lemma keeps_getStatus d : keeps (Device.getStatus H N d).
Proof. unfold Device.getStatus. footprint. Qed.
Lemma returns_getStatus d : returns H (Device.getStatus H N d).
Proof. unfold Device.getStatus. footprint. Qed.

Lemma keeps_collectProcesses d raws :
  forall seen acc, keeps (Device.collectProcesses H N d raws seen acc).
Proof.
  induction raws as [|r rest IH]; intros seen acc; simpl.
  - footprint.
  - destruct (bool_decide (raw_pid r ∈ seen)); [apply IH|].
    apply keeps_bind; [footprint|]. intros [ret name]. apply IH.
Qed.

Lemma returns_collectProcesses d raws :
  forall seen acc, returns H (Device.collectProcesses H N d raws seen acc).
Proof.
  induction raws as [|r rest IH]; intros seen acc; simpl.
  - footprint.
  - destruct (bool_decide (raw_pid r ∈ seen)); [apply IH|].
    apply returns_bind; [footprint|]. intros [ret name]. apply IH.
Qed.

Lemma keeps_getProcesses d : keeps (Device.getProcesses H N d).
Proof.
  unfold Device.getProcesses.
  apply keeps_bind; [footprint|]. intros [cret cs].
  destruct (negb (isSuccess cret)); [footprint|].
  apply keeps_bind; [footprint|]. intros [gret gs].
  destruct (negb (isSuccess gret)); [footprint|].
  apply keeps_bind; [apply keeps_collectProcesses|]. intros. footprint.
Qed.

Lemma returns_getProcesses d : returns H (Device.getProcesses H N d).
Proof.
  unfold Device.getProcesses.
  apply returns_bind; [footprint|]. intros [cret cs].
  destruct (negb (isSuccess cret)); [footprint|].
  apply returns_bind; [footprint|]. intros [gret gs].
  destruct (negb (isSuccess gret)); [footprint|].
  apply returns_bind; [apply returns_collectProcesses|]. intros. footprint.
Qed.

Lemma keeps_getByIndex i : keeps (Device.getByIndex H N i).
Proof. unfold Device.getByIndex. footprint. Qed.

Lemma keeps_getByUUID u : keeps (Device.getByUUID H N u).
Proof. unfold Device.getByUUID. footprint. Qed.

Lemma keeps_ensureInitialized : keeps (Nvml.ensureInitialized (D := D)).
Proof. unfold Nvml.ensureInitialized. footprint. Qed.
End CompositeFootprint.

#[export] Hint Resolve
  keeps_getBasicInfo returns_getBasicInfo keeps_getStatus returns_getStatus
  keeps_getProcesses returns_getProcesses keeps_getByIndex keeps_getByUUID
  keeps_ensureInitialized keeps_collectProcesses returns_collectProcesses
  : footprint.

(** *** Result combinators *)

Lemma fromReturn_context (ret : Z) (context : string) :
  truthy context = true -> fromReturn ret (Some context) = failureWith context ret.
Proof.
  unfold truthy, fromReturn, failureWith, new_NvmlError. intros Ht.
  destruct (String.eqb context "") eqn:E; [discriminate|]. reflexivity.
Qed.

Lemma errFromReturn_context {T} (ret : Z) (context : string) :
  truthy context = true ->
  errFromReturn (T := T) ret (Some context) = Err (failureWith context ret).
Proof. intros Ht. unfold errFromReturn, err. rewrite fromReturn_context; auto. Qed.

Lemma isSuccess_true ret : isSuccess ret = true <-> ret = 0.
Proof. unfold isSuccess, NvmlReturn.SUCCESS. apply Z.eqb_eq. Qed.

Lemma isSuccess_false ret : isSuccess ret = false <-> ret <> 0.
Proof. unfold isSuccess, NvmlReturn.SUCCESS. apply Z.eqb_neq. Qed.

(** C9. [map] over a success applies the callback to the value and wraps
    what it returns (for a pure callback [f]: [success (f x)]); [map] and
    [andThen] over a failure return that failure and leave the state as it
    was whatever the callback is, so the callback is not run; [andThen] over
    a success is the callback applied to the value. With these, [map]
    preserves identity and composition and [andThen] has [ok] as right unit
    and is associative. *)
Theorem result_combinator_laws :
  forall (S T U V : Type) (x : T) (e : NvmlError) (r : Result T) (s : S)
         (f : T -> U) (g : U -> V)
         (fn : T -> Eff S U) (gn : T -> Eff S (Result U))
         (hn : U -> Eff S (Result V)),
    map (ok x) (fun v => ret_ (f v)) s = (Returned (ok (f x)), s) /\
    map (ok x) fn s = (let* u := fn x in ret_ (ok u)) s /\
    map (err e) fn s = (Returned (err e), s) /\
    andThen (err e) gn s = (Returned (err e), s) /\
    andThen (ok x) gn s = gn x s /\
    map r (fun v => ret_ v) s = (Returned r, s) /\
    (let* r' := map r (fun v => ret_ (f v)) in map r' (fun u => ret_ (g u))) s
      = map r (fun v => ret_ (g (f v))) s /\
    andThen r (fun v => ret_ (ok v)) s = (Returned r, s) /\
    (let* r' := andThen r gn in andThen r' hn) s
      = andThen r (fun v => let* r' := gn v in andThen r' hn) s.
Proof.
  intros. repeat match goal with |- _ /\ _ => split end;
    try reflexivity; destruct r as [v|e']; try reflexivity.
Qed.

(** *** Status codes of the single-field queries *)

Section StatusCodes.
Context (H : Host) {D : Type} (N : Native D).

Local Ltac by_status :=
  unfold isSuccess, NvmlReturn.SUCCESS, NvmlReturn.ERROR_NOT_SUPPORTED in *;
  repeat match goal with
  | |- context [(?r =? ?c)%Z] => destruct (Z.eqb_spec r c); cbn [negb]
  end;
  try lia; try congruence;
  repeat rewrite errFromReturn_context by reflexivity;
  unfold ok, ret_; eauto.

Local Ltac strict q :=
  intros w a w' E; unfold q; rewrite (bind_returned _ _ _ _ _ E);
  destruct a as [ret out]; cbn [fst snd];
  split; intros; by_status.

Local Ltac optional q :=
  intros w a w' E; unfold q; rewrite (bind_returned _ _ _ _ _ E);
  destruct a as [ret out]; cbn [fst snd];
  split; [|split]; intros; by_status.

Lemma optional_getFanSpeed d :
  optionalQuery (nvmlDeviceGetFanSpeed H N (Device.handle d)) fst
                (Device.getFanSpeed H N d) "Failed to get fan speed".
Proof. optional @Device.getFanSpeed. Qed.

Lemma optional_getMigMode d :
  optionalQuery (nvmlDeviceGetMigMode H N (Device.handle d)) (fun a => fst (fst a))
                (Device.getMigMode H N d) "Failed to get MIG mode".
Proof.
  intros w a w' E. unfold Device.getMigMode. rewrite (bind_returned _ _ _ _ _ E).
  destruct a as [[ret cur] pend]; cbn [fst snd].
  split; [|split]; intros; by_status.
Qed.

Lemma optional_getEccErrorsCorrected d :
  optionalQuery
    (nvmlDeviceGetTotalEccErrors H N (Device.handle d)
       NvmlMemoryErrorType.CORRECTED NvmlEccCounterType.VOLATILE) fst
    (Device.getEccErrorsCorrected H N d) "Failed to get ECC errors".
Proof. optional @Device.getEccErrorsCorrected. Qed.

Lemma strict_getName d :
  strictQuery (nvmlDeviceGetName H N (Device.handle d)) fst
              (Device.getName H N d) "Failed to get device name".
Proof. strict @Device.getName. Qed.

Lemma strict_getUUID d :
  strictQuery (nvmlDeviceGetUUID H N (Device.handle d)) fst
              (Device.getUUID H N d) "Failed to get device UUID".
Proof. strict @Device.getUUID. Qed.

Lemma strict_getMemoryInfo d :
  strictQuery (nvmlDeviceGetMemoryInfo H N (Device.handle d)) fst
              (Device.getMemoryInfo H N d) "Failed to get memory info".
Proof. strict @Device.getMemoryInfo. Qed.

Lemma strict_getUtilizationRates d :
  strictQuery (nvmlDeviceGetUtilizationRates H N (Device.handle d)) fst
              (Device.getUtilizationRates H N d) "Failed to get utilization rates".
Proof. strict @Device.getUtilizationRates. Qed.

Lemma strict_getTemperature d :
  strictQuery
    (nvmlDeviceGetTemperature H N (Device.handle d) NvmlTemperatureSensors.GPU) fst
    (Device.getTemperature H N d) "Failed to get temperature".
Proof. strict @Device.getTemperature. Qed.

Lemma strict_getPowerUsage d :
  strictQuery (nvmlDeviceGetPowerUsage H N (Device.handle d)) fst
              (Device.getPowerUsage H N d) "Failed to get power usage".
Proof. strict @Device.getPowerUsage. Qed.

Lemma strict_getPowerLimit d :
  strictQuery (nvmlDeviceGetPowerManagementLimit H N (Device.handle d)) fst
              (Device.getPowerLimit H N d) "Failed to get power limit".
Proof. strict @Device.getPowerLimit. Qed.

Lemma strict_getPerformanceState d :
  strictQuery (nvmlDeviceGetPerformanceState H N (Device.handle d)) fst
              (Device.getPerformanceState H N d) "Failed to get performance state".
Proof. strict @Device.getPerformanceState. Qed.

Lemma strict_getPciInfo d :
  strictQuery (nvmlDeviceGetPciInfo H N (Device.handle d)) fst
              (Device.getPciInfo H N d) "Failed to get PCI info".
Proof. strict @Device.getPciInfo. Qed.

Lemma strict_getPersistenceMode d :
  strictQuery (nvmlDeviceGetPersistenceMode H N (Device.handle d)) fst
              (Device.getPersistenceMode H N d) "Failed to get persistence mode".
Proof. strict @Device.getPersistenceMode. Qed.

Lemma strict_getDisplayActive d :
  strictQuery (nvmlDeviceGetDisplayActive H N (Device.handle d)) fst
              (Device.getDisplayActive H N d) "Failed to get display active status".
Proof. strict @Device.getDisplayActive. Qed.

Lemma strict_getComputeMode d :
  strictQuery (nvmlDeviceGetComputeMode H N (Device.handle d)) fst
              (Device.getComputeMode H N d) "Failed to get compute mode".
Proof. strict @Device.getComputeMode. Qed.
End StatusCodes.

(** C4. Of the single-field device queries exactly three, [getFanSpeed],
    [getMigMode] and [getEccErrorsCorrected], answer the not-supported
    status (3) with a success that carries no value; on them every other
    nonzero status, and on every other query every nonzero status (3
    included), gives a failure that carries the status code and a message
    made of the query's own context and the text of the code. *)
Theorem not_supported_is_absent_for_three_queries_only :
  forall (H : Host) (D : Type) (N : Native D) (d : Device.t),
    let h := Device.handle d in
    optionalQuery (nvmlDeviceGetFanSpeed H N h) fst
      (Device.getFanSpeed H N d) "Failed to get fan speed" /\
    optionalQuery (nvmlDeviceGetMigMode H N h) (fun a => fst (fst a))
      (Device.getMigMode H N d) "Failed to get MIG mode" /\
    optionalQuery
      (nvmlDeviceGetTotalEccErrors H N h
         NvmlMemoryErrorType.CORRECTED NvmlEccCounterType.VOLATILE) fst
      (Device.getEccErrorsCorrected H N d) "Failed to get ECC errors" /\
    strictQuery (nvmlDeviceGetName H N h) fst
      (Device.getName H N d) "Failed to get device name" /\
    strictQuery (nvmlDeviceGetUUID H N h) fst
      (Device.getUUID H N d) "Failed to get device UUID" /\
    strictQuery (nvmlDeviceGetMemoryInfo H N h) fst
      (Device.getMemoryInfo H N d) "Failed to get memory info" /\
    strictQuery (nvmlDeviceGetUtilizationRates H N h) fst
      (Device.getUtilizationRates H N d) "Failed to get utilization rates" /\
    strictQuery (nvmlDeviceGetTemperature H N h NvmlTemperatureSensors.GPU) fst
      (Device.getTemperature H N d) "Failed to get temperature" /\
    strictQuery (nvmlDeviceGetPowerUsage H N h) fst
      (Device.getPowerUsage H N d) "Failed to get power usage" /\
    strictQuery (nvmlDeviceGetPowerManagementLimit H N h) fst
      (Device.getPowerLimit H N d) "Failed to get power limit" /\
    strictQuery (nvmlDeviceGetPerformanceState H N h) fst
      (Device.getPerformanceState H N d) "Failed to get performance state" /\
    strictQuery (nvmlDeviceGetPciInfo H N h) fst
      (Device.getPciInfo H N d) "Failed to get PCI info" /\
    strictQuery (nvmlDeviceGetPersistenceMode H N h) fst
      (Device.getPersistenceMode H N d) "Failed to get persistence mode" /\
    strictQuery (nvmlDeviceGetDisplayActive H N h) fst
      (Device.getDisplayActive H N d) "Failed to get display active status" /\
    strictQuery (nvmlDeviceGetComputeMode H N h) fst
      (Device.getComputeMode H N d) "Failed to get compute mode".
Proof.
  intros H D N d h. subst h.
  repeat match goal with |- _ /\ _ => split end.
  - apply optional_getFanSpeed.
  - apply optional_getMigMode.
  - apply optional_getEccErrorsCorrected.
  - apply strict_getName.
  - apply strict_getUUID.
  - apply strict_getMemoryInfo.
  - apply strict_getUtilizationRates.
  - apply strict_getTemperature.
  - apply strict_getPowerUsage.
  - apply strict_getPowerLimit.
  - apply strict_getPerformanceState.
  - apply strict_getPciInfo.
  - apply strict_getPersistenceMode.
  - apply strict_getDisplayActive.
  - apply strict_getComputeMode.
Qed.

(** *** PCI information *)

(** C10. Whenever [getPciInfo] succeeds, the [function] field of what it
    returns is 0: on native success the other six fields are copied from the
    native struct and [function] is the constant, and no successful result
    carries any other value. *)
Theorem pci_function_is_always_zero :
  forall (H : Host) (D : Type) (N : Native D) (d : Device.t) (w : World D),
    (forall pci w',
        nvmlDeviceGetPciInfo H N (Device.handle d) w = (Returned (0, pci), w') ->
        Device.getPciInfo H N d w =
          (Returned (Ok (PciInfo.mk (raw_busId pci) (raw_domain pci) (raw_bus pci)
                                    (raw_device pci) 0 (raw_pciDeviceId pci)
                                    (raw_pciSubSystemId pci))), w')) /\
    (forall p w',
        Device.getPciInfo H N d w = (Returned (Ok p), w') -> PciInfo.function p = 0).
Proof.
  intros H D N d w. split.
  - intros pci w' E. unfold Device.getPciInfo.
    rewrite (bind_returned _ _ _ _ _ E). reflexivity.
  - intros p w' E. unfold Device.getPciInfo in E.
    destruct (bind_inv _ _ _ _ _ E) as [([ret pci] & w1 & _ & E2)|(ex & _ & Hx)];
      [|discriminate].
    destruct (negb (isSuccess ret)); inversion E2; subst. reflexivity.
Qed.

Lemma pci_function_is_always_zero_witness :
  Device.getPciInfo Mock.host Mock.native Mock.device Mock.ready =
    (Returned (Ok (PciInfo.mk "00000000:00:1E.0" 0 0 30 0 1193046 7903932)),
     Mock.after (nvmlDeviceGetPciInfo Mock.host Mock.native Mock.mockDeviceHandle)
                Mock.ready) /\
  PciInfo.function (PciInfo.mk "00000000:00:1E.0" 0 0 30 0 1193046 7903932) = 0.
Proof.
  pose proof (pci_function_is_always_zero Mock.host _ Mock.native Mock.device Mock.ready)
    as [Hcopy Hzero].
  assert (E : nvmlDeviceGetPciInfo Mock.host Mock.native Mock.mockDeviceHandle Mock.ready =
    (Returned (0, mkRawNvmlPciInfo "0000:00:1E.0" 0 0 30 1193046 7903932
                                   "00000000:00:1E.0"),
     Mock.after (nvmlDeviceGetPciInfo Mock.host Mock.native Mock.mockDeviceHandle)
                Mock.ready))
    by (apply run_outcome; vm_compute; reflexivity).
  split; [exact (Hcopy _ _ E) | exact (Hzero _ _ (Hcopy _ _ E))].
Defined.

(** *** Lifecycle *)

Section Lifecycle.
Context (H : Host) {D : Type} (N : Native D).

Lemma ensureInitialized_down {A} (k : unit -> M D A) :
  failsUninitialized (bind Nvml.ensureInitialized k).
Proof.
  intros w Hw. unfold Nvml.ensureInitialized, bind, read. rewrite Hw. reflexivity.
Qed.

Lemma ensureInitialized_up (w : World D) :
  initialized w = true -> Nvml.ensureInitialized w = (Returned tt, w).
Proof.
  intros Hw. unfold Nvml.ensureInitialized, bind, read. rewrite Hw. reflexivity.
Qed.

Lemma init_after_native (w w1 : World D) ret :
  nvmlInit H N w = (Returned ret, w1) ->
  Nvml.init H N w =
    if (ret =? 0)%Z
    then (Returned tt,
          mkWorld true (lib w1) (libraryPath w1) (slots w1) (loads w1) (driver w1)
                  (trace w1))
    else (Thrown (ExnNvml (failureWith "Failed to initialize NVML" ret)), w1).
Proof.
  intros E. unfold Nvml.init. rewrite (bind_returned _ _ _ _ _ E).
  unfold isSuccess, NvmlReturn.SUCCESS. destruct (ret =? 0)%Z; cbn [negb].
  - reflexivity.
  - rewrite fromReturn_context by reflexivity. reflexivity.
Qed.

Lemma shutdown_after_native (w w1 : World D) ret :
  nvmlShutdown H N w = (Returned ret, w1) ->
  Nvml.shutdown H N w =
    if (ret =? 0)%Z
    then (Returned tt,
          mkWorld false (lib w1) (libraryPath w1) (slots w1) (loads w1) (driver w1)
                  (trace w1))
    else (Thrown (ExnNvml (failureWith "Failed to shutdown NVML" ret)), w1).
Proof.
  intros E. unfold Nvml.shutdown. rewrite (bind_returned _ _ _ _ _ E).
  unfold isSuccess, NvmlReturn.SUCCESS. destruct (ret =? 0)%Z; cbn [negb].
  - reflexivity.
  - rewrite fromReturn_context by reflexivity. reflexivity.
Qed.
End Lifecycle.

(** C2. The lifecycle flag is down in a fresh world; an [init()] whose
    native call returns 0 raises it and a [shutdown()] whose native call
    returns 0 lowers it; when the native call returns another code, [init()]
    and [shutdown()] fail with that code wrapped in their context and the
    flag is as it was before the call; and while the flag is down every
    operation that starts with [ensureInitialized()] fails with
    ERROR_UNINITIALIZED and leaves the world untouched, so that no native
    call is made. *)
Theorem lifecycle_state_machine :
  forall (H : Host) (D : Type) (N : Native D),
    (forall d : D, Nvml.isInitialized (freshWorld d) = (Returned false, freshWorld d)) /\
    (forall w w1, nvmlInit H N w = (Returned 0, w1) ->
       exists w2, Nvml.init H N w = (Returned tt, w2) /\
                  Nvml.isInitialized w2 = (Returned true, w2)) /\
    (forall w w1, nvmlShutdown H N w = (Returned 0, w1) ->
       exists w2, Nvml.shutdown H N w = (Returned tt, w2) /\
                  Nvml.isInitialized w2 = (Returned false, w2)) /\
    (forall w w1 ret, nvmlInit H N w = (Returned ret, w1) -> ret <> 0 ->
       Nvml.init H N w =
         (Thrown (ExnNvml (failureWith "Failed to initialize NVML" ret)), w1) /\
       initialized w1 = initialized w) /\
    (forall w w1 ret, nvmlShutdown H N w = (Returned ret, w1) -> ret <> 0 ->
       Nvml.shutdown H N w =
         (Thrown (ExnNvml (failureWith "Failed to shutdown NVML" ret)), w1) /\
       initialized w1 = initialized w) /\
    code uninitializedError = NvmlReturn.ERROR_UNINITIALIZED /\
    failsUninitialized (Nvml.ensureInitialized (D := D)) /\
    failsUninitialized (Nvml.getDeviceCount H N) /\
    (forall index, failsUninitialized (Nvml.getDevice H N index)) /\
    (forall uuid, failsUninitialized (Nvml.getDeviceByUUID H N uuid)) /\
    failsUninitialized (Nvml.getAllDevices H N) /\
    failsUninitialized (Nvml.getDriverInfo H N) /\
    failsUninitialized (Nvml.getDriverVersion H N) /\
    failsUninitialized (Nvml.getNvmlVersion H N) /\
    failsUninitialized (Nvml.getCudaVersion H N) /\
    failsUninitialized (Nvml.getAllGpuStatus H N) /\
    failsUninitialized (Nvml.getSystemSnapshot H N).
Proof.
  intros H D N.
  repeat match goal with |- _ /\ _ => split end.
  - reflexivity.
  - intros w w1 E. rewrite (init_after_native H N w w1 0 E). simpl. eauto.
  - intros w w1 E. rewrite (shutdown_after_native H N w w1 0 E). simpl. eauto.
  - intros w w1 ret E Hret. rewrite (init_after_native H N w w1 ret E).
    destruct (Z.eqb_spec ret 0); [contradiction|]. split; [reflexivity|].
    apply (keeps_nvmlInit H N _ _ _ E).
  - intros w w1 ret E Hret. rewrite (shutdown_after_native H N w w1 ret E).
    destruct (Z.eqb_spec ret 0); [contradiction|]. split; [reflexivity|].
    apply (keeps_nvmlShutdown H N _ _ _ E).
  - reflexivity.
  - intros w Hw. unfold Nvml.ensureInitialized, bind, read. rewrite Hw. reflexivity.
  - apply ensureInitialized_down.
  - intros index. apply ensureInitialized_down.
  - intros uuid. apply ensureInitialized_down.
  - intros w Hw. unfold Nvml.getAllDevices.
    apply bind_thrown. apply ensureInitialized_down, Hw.
  - apply ensureInitialized_down.
  - apply ensureInitialized_down.
  - apply ensureInitialized_down.
  - apply ensureInitialized_down.
  - apply ensureInitialized_down.
  - apply ensureInitialized_down.
Qed.

Lemma lifecycle_state_machine_witness :
  (exists w2, Nvml.init Mock.host Mock.native Mock.fresh = (Returned tt, w2) /\
              Nvml.isInitialized w2 = (Returned true, w2)) /\
  (exists w2, Nvml.shutdown Mock.host Mock.native Mock.ready = (Returned tt, w2) /\
              Nvml.isInitialized w2 = (Returned false, w2)) /\
  Nvml.init Mock.host Mock.native Mock.freshLost =
    (Thrown (ExnNvml (failureWith "Failed to initialize NVML" 15)),
     Mock.after (nvmlInit Mock.host Mock.native) Mock.freshLost) /\
  Nvml.shutdown Mock.host Mock.native (Mock.readyLostAfter 0) =
    (Thrown (ExnNvml (failureWith "Failed to shutdown NVML" 15)),
     Mock.after (nvmlShutdown Mock.host Mock.native) (Mock.readyLostAfter 0)) /\
  Nvml.getSystemSnapshot Mock.host Mock.native Mock.fresh =
    (Thrown (ExnNvml uninitializedError), Mock.fresh).
Proof.
  pose proof (lifecycle_state_machine Mock.host _ Mock.native)
    as (_ & Hinit & Hshutdown & Hinit' & Hshutdown' & Hrest).
  split; [|split; [|split; [|split]]].
  - apply (Hinit Mock.fresh (Mock.after (nvmlInit Mock.host Mock.native) Mock.fresh)).
    apply run_outcome. vm_compute. reflexivity.
  - apply (Hshutdown Mock.ready
             (Mock.after (nvmlShutdown Mock.host Mock.native) Mock.ready)).
    apply run_outcome. vm_compute. reflexivity.
  - apply Hinit'; [|discriminate]. apply run_outcome. vm_compute. reflexivity.
  - apply Hshutdown'; [|discriminate]. apply run_outcome. vm_compute. reflexivity.
  - apply Hrest. reflexivity.
Defined.

(** *** Composite queries *)

Lemma firstFailure_stops {D} (qs : list (M D (option NvmlError))) :
  forall w e w',
    firstFailure qs w = (Returned (Some e), w') ->
    exists before q after w1,
      qs = (before ++ q :: after)%list /\
      allSucceed before w w1 /\
      q w1 = (Returned (Some e), w').
Proof.
  induction qs as [|q qs IH]; intros w e w' E; simpl in E.
  - inversion E.
  - destruct (bind_inv _ _ _ _ _ E) as [([err|] & w1 & E1 & E2)|(ex & _ & Hx)];
      [| |discriminate].
    + inversion E2; subst. exists [], q, qs, w. repeat split; [constructor | exact E1].
    + destruct (IH _ _ _ E2) as (before & q' & after & w2 & -> & Hall & Hq).
      exists (q :: before), q', after, w2. repeat split; [|exact Hq].
      econstructor; eassumption.
Qed.

Lemma probe_failure {D T} (q : M D (Result T)) w e w' :
  q w = (Returned (Err e), w') -> probe q w = (Returned (Some e), w').
Proof. intros E. unfold probe. rewrite (bind_returned _ _ _ _ _ E). reflexivity. Qed.

Section Composites.
Context (H : Host) {D : Type} (N : Native D).

(** Case analysis on how the next single-field query [f] ends. *)
Local Ltac next f :=
  match goal with
  | |- context [f H D N ?d ?w] =>
      destruct (f H D N d w) as [[[?|?]|?] ?];
      cbv beta iota delta [ret_ ok failureOf]; try reflexivity
  end.

Lemma getBasicInfo_firstFailure d w :
  probe (Device.getBasicInfo H N d) w = firstFailure (basicInfoFields H N d) w.
Proof.
  unfold Device.getBasicInfo, basicInfoFields. cbn [firstFailure].
  unfold probe, bind.
  next @Device.getName. next @Device.getMemoryInfo.
Qed.

Lemma getStatus_firstFailure d w :
  probe (Device.getStatus H N d) w = firstFailure (statusFields H N d) w.
Proof.
  unfold Device.getStatus, statusFields. cbn [firstFailure].
  unfold probe, bind.
  next @Device.getName. next @Device.getPersistenceMode. next @Device.getPciInfo.
  next @Device.getDisplayActive. next @Device.getEccErrorsCorrected.
  next @Device.getFanSpeed. next @Device.getTemperature.
  next @Device.getPerformanceState. next @Device.getPowerUsage.
  next @Device.getPowerLimit. next @Device.getMemoryInfo.
  next @Device.getUtilizationRates. next @Device.getComputeMode.
  next @Device.getMigMode.
Qed.
End Composites.

(** C6. [getBasicInfo] and [getStatus] run their single-field queries in
    the order of [basicInfoFields] and [statusFields] and stop at the first
    one that fails: the failure they return, the world they leave and any
    exception are those of running the fields in that order up to the first
    failure.  So when a composite returns a failure, some field of the
    sequence returned this very failure, every field before it succeeded,
    and the world is the one that field left: no later field was queried. *)
Theorem composites_stop_at_first_failure :
  forall (H : Host) (D : Type) (N : Native D) (d : Device.t) (w : World D),
    probe (Device.getBasicInfo H N d) w = firstFailure (basicInfoFields H N d) w /\
    probe (Device.getStatus H N d) w = firstFailure (statusFields H N d) w /\
    (forall e w',
        Device.getBasicInfo H N d w = (Returned (Err e), w') ->
        exists before q after w1,
          basicInfoFields H N d = (before ++ q :: after)%list /\
          allSucceed before w w1 /\
          q w1 = (Returned (Some e), w')) /\
    (forall e w',
        Device.getStatus H N d w = (Returned (Err e), w') ->
        exists before q after w1,
          statusFields H N d = (before ++ q :: after)%list /\
          allSucceed before w w1 /\
          q w1 = (Returned (Some e), w')).
Proof.
  intros H D N d w.
  split; [apply getBasicInfo_firstFailure|].
  split; [apply getStatus_firstFailure|].
  split; intros e w' E; apply firstFailure_stops.
  - rewrite <- getBasicInfo_firstFailure. apply probe_failure, E.
  - rewrite <- getStatus_firstFailure. apply probe_failure, E.
Qed.

(** On the simulated machine, with the GPU lost after six more native
    calls, [getStatus] fails at its seventh field. *)
Lemma getStatus_lost_at_temperature :
  Device.getStatus Mock.host Mock.native Mock.device (Mock.readyLostAfter 6) =
    (Returned (Err (mkNvmlError 15 "Failed to get temperature: GPU is lost")),
     Mock.after (Device.getStatus Mock.host Mock.native Mock.device)
                (Mock.readyLostAfter 6)).
Proof. apply run_outcome. vm_compute. reflexivity. Qed.

Lemma composites_stop_at_first_failure_witness :
  exists before q after w1,
    statusFields Mock.host Mock.native Mock.device = (before ++ q :: after)%list /\
    allSucceed before (Mock.readyLostAfter 6) w1 /\
    q w1 =
      (Returned (Some (mkNvmlError 15 "Failed to get temperature: GPU is lost")),
       Mock.after (Device.getStatus Mock.host Mock.native Mock.device)
                  (Mock.readyLostAfter 6)).
Proof.
  exact (proj2 (proj2 (proj2
    (composites_stop_at_first_failure Mock.host _ Mock.native Mock.device
       (Mock.readyLostAfter 6)))) _ _ getStatus_lost_at_temperature).
Defined.

(** *** Process listing *)

Lemma not_in_grown (seen : gset Z) (q p : Z) :
  p ∉ {[ q ]} ∪ seen <-> q <> p /\ p ∉ seen.
Proof.
  rewrite elem_of_union, elem_of_singleton. split.
  - intros Hn. split; [intros ->; apply Hn; left; reflexivity | intros Hs; apply Hn; right; exact Hs].
  - intros [Hne Hs] [->|Hin]; [apply Hne; reflexivity | apply Hs, Hin].
Qed.

Lemma firstOccurrencesFrom_pids (raws : list RawProcessInfo) :
  forall (seen : gset Z) (p : Z),
    List.In p (List.map raw_pid (firstOccurrencesFrom seen raws)) <->
    List.In p (List.map raw_pid raws) /\ p ∉ seen.
Proof.
  induction raws as [|r rest IH]; intros seen p; simpl.
  - tauto.
  - case_bool_decide as Hin; simpl; rewrite IH.
    + split.
      * intros [Hp Hs]. auto.
      * intros [[Hp|Hp] Hs]; [subst; contradiction | auto].
    + rewrite not_in_grown. split.
      * intros [Hp|[Hp [Hne Hs]]]; [subst; auto | auto].
      * intros [[Hp|Hp] Hs]; [auto|].
        destruct (decide (raw_pid r = p)) as [->|Hne]; [auto|]. auto.
Qed.

Lemma firstOccurrencesFrom_NoDup (raws : list RawProcessInfo) :
  forall seen : gset Z, List.NoDup (List.map raw_pid (firstOccurrencesFrom seen raws)).
Proof.
  induction raws as [|r rest IH]; intros seen; simpl.
  - constructor.
  - case_bool_decide as Hin; simpl; [apply IH|].
    constructor; [|apply IH].
    rewrite firstOccurrencesFrom_pids, not_in_grown. intros [_ [Hne _]].
    apply Hne. reflexivity.
Qed.

Lemma firstOccurrencesFrom_first (raws : list RawProcessInfo) :
  forall (seen : gset Z) (r : RawProcessInfo),
    List.In r (firstOccurrencesFrom seen raws) ->
    firstWithPid (raw_pid r) raws = Some r.
Proof.
  unfold firstWithPid.
  induction raws as [|r0 rest IH]; intros seen r Hr; simpl in *.
  - contradiction.
  - assert (Hpid : forall s, List.In r (firstOccurrencesFrom s rest) -> raw_pid r ∉ s).
    { intros s Hs. apply (in_map raw_pid) in Hs.
      apply firstOccurrencesFrom_pids in Hs. tauto. }
    case_bool_decide as Hin.
    + destruct (Z.eqb_spec (raw_pid r0) (raw_pid r)) as [E|_].
      * exfalso. apply (Hpid seen Hr). rewrite <- E. exact Hin.
      * eapply IH, Hr.
    + destruct Hr as [->|Hr].
      * rewrite Z.eqb_refl. reflexivity.
      * destruct (Z.eqb_spec (raw_pid r0) (raw_pid r)) as [E|_].
        -- exfalso. apply Hpid, not_in_grown in Hr. tauto.
        -- eapply IH, Hr.
Qed.

Section Processes.
Context (H : Host) {D : Type} (N : Native D).

Lemma lookupNames_length (pids : list Z) :
  forall (w : World D) replies w',
    lookupNames H N pids w = (Returned replies, w') ->
    List.length replies = List.length pids.
Proof.
  induction pids as [|pid rest IH]; intros w replies w' E; simpl in E.
  - inversion E. reflexivity.
  - destruct (bind_inv _ _ _ _ _ E) as [(reply & w1 & _ & E2)|(ex & _ & Hx)];
      [|discriminate].
    destruct (bind_inv _ _ _ _ _ E2) as [(rs & w2 & E3 & E4)|(ex & _ & Hx)];
      [|discriminate].
    inversion E4; subst. simpl. f_equal. eapply IH, E3.
Qed.

Lemma zipEntries_pids gpuIndex (rs : list RawProcessInfo) :
  forall replies,
    List.length replies = List.length rs ->
    List.map GpuProcess.pid (zipEntries gpuIndex rs replies) = List.map raw_pid rs.
Proof.
  induction rs as [|r rs IH]; intros [|reply replies] Hlen; simpl in *;
    try discriminate; try reflexivity.
  f_equal. apply IH. lia.
Qed.

(** The loop of [getProcesses] is: keep the first occurrence of each
    process id, look the names up in that order, build one entry each. *)
Lemma collectProcesses_spec d (raws : list RawProcessInfo) :
  forall seen acc (w : World D),
    Device.collectProcesses H N d raws seen acc w =
      (let* replies :=
         lookupNames H N (List.map raw_pid (firstOccurrencesFrom seen raws)) in
       ret_ (acc ++ zipEntries (Device.index d) (firstOccurrencesFrom seen raws)
                               replies)%list) w.
Proof.
  induction raws as [|r rest IH]; intros seen acc w; simpl.
  - unfold bind, ret_. rewrite app_nil_r. reflexivity.
  - case_bool_decide as Hin; [apply IH|].
    cbn [List.map lookupNames]. rewrite bind_assoc.
    destruct (nvmlSystemGetProcessName H N (raw_pid r) w) as [[[ret name]|ex] w1] eqn:E1.
    + rewrite !(bind_returned _ _ _ _ _ E1). rewrite IH, bind_assoc.
      unfold bind, ret_.
      destruct (lookupNames H N _ w1) as [[replies|ex] w2]; [|reflexivity].
      cbn [zipEntries]. rewrite <- app_assoc. reflexivity.
    + rewrite !(bind_thrown _ _ _ _ _ E1). reflexivity.
Qed.
End Processes.

(** C7. When both native process queries succeed, [getProcesses] keeps,
    of the compute list followed by the graphics list, the first occurrence
    of each process id (so a process id present in both lists gets exactly
    one entry, the one of its first occurrence), looks up one name per kept
    process and returns one entry per kept process in that order; an entry
    whose name lookup answered a nonzero status is named "pid:" followed by
    the process id, and the query still succeeds. *)
Theorem processes_are_deduplicated_first_wins :
  forall (H : Host) (D : Type) (N : Native D) (d : Device.t)
         (w w1 w2 : World D) (cs gs : list RawProcessInfo),
    nvmlDeviceGetComputeRunningProcesses H N (Device.handle d) w
      = (Returned (0, cs), w1) ->
    nvmlDeviceGetGraphicsRunningProcesses H N (Device.handle d) w1
      = (Returned (0, gs), w2) ->
    let raws := (cs ++ gs)%list in
    let kept := firstOccurrences raws in
    List.NoDup (List.map raw_pid kept) /\
    (forall p, List.In p (List.map raw_pid kept) <-> List.In p (List.map raw_pid raws)) /\
    (forall r, List.In r kept -> firstWithPid (raw_pid r) raws = Some r) /\
    Device.getProcesses H N d w =
      (let* replies := lookupNames H N (List.map raw_pid kept) in
       ret_ (ok (zipEntries (Device.index d) kept replies))) w2 /\
    (forall ps w3,
        Device.getProcesses H N d w = (Returned (Ok ps), w3) ->
        exists replies,
          lookupNames H N (List.map raw_pid kept) w2 = (Returned replies, w3) /\
          ps = zipEntries (Device.index d) kept replies /\
          List.map GpuProcess.pid ps = List.map raw_pid kept) /\
    (forall r ret name,
        GpuProcess.processName (entryOf (Device.index d) r (ret, name)) =
          if (ret =? 0)%Z then name else "pid:" +:+ Js.show (raw_pid r)).
Proof.
  intros H D N d w w1 w2 cs gs Ec Eg raws kept.
  assert (Eq : Device.getProcesses H N d w =
    (let* replies := lookupNames H N (List.map raw_pid kept) in
     ret_ (ok (zipEntries (Device.index d) kept replies))) w2).
  { unfold Device.getProcesses.
    rewrite (bind_returned _ _ _ _ _ Ec). cbv beta iota.
    change (negb (isSuccess 0)) with false. cbv iota.
    rewrite (bind_returned _ _ _ _ _ Eg). cbv beta iota.
    change (negb (isSuccess 0)) with false. cbv iota.
    unfold bind at 1. rewrite collectProcesses_spec.
    fold raws. fold (firstOccurrences raws). fold kept.
    unfold bind, ret_. destruct (lookupNames H N _ w2) as [[replies|ex] w3]; reflexivity. }
  repeat match goal with |- _ /\ _ => split end.
  - apply firstOccurrencesFrom_NoDup.
  - intros p. unfold kept, firstOccurrences. rewrite firstOccurrencesFrom_pids.
    split; [tauto | intros Hp; split; [exact Hp | apply not_elem_of_empty]].
  - intros r. apply firstOccurrencesFrom_first.
  - exact Eq.
  - intros ps w3 E. rewrite Eq in E.
    destruct (bind_inv _ _ _ _ _ E) as [(replies & w' & E1 & E2)|(ex & _ & Hx)];
      [|discriminate].
    inversion E2; subst. exists replies. repeat split; [exact E1|].
    apply zipEntries_pids.
    rewrite (lookupNames_length H N _ _ _ _ E1). apply length_map.
  - intros r ret name. reflexivity.
Qed.

Lemma processes_are_deduplicated_first_wins_witness :
  let cs := [ mkRawProcessInfo 1234 (512 * 1024 * 1024) 0 0;
              mkRawProcessInfo 4242 (64 * 1024 * 1024) 0 0 ] in
  let gs := [ mkRawProcessInfo 777 (3 * 1024 * 1024) 0 0;
              mkRawProcessInfo 1234 (7 * 1024 * 1024) 0 0 ] in
  let w1 := Mock.after (nvmlDeviceGetComputeRunningProcesses Mock.host Mock.native
                          Mock.mockDeviceHandle) Mock.readyShared in
  let w2 := Mock.after (nvmlDeviceGetGraphicsRunningProcesses Mock.host Mock.native
                          Mock.mockDeviceHandle) w1 in
  List.NoDup (List.map raw_pid (firstOccurrences (cs ++ gs))) /\
  Device.getProcesses Mock.host Mock.native Mock.device Mock.readyShared =
    (let* replies :=
       lookupNames Mock.host Mock.native
         (List.map raw_pid (firstOccurrences (cs ++ gs))) in
     ret_ (ok (zipEntries 0 (firstOccurrences (cs ++ gs)) replies))) w2.
Proof.
  intros cs gs w1 w2.
  assert (Ec : nvmlDeviceGetComputeRunningProcesses Mock.host Mock.native
                 (Device.handle Mock.device) Mock.readyShared = (Returned (0, cs), w1))
    by (apply run_outcome; vm_compute; reflexivity).
  assert (Eg : nvmlDeviceGetGraphicsRunningProcesses Mock.host Mock.native
                 (Device.handle Mock.device) w1 = (Returned (0, gs), w2))
    by (apply run_outcome; vm_compute; reflexivity).
  pose proof (processes_are_deduplicated_first_wins Mock.host _ Mock.native Mock.device
                Mock.readyShared w1 w2 cs gs Ec Eg) as (Hnodup & _ & _ & Heq & _).
  split; [exact Hnodup | exact Heq].
Defined.

(** On the simulated machine with a process in both lists and two
    unnamed processes: one entry for process 1234, from the compute list,
    and placeholder names for processes 4242 and 777. *)
Lemma getProcesses_shared_and_unnamed :
  fst (Device.getProcesses Mock.host Mock.native Mock.device Mock.readyShared) =
    Returned (Ok [ GpuProcess.mk 0 1234 "/usr/bin/python3" 512%float;
                   GpuProcess.mk 0 4242 "pid:4242" 64%float;
                   GpuProcess.mk 0 777 "pid:777" 3%float ]).
Proof. vm_compute. reflexivity. Qed.

Lemma not_supported_is_absent_for_three_queries_only_witness :
  Device.getFanSpeed Mock.host Mock.native Mock.device Mock.readyPassive =
    (Returned (Ok None),
     Mock.after (nvmlDeviceGetFanSpeed Mock.host Mock.native Mock.mockDeviceHandle)
                Mock.readyPassive) /\
  Device.getFanSpeed Mock.host Mock.native Mock.device (Mock.readyLostAfter 0) =
    (Returned (Err (failureWith "Failed to get fan speed" 15)),
     Mock.after (nvmlDeviceGetFanSpeed Mock.host Mock.native Mock.mockDeviceHandle)
                (Mock.readyLostAfter 0)) /\
  Device.getTemperature Mock.host Mock.native Mock.device (Mock.readyLostAfter 0) =
    (Returned (Err (failureWith "Failed to get temperature" 15)),
     Mock.after (nvmlDeviceGetTemperature Mock.host Mock.native Mock.mockDeviceHandle
                   NvmlTemperatureSensors.GPU)
                (Mock.readyLostAfter 0)).
Proof.
  pose proof (not_supported_is_absent_for_three_queries_only
                Mock.host _ Mock.native Mock.device)
    as (Hfan & _ & _ & _ & _ & _ & _ & Htemp & _).
  split; [|split].
  - assert (E : nvmlDeviceGetFanSpeed Mock.host Mock.native (Device.handle Mock.device)
                  Mock.readyPassive =
                (Returned (3, 0),
                 Mock.after (nvmlDeviceGetFanSpeed Mock.host Mock.native
                               Mock.mockDeviceHandle) Mock.readyPassive))
      by (apply run_outcome; vm_compute; reflexivity).
    destruct (Hfan _ _ _ E) as (_ & Habsent & _). apply Habsent. reflexivity.
  - assert (E : nvmlDeviceGetFanSpeed Mock.host Mock.native (Device.handle Mock.device)
                  (Mock.readyLostAfter 0) =
                (Returned (15, 0),
                 Mock.after (nvmlDeviceGetFanSpeed Mock.host Mock.native
                               Mock.mockDeviceHandle) (Mock.readyLostAfter 0)))
      by (apply run_outcome; vm_compute; reflexivity).
    destruct (Hfan _ _ _ E) as (_ & _ & Hfail). apply Hfail; discriminate.
  - assert (E : nvmlDeviceGetTemperature Mock.host Mock.native (Device.handle Mock.device)
                  NvmlTemperatureSensors.GPU (Mock.readyLostAfter 0) =
                (Returned (15, 55),
                 Mock.after (nvmlDeviceGetTemperature Mock.host Mock.native
                               Mock.mockDeviceHandle NvmlTemperatureSensors.GPU)
                            (Mock.readyLostAfter 0)))
      by (apply run_outcome; vm_compute; reflexivity).
    destruct (Htemp _ _ _ E) as (_ & Hfail). apply Hfail. discriminate.
Defined.

(** *** Unit conversions *)

(** The version the driver encodes as [major * 1000 + minor * 10] is
    rendered as major, a dot, minor. *)
Lemma cudaVersionToString_encoded (major minor : Z) :
  0 <= major -> 0 <= minor < 100 ->
  cudaVersionToString (major * 1000 + minor * 10) =
    Js.show major +:+ "." +:+ Js.show minor.
Proof.
  intros Hmajor Hminor. unfold cudaVersionToString.
  assert (Hq : (major * 1000 + minor * 10) / 1000 = major).
  { rewrite Z.add_comm, Z.div_add by lia. rewrite Z.div_small by lia. lia. }
  assert (Hr : Z.rem (major * 1000 + minor * 10) 1000 / 10 = minor).
  { rewrite Z.rem_mod_nonneg by lia.
    rewrite Z.add_comm, Z.mod_add by lia. rewrite Z.mod_small by lia.
    apply Z.div_mul. lia. }
  cbv zeta. rewrite Hq, Hr. reflexivity.
Qed.

Lemma bytes_to_MiB_exact (b : Z) :
  0 <= b < 2 ^ 64 ->
  Z.quot b (1024 * 1024) = b / 1048576 /\ 0 <= b / 1048576 < 2 ^ 53.
Proof.
  intros Hb. change (1024 * 1024) with 1048576.
  rewrite Z.quot_div_nonneg by lia. split; [reflexivity|].
  split; [apply Z.div_pos; lia|].
  apply Z.div_lt_upper_bound; lia.
Qed.

(** *** Where the MiB figures come from *)

Lemma probe_success {D T} (q : M D (Result T)) w v w' :
  q w = (Returned (Ok v), w') -> probe q w = (Returned None, w').
Proof. intros E. unfold probe. rewrite (bind_returned _ _ _ _ _ E). reflexivity. Qed.

Lemma zipEntries_memory (i : Z) (rs : list RawProcessInfo) :
  forall replies,
    List.length replies = List.length rs ->
    List.Forall2
      (fun p r =>
         GpuProcess.pid p = raw_pid r /\
         GpuProcess.usedMemoryMiB p
           = Js.Number (Z.quot (usedGpuMemory r) (1024 * 1024)))
      (zipEntries i rs replies) rs.
Proof.
  induction rs as [|r rs IH]; intros [|reply replies] Hlen; simpl in *;
    try discriminate; constructor.
  - split; reflexivity.
  - apply IH. lia.
Qed.

Section ProcessOutcomes.
Context (H : Host) {D : Type} (N : Native D).

(** The two ways [getProcesses] returns: a listing built from both
    enumerations, or the failure of the first enumeration that failed. *)
Lemma getProcesses_runs (d : Device.t) (w w' : World D) (r : Result (list GpuProcess.t)) :
  Device.getProcesses H N d w = (Returned r, w') ->
  match r with
  | Ok ps =>
      exists cs gs w1 w2 replies,
        nvmlDeviceGetComputeRunningProcesses H N (Device.handle d) w
          = (Returned (0, cs), w1) /\
        nvmlDeviceGetGraphicsRunningProcesses H N (Device.handle d) w1
          = (Returned (0, gs), w2) /\
        lookupNames H N (List.map raw_pid (firstOccurrences (cs ++ gs))) w2
          = (Returned replies, w') /\
        ps = zipEntries (Device.index d) (firstOccurrences (cs ++ gs)) replies
  | Err e =>
      (exists ret cs,
          nvmlDeviceGetComputeRunningProcesses H N (Device.handle d) w
            = (Returned (ret, cs), w') /\
          ret <> 0 /\ e = failureWith "Failed to get compute processes" ret) \/
      (exists cs ret gs w1,
          nvmlDeviceGetComputeRunningProcesses H N (Device.handle d) w
            = (Returned (0, cs), w1) /\
          nvmlDeviceGetGraphicsRunningProcesses H N (Device.handle d) w1
            = (Returned (ret, gs), w') /\
          ret <> 0 /\ e = failureWith "Failed to get graphics processes" ret)
  end.
Proof.
  intros E. unfold Device.getProcesses in E.
  destruct (bind_inv _ _ _ _ _ E) as [([cret cs] & w1 & Ec & E1)|(ex & _ & Hx)];
    [clear E | discriminate].
  destruct (isSuccess cret) eqn:Hc; cbn [negb] in E1.
  - apply isSuccess_true in Hc. subst cret.
    destruct (bind_inv _ _ _ _ _ E1) as [([gret gs] & w2 & Eg & E2)|(ex & _ & Hx)];
      [clear E1 | discriminate].
    destruct (isSuccess gret) eqn:Hg; cbn [negb] in E2.
    + apply isSuccess_true in Hg. subst gret.
      destruct (bind_inv _ _ _ _ _ E2) as [(ps0 & w3 & Ecoll & E3)|(ex & _ & Hx)];
        [clear E2 | discriminate].
      rewrite collectProcesses_spec in Ecoll.
      destruct (bind_inv _ _ _ _ _ Ecoll) as [(replies & w4 & El & E4)|(ex & _ & Hx)];
        [clear Ecoll | discriminate].
      inversion E4; subst. inversion E3; subst.
      exists cs, gs, w1, w2, replies. auto.
    + apply isSuccess_false in Hg.
      rewrite errFromReturn_context in E2 by reflexivity. inversion E2; subst.
      right. exists cs, gret, gs, w1. auto.
  - apply isSuccess_false in Hc.
    rewrite errFromReturn_context in E1 by reflexivity. inversion E1; subst.
    left. exists cret, cs. auto.
Qed.
End ProcessOutcomes.

Section Conversions.
Context (H : Host) {D : Type} (N : Native D).

(** The next single-field query of a composite that ended in a success
    has itself ended in a success. *)
Local Ltac field E :=
  let r := fresh "r" in
  let w1 := fresh "w" in
  let E1 := fresh "Ef" in
  let E2 := fresh "Er" in
  destruct (bind_inv _ _ _ _ _ E) as [(r & w1 & E1 & E2)|(? & _ & ?)];
    [clear E; destruct r as [?|?]; [|inversion E2]; rename E2 into E;
     pose proof (probe_success _ _ _ _ E1) | discriminate].

(** A status [getStatus] returns: its first ten fields succeeded one
    after the other, then the memory was read, then the last three fields
    succeeded; the two MiB figures are quotients of that one reading. *)
Lemma getStatus_memory (d : Device.t) (w w' : World D) (st : GpuStatus.t) :
  Device.getStatus H N d w = (Returned (Ok st), w') ->
  exists memory wa wb,
    allSucceed (take 10 (statusFields H N d)) w wa /\
    Device.getMemoryInfo H N d wa = (Returned (Ok memory), wb) /\
    allSucceed (drop 11 (statusFields H N d)) wb w' /\
    GpuStatus.memoryUsedMiB st
      = Js.Number (Z.quot (MemoryInfo.used memory) (1024 * 1024)) /\
    GpuStatus.memoryTotalMiB st
      = Js.Number (Z.quot (MemoryInfo.total memory) (1024 * 1024)).
Proof.
  intros E. unfold Device.getStatus in E.
  do 14 field E. inversion E; subst.
  unfold statusFields. cbn [take drop].
  do 3 eexists. split; [|split; [eassumption|split; [|split; reflexivity]]].
  - repeat (econstructor; [eassumption|]). constructor.
  - repeat (econstructor; [eassumption|]). constructor.
Qed.

(** A listing [getProcesses] returns: both enumerations succeeded, and
    entry by entry the listing has the process id and the MiB quotient of
    the first occurrences of the two lists, in that order. *)
Lemma getProcesses_memory (d : Device.t) (w w' : World D) (ps : list GpuProcess.t) :
  Device.getProcesses H N d w = (Returned (Ok ps), w') ->
  exists cs gs w1 w2,
    nvmlDeviceGetComputeRunningProcesses H N (Device.handle d) w
      = (Returned (0, cs), w1) /\
    nvmlDeviceGetGraphicsRunningProcesses H N (Device.handle d) w1
      = (Returned (0, gs), w2) /\
    List.Forall2
      (fun p r =>
         GpuProcess.pid p = raw_pid r /\
         GpuProcess.usedMemoryMiB p
           = Js.Number (Z.quot (usedGpuMemory r) (1024 * 1024)))
      ps (firstOccurrences (cs ++ gs)).
Proof.
  intros E. apply getProcesses_runs in E.
  destruct E as (cs & gs & w1 & w2 & replies & Ec & Eg & El & ->).
  exists cs, gs, w1, w2. split; [exact Ec|]. split; [exact Eg|].
  apply zipEntries_memory. rewrite (lookupNames_length H N _ _ _ _ El).
  apply length_map.
Qed.
End Conversions.

(** C8. [getPowerUsage] and [getPowerLimit] return the milliwatt reading
    divided by 1000 in binary64 arithmetic (150000 gives 150, 1500 gives
    1.5); the MiB figures are the 64-bit byte count divided by 1048576 in
    integer arithmetic, a quotient below 2^53, converted to a number only
    afterwards (8 * 1024^3 gives 8192): the total of [getBasicInfo], the
    used and the total of [getStatus], both taken from the one memory
    reading made after its first ten fields, and the used memory of every
    entry of [getProcesses]; and the CUDA version [v] is rendered
    as floor (v / 1000), a dot, floor ((v % 1000) / 10), so that 12040 gives
    "12.4". *)
Theorem unit_conversions_are_exact :
  forall (H : Host) (D : Type) (N : Native D) (d : Device.t) (w : World D),
    (forall m w',
        nvmlDeviceGetPowerUsage H N (Device.handle d) w = (Returned (0, m), w') ->
        Device.getPowerUsage H N d w = (Returned (Ok (Js.Number m / 1000)%float), w')) /\
    (forall m w',
        nvmlDeviceGetPowerManagementLimit H N (Device.handle d) w
          = (Returned (0, m), w') ->
        Device.getPowerLimit H N d w = (Returned (Ok (Js.Number m / 1000)%float), w')) /\
    (Js.Number 150000 / 1000 = 150)%float /\
    (Js.Number 1500 / 1000 = 1.5)%float /\
    (forall b, 0 <= b < 2 ^ 64 ->
        Z.quot b (1024 * 1024) = b / 1048576 /\ 0 <= b / 1048576 < 2 ^ 53) /\
    (forall name memory w1 w2,
        Device.getName H N d w = (Returned (Ok name), w1) ->
        Device.getMemoryInfo H N d w1 = (Returned (Ok memory), w2) ->
        exists info,
          Device.getBasicInfo H N d w = (Returned (Ok info), w2) /\
          GpuBasicInfo.memoryTotalMiB info =
            Js.Number (Z.quot (MemoryInfo.total memory) (1024 * 1024))) /\
    (forall gpuIndex r reply,
        GpuProcess.usedMemoryMiB (entryOf gpuIndex r reply) =
          Js.Number (Z.quot (usedGpuMemory r) (1024 * 1024))) /\
    (forall st w',
        Device.getStatus H N d w = (Returned (Ok st), w') ->
        exists memory wa wb,
          allSucceed (take 10 (statusFields H N d)) w wa /\
          Device.getMemoryInfo H N d wa = (Returned (Ok memory), wb) /\
          allSucceed (drop 11 (statusFields H N d)) wb w' /\
          GpuStatus.memoryUsedMiB st
            = Js.Number (Z.quot (MemoryInfo.used memory) (1024 * 1024)) /\
          GpuStatus.memoryTotalMiB st
            = Js.Number (Z.quot (MemoryInfo.total memory) (1024 * 1024))) /\
    (forall raw w',
        nvmlDeviceGetMemoryInfo H N (Device.handle d) w = (Returned (0, raw), w') ->
        Device.getMemoryInfo H N d w =
          (Returned (Ok (MemoryInfo.mk (raw_total raw) (raw_free raw) (raw_used raw))),
           w')) /\
    (forall ps w',
        Device.getProcesses H N d w = (Returned (Ok ps), w') ->
        exists cs gs w1 w2,
          nvmlDeviceGetComputeRunningProcesses H N (Device.handle d) w
            = (Returned (0, cs), w1) /\
          nvmlDeviceGetGraphicsRunningProcesses H N (Device.handle d) w1
            = (Returned (0, gs), w2) /\
          List.Forall2
            (fun p r =>
               GpuProcess.pid p = raw_pid r /\
               GpuProcess.usedMemoryMiB p
                 = Js.Number (Z.quot (usedGpuMemory r) (1024 * 1024)))
            ps (firstOccurrences (cs ++ gs))) /\
    Js.Number (Z.quot (8 * 1024 ^ 3) (1024 * 1024)) = 8192%float /\
    (forall v,
        cudaVersionToString v =
          Js.show (v / 1000) +:+ "." +:+ Js.show (Z.rem v 1000 / 10)) /\
    (forall major minor, 0 <= major -> 0 <= minor < 100 ->
        cudaVersionToString (major * 1000 + minor * 10) =
          Js.show major +:+ "." +:+ Js.show minor) /\
    cudaVersionToString 12040 = "12.4" /\
    (forall v w',
        initialized w = true ->
        nvmlSystemGetCudaDriverVersion_v2 H N w = (Returned (0, v), w') ->
        Nvml.getCudaVersion H N w = (Returned (Ok (cudaVersionToString v)), w')).
Proof.
  intros H D N d w.
  repeat match goal with |- _ /\ _ => split end.
  - intros m w' E. unfold Device.getPowerUsage.
    rewrite (bind_returned _ _ _ _ _ E). reflexivity.
  - intros m w' E. unfold Device.getPowerLimit.
    rewrite (bind_returned _ _ _ _ _ E). reflexivity.
  - vm_compute. reflexivity.
  - vm_compute. reflexivity.
  - apply bytes_to_MiB_exact.
  - intros name memory w1 w2 En Em. eexists. split.
    + unfold Device.getBasicInfo.
      rewrite (bind_returned _ _ _ _ _ En). cbv beta iota.
      rewrite (bind_returned _ _ _ _ _ Em). cbv beta iota. reflexivity.
    + reflexivity.
  - reflexivity.
  - intros st w'. apply getStatus_memory.
  - intros raw w' E. unfold Device.getMemoryInfo.
    rewrite (bind_returned _ _ _ _ _ E). reflexivity.
  - intros ps w'. apply getProcesses_memory.
  - vm_compute. reflexivity.
  - reflexivity.
  - apply cudaVersionToString_encoded.
  - vm_compute. reflexivity.
  - intros v w' Hi E. unfold Nvml.getCudaVersion.
    rewrite (bind_returned _ _ _ _ _ (ensureInitialized_up w Hi)).
    rewrite (bind_returned _ _ _ _ _ E). reflexivity.
Qed.

Lemma unit_conversions_are_exact_witness :
  Device.getPowerUsage Mock.host Mock.native Mock.device Mock.ready =
    (Returned (Ok 150%float),
     Mock.after (nvmlDeviceGetPowerUsage Mock.host Mock.native Mock.mockDeviceHandle)
                Mock.ready) /\
  (Z.quot (8 * 1024 ^ 3) (1024 * 1024) = (8 * 1024 ^ 3) / 1048576 /\
   0 <= (8 * 1024 ^ 3) / 1048576 < 2 ^ 53) /\
  cudaVersionToString (12 * 1000 + 4 * 10) = Js.show 12 +:+ "." +:+ Js.show 4 /\
  Nvml.getCudaVersion Mock.host Mock.native Mock.ready =
    (Returned (Ok (cudaVersionToString 12040)),
     Mock.after (nvmlSystemGetCudaDriverVersion_v2 Mock.host Mock.native) Mock.ready) /\
  (exists st memory wa wb,
      fst (Device.getStatus Mock.host Mock.native Mock.device Mock.ready)
        = Returned (Ok st) /\
      allSucceed (take 10 (statusFields Mock.host Mock.native Mock.device)) Mock.ready wa /\
      Device.getMemoryInfo Mock.host Mock.native Mock.device wa
        = (Returned (Ok memory), wb) /\
      allSucceed (drop 11 (statusFields Mock.host Mock.native Mock.device)) wb
        (Mock.after (Device.getStatus Mock.host Mock.native Mock.device) Mock.ready) /\
      GpuStatus.memoryUsedMiB st
        = Js.Number (Z.quot (MemoryInfo.used memory) (1024 * 1024)) /\
      GpuStatus.memoryTotalMiB st
        = Js.Number (Z.quot (MemoryInfo.total memory) (1024 * 1024))).
Proof.
  pose proof (unit_conversions_are_exact Mock.host _ Mock.native Mock.device Mock.ready)
    as (Hpower & _ & _ & _ & Hmib & _ & _ & Hstatus & _ & _ & _ & Hcuda & _ & Hversion).
  split; [|split; [|split; [|split]]].
  - apply (Hpower 150000). apply run_outcome. vm_compute. reflexivity.
  - apply Hmib. vm_compute. split; [discriminate | reflexivity].
  - apply Hcuda; lia.
  - apply Hversion; [vm_compute; reflexivity|].
    apply run_outcome. vm_compute. reflexivity.
  - assert (Es : exists st,
               Device.getStatus Mock.host Mock.native Mock.device Mock.ready =
                 (Returned (Ok st),
                  Mock.after (Device.getStatus Mock.host Mock.native Mock.device)
                             Mock.ready)).
    { eexists. apply (run_outcome (Device.getStatus Mock.host Mock.native Mock.device)).
      vm_compute. reflexivity. }
    destruct Es as [st Es].
    destruct (Hstatus st _ Es) as (memory & wa & wb & Hrest).
    exists st, memory, wa, wb. split; [rewrite Es; reflexivity | exact Hrest].
Defined.

(** *** Which operations return a Result and which throw *)

Section NamespaceFootprint.
Context (H : Host) {D : Type} (N : Native D).

Lemma keeps_getDriverInfo : keeps (Nvml.getDriverInfo H N).
Proof. unfold Nvml.getDriverInfo. footprint. Qed.

Lemma keeps_getDeviceCount : keeps (Nvml.getDeviceCount H N).
Proof. unfold Nvml.getDeviceCount. footprint. Qed.

Lemma keeps_pushStatuses n : forall i acc, keeps (Nvml.pushStatuses H N n i acc).
Proof.
  induction n as [|n IH]; intros i acc; simpl; [footprint|].
  apply keeps_bind; [footprint|]. intros device.
  apply keeps_bind; [footprint|]. intros [status|error]; [apply IH | footprint].
Qed.

Lemma keeps_getAllGpuStatus : keeps (Nvml.getAllGpuStatus H N).
Proof.
  unfold Nvml.getAllGpuStatus.
  apply keeps_bind; [footprint|]. intros _.
  apply keeps_bind; [footprint|]. intros [ret count].
  destruct (negb (isSuccess ret)); [footprint | apply keeps_pushStatuses].
Qed.

Lemma keeps_pushProcesses n : forall i acc, keeps (Nvml.pushProcesses H N n i acc).
Proof.
  induction n as [|n IH]; intros i acc; simpl; [footprint|].
  apply keeps_bind; [footprint|]. intros device.
  apply keeps_bind; [footprint|]. intros [processes|error]; [apply IH | footprint].
Qed.

(** Past the lifecycle gate, a body that returns from every usable world
    makes the gated operation return too. *)
Lemma returns_gated {A} (body : M D A) (w : World D) :
  returns H body -> initialized w = true -> usable H w ->
  exists a w', (Nvml.ensureInitialized ;; body) w = (Returned a, w') /\ quiet w w'.
Proof.
  intros Hb Hi Hu. destruct (Hb w Hu) as (a & w' & E & Q).
  exists a, w'. split; [|exact Q].
  rewrite (bind_returned _ _ _ _ _ (ensureInitialized_up w Hi)). exact E.
Qed.
End NamespaceFootprint.

(** *** What a query can throw *)

Section Exceptions.
Context (H : Host) {D : Type} (N : Native D).

Lemma plain_ret {A} (a : A) : throwsOnlyErrors (ret_ a : M D A).
Proof. intros w ex w' E. discriminate. Qed.

Lemma plain_read {A} (f : World D -> A) : throwsOnlyErrors (read f).
Proof. intros w ex w' E. discriminate. Qed.

Lemma plain_bind {A B} (m : M D A) (k : A -> M D B) :
  throwsOnlyErrors m -> (forall a, throwsOnlyErrors (k a)) ->
  throwsOnlyErrors (bind m k).
Proof.
  intros Pm Pk w ex w' E.
  destruct (bind_inv _ _ _ _ _ E) as [(a & w1 & E1 & E2)|(ex' & E1 & Hx)].
  - eapply Pk, E2.
  - inversion Hx; subst. eapply Pm, E1.
Qed.

Lemma plain_invoke {R} (f : NvmlFunc) (c : C.Call R) : throwsOnlyErrors (invoke N f c).
Proof.
  intros w ex w' E. unfold invoke in E.
  destruct (N R (bound_lib f) c (driver w)) as [r d]. discriminate.
Qed.

(** [getLibrary] throws nothing but the [Error]s it builds itself. *)
Lemma plain_getLibrary : throwsOnlyErrors (getLibrary H : M D _).
Proof.
  intros w ex w' E. destruct (lib w) as [l|] eqn:El.
  - rewrite (getLibrary_loaded H w l El) in E. discriminate.
  - destruct (findLibraryPath_spec H w) as (evs & E1 & _).
    unfold getLibrary in E. unfold bind at 1 in E. unfold read in E.
    rewrite El in E. unfold bind at 1 in E. rewrite E1 in E.
    destruct (discovered H) as [path|]; [destruct (koffi_load H path)|];
      cbv [bind fresh_handle emit set_lib ret_ throw] in E; simpl in E;
      inversion E; subst; eexists; reflexivity.
Qed.

(** A getter throws the loader's [Error] or the resolver's. *)
Lemma plain_lazyBinding sig : throwsOnlyErrors (lazyBinding H sig : M D _).
Proof.
  intros w ex w' E. destruct (slots w !! sig) as [f|] eqn:Es.
  - rewrite (lazyBinding_held H w sig f Es) in E. discriminate.
  - destruct (getLibrary H w) as [[l|ex'] w1] eqn:El.
    + destruct (koffi_func H l sig) as [|message] eqn:Ef.
      * rewrite (lazyBinding_resolves H w w1 sig l Es El Ef) in E. discriminate.
      * rewrite (lazyBinding_missing H w w1 sig l message Es El Ef) in E.
        inversion E; subst. eexists. reflexivity.
    + rewrite (lazyBinding_unloaded H w w1 sig ex' Es El) in E.
      inversion E; subst. eapply plain_getLibrary, El.
Qed.
End Exceptions.

Create HintDb exceptions discriminated.

(** Decompose a goal [throwsOnlyErrors m] along the structure of [m]. *)
Ltac plain :=
  repeat first
    [ apply plain_ret | apply plain_read | apply plain_invoke
    | apply plain_lazyBinding
    | solve [auto with exceptions]
    | apply plain_bind; [ | intros ]
    | match goal with
      | |- throwsOnlyErrors (match ?x with _ => _ end) => destruct x
      end ].

Section QueryExceptions.
Context (H : Host) {D : Type} (N : Native D).

Local Ltac single f := intros; unfold f; autounfold with bindings; plain.

Lemma plain_getName d : throwsOnlyErrors (Device.getName H N d).
Proof. single @Device.getName. Qed.
Lemma plain_getUUID d : throwsOnlyErrors (Device.getUUID H N d).
Proof. single @Device.getUUID. Qed.
Lemma plain_getMemoryInfo d : throwsOnlyErrors (Device.getMemoryInfo H N d).
Proof. single @Device.getMemoryInfo. Qed.
Lemma plain_getUtilizationRates d : throwsOnlyErrors (Device.getUtilizationRates H N d).
Proof. single @Device.getUtilizationRates. Qed.
Lemma plain_getTemperature d : throwsOnlyErrors (Device.getTemperature H N d).
Proof. single @Device.getTemperature. Qed.
Lemma plain_getPowerUsage d : throwsOnlyErrors (Device.getPowerUsage H N d).
Proof. single @Device.getPowerUsage. Qed.
Lemma plain_getPowerLimit d : throwsOnlyErrors (Device.getPowerLimit H N d).
Proof. single @Device.getPowerLimit. Qed.
Lemma plain_getFanSpeed d : throwsOnlyErrors (Device.getFanSpeed H N d).
Proof. single @Device.getFanSpeed. Qed.
Lemma plain_getPerformanceState d : throwsOnlyErrors (Device.getPerformanceState H N d).
Proof. single @Device.getPerformanceState. Qed.
Lemma plain_getPciInfo d : throwsOnlyErrors (Device.getPciInfo H N d).
Proof. single @Device.getPciInfo. Qed.
Lemma plain_getPersistenceMode d : throwsOnlyErrors (Device.getPersistenceMode H N d).
Proof. single @Device.getPersistenceMode. Qed.
Lemma plain_getDisplayActive d : throwsOnlyErrors (Device.getDisplayActive H N d).
Proof. single @Device.getDisplayActive. Qed.
Lemma plain_getComputeMode d : throwsOnlyErrors (Device.getComputeMode H N d).
Proof. single @Device.getComputeMode. Qed.
Lemma plain_getMigMode d : throwsOnlyErrors (Device.getMigMode H N d).
Proof. single @Device.getMigMode. Qed.
Lemma plain_getEccErrorsCorrected d :
  throwsOnlyErrors (Device.getEccErrorsCorrected H N d).
Proof. single @Device.getEccErrorsCorrected. Qed.
End QueryExceptions.

#[export] Hint Resolve
  plain_getName plain_getUUID plain_getMemoryInfo plain_getUtilizationRates
  plain_getTemperature plain_getPowerUsage plain_getPowerLimit plain_getFanSpeed
  plain_getPerformanceState plain_getPciInfo plain_getPersistenceMode
  plain_getDisplayActive plain_getComputeMode plain_getMigMode
  plain_getEccErrorsCorrected
  : exceptions.

Section CompositeExceptions.
Context (H : Host) {D : Type} (N : Native D).

Lemma plain_getBasicInfo d : throwsOnlyErrors (Device.getBasicInfo H N d).
Proof. unfold Device.getBasicInfo. plain. Qed.

Lemma plain_getStatus d : throwsOnlyErrors (Device.getStatus H N d).
Proof. unfold Device.getStatus. plain. Qed.

Lemma plain_collectProcesses d raws :
  forall seen acc, throwsOnlyErrors (Device.collectProcesses H N d raws seen acc).
Proof.
  induction raws as [|r rest IH]; intros seen acc; simpl.
  - plain.
  - destruct (bool_decide (raw_pid r ∈ seen)); [apply IH|].
    apply plain_bind; [autounfold with bindings; plain|]. intros [ret name]. apply IH.
Qed.

Lemma plain_getProcesses d : throwsOnlyErrors (Device.getProcesses H N d).
Proof.
  unfold Device.getProcesses.
  apply plain_bind; [autounfold with bindings; plain|]. intros [cret cs].
  destruct (negb (isSuccess cret)); [plain|].
  apply plain_bind; [autounfold with bindings; plain|]. intros [gret gs].
  destruct (negb (isSuccess gret)); [plain|].
  apply plain_bind; [apply plain_collectProcesses|]. intros. plain.
Qed.
End CompositeExceptions.

(** C1, as the code has it. Every query of a [Device] instance returns a
    [Result] (it does not throw) from every world in which the native
    library is loaded or can be loaded and exports the symbols the wrapper
    binds, whatever status codes the native calls return; and in any world
    whatsoever, what such a query throws is a plain [Error] (that of the
    loader or of the symbol resolver), never an [NvmlError]. The
    driver-information and version queries of [Nvml] return a [Result] too,
    once initialised. [Nvml.getDeviceCount], [Nvml.getDevice] and
    [Nvml.getDeviceByUUID] do not return a [Result]: on a nonzero native
    status they throw an [NvmlError] that carries that status. *)
Theorem device_queries_return_results_lookups_throw :
  forall (H : Host) (D : Type) (N : Native D),
    (forall d : Device.t,
        returns H (Device.getName H N d) /\
        returns H (Device.getUUID H N d) /\
        returns H (Device.getMemoryInfo H N d) /\
        returns H (Device.getUtilizationRates H N d) /\
        returns H (Device.getTemperature H N d) /\
        returns H (Device.getPowerUsage H N d) /\
        returns H (Device.getPowerLimit H N d) /\
        returns H (Device.getFanSpeed H N d) /\
        returns H (Device.getPerformanceState H N d) /\
        returns H (Device.getPciInfo H N d) /\
        returns H (Device.getPersistenceMode H N d) /\
        returns H (Device.getDisplayActive H N d) /\
        returns H (Device.getComputeMode H N d) /\
        returns H (Device.getMigMode H N d) /\
        returns H (Device.getEccErrorsCorrected H N d) /\
        returns H (Device.getBasicInfo H N d) /\
        returns H (Device.getStatus H N d) /\
        returns H (Device.getProcesses H N d)) /\
    (forall d : Device.t,
        throwsOnlyErrors (Device.getName H N d) /\
        throwsOnlyErrors (Device.getUUID H N d) /\
        throwsOnlyErrors (Device.getMemoryInfo H N d) /\
        throwsOnlyErrors (Device.getUtilizationRates H N d) /\
        throwsOnlyErrors (Device.getTemperature H N d) /\
        throwsOnlyErrors (Device.getPowerUsage H N d) /\
        throwsOnlyErrors (Device.getPowerLimit H N d) /\
        throwsOnlyErrors (Device.getFanSpeed H N d) /\
        throwsOnlyErrors (Device.getPerformanceState H N d) /\
        throwsOnlyErrors (Device.getPciInfo H N d) /\
        throwsOnlyErrors (Device.getPersistenceMode H N d) /\
        throwsOnlyErrors (Device.getDisplayActive H N d) /\
        throwsOnlyErrors (Device.getComputeMode H N d) /\
        throwsOnlyErrors (Device.getMigMode H N d) /\
        throwsOnlyErrors (Device.getEccErrorsCorrected H N d) /\
        throwsOnlyErrors (Device.getBasicInfo H N d) /\
        throwsOnlyErrors (Device.getStatus H N d) /\
        throwsOnlyErrors (Device.getProcesses H N d)) /\
    (forall w : World D, initialized w = true -> usable H w ->
        (exists r w', Nvml.getDriverInfo H N w = (Returned r, w') /\ quiet w w') /\
        (exists r w', Nvml.getDriverVersion H N w = (Returned r, w') /\ quiet w w') /\
        (exists r w', Nvml.getNvmlVersion H N w = (Returned r, w') /\ quiet w w') /\
        (exists r w', Nvml.getCudaVersion H N w = (Returned r, w') /\ quiet w w')) /\
    (forall (w w' : World D) ret count,
        initialized w = true ->
        nvmlDeviceGetCount H N w = (Returned (ret, count), w') -> ret <> 0 ->
        Nvml.getDeviceCount H N w =
          (Thrown (ExnNvml (failureWith "Failed to get device count" ret)), w')) /\
    (forall (w w' : World D) index ret device,
        initialized w = true -> 0 <= index ->
        nvmlDeviceGetHandleByIndex H N index w = (Returned (ret, device), w') ->
        ret <> 0 ->
        Nvml.getDevice H N index w =
          (Thrown (ExnNvml (failureWith
                     ("Failed to get device at index " +:+ Js.show index) ret)), w')) /\
    (forall (w w' : World D) uuid ret device,
        initialized w = true -> Js.trim_is_empty uuid = false ->
        nvmlDeviceGetHandleByUUID H N uuid w = (Returned (ret, device), w') ->
        ret <> 0 ->
        Nvml.getDeviceByUUID H N uuid w =
          (Thrown (ExnNvml (failureWith
                     ("Failed to get device with UUID " +:+ uuid) ret)), w')).
Proof.
  intros H D N.
  split; [|split; [|split; [|split; [|split]]]].
  - intros d. repeat match goal with |- _ /\ _ => split end; auto with footprint.
  - intros d. repeat match goal with |- _ /\ _ => split end; auto with exceptions.
    + apply plain_getBasicInfo.
    + apply plain_getStatus.
    + apply plain_getProcesses.
  - intros w Hi Hu. repeat match goal with |- _ /\ _ => split end.
    + unfold Nvml.getDriverInfo. apply (returns_gated H); auto. footprint.
    + unfold Nvml.getDriverVersion. apply (returns_gated H); auto. footprint.
    + unfold Nvml.getNvmlVersion. apply (returns_gated H); auto. footprint.
    + unfold Nvml.getCudaVersion. apply (returns_gated H); auto. footprint.
  - intros w w' ret count Hi E Hret. unfold Nvml.getDeviceCount.
    rewrite (bind_returned _ _ _ _ _ (ensureInitialized_up w Hi)).
    rewrite (bind_returned _ _ _ _ _ E). cbv beta iota.
    apply isSuccess_false in Hret. rewrite Hret. cbn [negb].
    rewrite fromReturn_context by reflexivity. reflexivity.
  - intros w w' index ret device Hi Hidx E Hret. unfold Nvml.getDevice.
    rewrite (bind_returned _ _ _ _ _ (ensureInitialized_up w Hi)).
    unfold Device.getByIndex.
    destruct (Z.ltb_spec index 0) as [?|_]; [lia|].
    rewrite (bind_returned _ _ _ _ _ E). cbv beta iota.
    apply isSuccess_false in Hret. rewrite Hret. cbn [negb].
    rewrite fromReturn_context by reflexivity.
    destruct device; reflexivity.
  - intros w w' uuid ret device Hi Hu E Hret. unfold Nvml.getDeviceByUUID.
    rewrite (bind_returned _ _ _ _ _ (ensureInitialized_up w Hi)).
    unfold Device.getByUUID. rewrite Hu.
    rewrite (bind_returned _ _ _ _ _ E). cbv beta iota.
    apply isSuccess_false in Hret. rewrite Hret. cbn [negb].
    rewrite fromReturn_context by reflexivity.
    destruct device; reflexivity.
Qed.

Lemma device_queries_return_results_lookups_throw_witness :
  (exists r w',
      Device.getTemperature Mock.host Mock.native Mock.device (Mock.readyLostAfter 0)
        = (Returned r, w') /\ quiet (Mock.readyLostAfter 0) w') /\
  (exists r w',
      Nvml.getDriverInfo Mock.host Mock.native (Mock.readyLostAfter 2)
        = (Returned r, w') /\ quiet (Mock.readyLostAfter 2) w') /\
  Nvml.getDeviceCount Mock.host Mock.native (Mock.readyLostAfter 0) =
    (Thrown (ExnNvml (failureWith "Failed to get device count" 15)),
     Mock.after (nvmlDeviceGetCount Mock.host Mock.native) (Mock.readyLostAfter 0)) /\
  Nvml.getDevice Mock.host Mock.native 999 Mock.ready =
    (Thrown (ExnNvml (failureWith ("Failed to get device at index " +:+ Js.show 999) 2)),
     Mock.after (nvmlDeviceGetHandleByIndex Mock.host Mock.native 999) Mock.ready) /\
  Nvml.getDeviceByUUID Mock.host Mock.native "GPU-none" Mock.ready =
    (Thrown (ExnNvml (failureWith ("Failed to get device with UUID " +:+ "GPU-none") 6)),
     Mock.after (nvmlDeviceGetHandleByUUID Mock.host Mock.native "GPU-none") Mock.ready) /\
  (let H := Mock.hostWithout
       "int nvmlDeviceGetTemperature(nvmlDevice* device, int sensorType, _Out_ uint *temp)" in
   let ex := ExnError
       ("Cannot find function in shared library: " +:+
        "int nvmlDeviceGetTemperature(nvmlDevice* device, int sensorType, _Out_ uint *temp)") in
   fst (Device.getTemperature H Mock.native Mock.device
          (Mock.after (Nvml.init H Mock.native) Mock.fresh)) = Thrown ex /\
   plainError ex).
Proof.
  pose proof (device_queries_return_results_lookups_throw Mock.host _ Mock.native)
    as (Hdev & _ & Hsys & Hcount & Hindex & Huuid).
  assert (Hu : forall n, usable Mock.host (Mock.readyLostAfter n)).
  { intros n. split; [|intros l sig _; reflexivity].
    left. exists 0%nat. vm_compute. reflexivity. }
  split; [|split; [|split; [|split; [|split]]]].
  - destruct (Hdev Mock.device) as (_ & _ & _ & _ & Htemp & _). apply Htemp, Hu.
  - destruct (Hsys (Mock.readyLostAfter 2) eq_refl (Hu _)) as (Hinfo & _). exact Hinfo.
  - apply (Hcount _ _ 15 1); [reflexivity | | discriminate].
    apply run_outcome. vm_compute. reflexivity.
  - apply (Hindex _ _ 999 2 None); [vm_compute; reflexivity | lia | | discriminate].
    apply run_outcome. vm_compute. reflexivity.
  - apply (Huuid _ _ "GPU-none" 6 None); [vm_compute; reflexivity | reflexivity | | discriminate].
    apply run_outcome. vm_compute. reflexivity.
  - intros H ex. split; [vm_compute; reflexivity|].
    destruct (proj1 (proj2 (device_queries_return_results_lookups_throw H _ Mock.native))
                Mock.device) as (_ & _ & _ & _ & Htemp & _).
    apply (Htemp (Mock.after (Nvml.init H Mock.native) Mock.fresh) _
             (Mock.after (Device.getTemperature H Mock.native Mock.device)
                (Mock.after (Nvml.init H Mock.native) Mock.fresh))).
    apply (run_outcome (Device.getTemperature H Mock.native Mock.device)).
    vm_compute. reflexivity.
Defined.

(** C1, as stated, fails: on an initialised system whose native device
    count query returns a nonzero status (here 15, the GPU is lost),
    [Nvml.getDeviceCount] does not return a [Result]; it throws. *)
Lemma getDeviceCount_throws_on_native_failure :
  initialized (Mock.readyLostAfter 0) = true /\
  fst (nvmlDeviceGetCount Mock.host Mock.native (Mock.readyLostAfter 0))
    = Returned (15, 1) /\
  fst (Nvml.getDeviceCount Mock.host Mock.native (Mock.readyLostAfter 0))
    = Thrown (ExnNvml (mkNvmlError 15 "Failed to get device count: GPU is lost")).
Proof. repeat split; vm_compute; reflexivity. Qed.

(** *** Bindings and the library handle *)

(** C3, as the code has it. [unloadLibrary] clears the library handle and
    its path and nothing else: every binding resolved before is still held
    afterwards, and its getter returns that same callable, bound to the
    handle it was resolved against, without touching the world (no library
    is acquired and no symbol is resolved). Only a signature not resolved
    before is resolved against a newly loaded library: it is bound to the
    new handle when that library exports it, and otherwise the getter throws
    the resolver's error and holds nothing. Resolving a binding and calling
    through one never drop a held binding either. *)
Theorem bindings_survive_unload :
  forall (H : Host) (D : Type) (N : Native D) (w : World D),
    let w' := snd (unloadLibrary w) in
    unloadLibrary w = (Returned tt, w') /\
    lib w' = None /\ libraryPath w' = None /\ slots w' = slots w /\
    (forall sig f,
        slots w !! sig = Some f -> lazyBinding H sig w' = (Returned f, w')) /\
    (forall sig path,
        slots w !! sig = None -> discovered H = Some path -> koffi_load H path = Loaded ->
        exists w'',
          lib w'' = Some (loads w) /\
          match koffi_func H (loads w) sig with
          | Bound =>
              lazyBinding H sig w' = (Returned (mkNvmlFunc (loads w) sig), w'') /\
              slots w'' = <[sig := mkNvmlFunc (loads w) sig]> (slots w)
          | FuncThrows message =>
              lazyBinding H sig w' = (Thrown (ExnError message), w'') /\
              slots w'' = slots w
          end) /\
    (forall sig o w2, lazyBinding H sig w = (o, w2) -> slots w ⊆ slots w2) /\
    (forall R f (c : C.Call R) o w2, invoke N f c w = (o, w2) -> slots w2 = slots w).
Proof.
  intros H D N w w'. subst w'. cbn [unloadLibrary set_lib snd lib libraryPath slots].
  repeat match goal with |- _ /\ _ => split end; try reflexivity.
  - intros sig f Hs. apply lazyBinding_held. exact Hs.
  - intros sig path Hs Hd Hk.
    set (w' := mkWorld (initialized w) None None (slots w) (loads w) (driver w) (trace w)).
    destruct (getLibrary_loads H w' path eq_refl Hd Hk) as (evs & El & _).
    change (loads w') with (loads w) in El.
    destruct (koffi_func H (loads w) sig) as [|message] eqn:Ef.
    + eexists. split; [|split; [apply (lazyBinding_resolves H w' _ sig _ Hs El Ef)|]];
        reflexivity.
    + eexists. split; [|split; [apply (lazyBinding_missing H w' _ sig _ message Hs El Ef)|]];
        reflexivity.
  - intros sig o w2 E. apply (keeps_lazyBinding H sig _ _ _ E).
  - intros R f c o w2 E. unfold invoke in E.
    destruct (N R (bound_lib f) c (driver w)) as [r d0]. inversion E. reflexivity.
Qed.

Lemma bindings_survive_unload_witness :
  let sig := "int nvmlDeviceGetCount_v2(_Out_ uint *deviceCount)" in
  let w' := snd (unloadLibrary Mock.counted) in
  lazyBinding Mock.host sig w' = (Returned (mkNvmlFunc 0%nat sig), w') /\
  (exists w'',
      lazyBinding Mock.host "int nvmlShutdown()" w'
        = (Returned (mkNvmlFunc (loads Mock.counted) "int nvmlShutdown()"), w'') /\
      lib w'' = Some (loads Mock.counted) /\
      slots w'' = <["int nvmlShutdown()" :=
                      mkNvmlFunc (loads Mock.counted) "int nvmlShutdown()"]>
                    (slots Mock.counted)).
Proof.
  intros sig w'.
  pose proof (bindings_survive_unload Mock.host _ Mock.native Mock.counted)
    as (_ & _ & _ & _ & Hheld & Hnew & _).
  split.
  - apply Hheld. vm_compute. reflexivity.
  - destruct (Hnew "int nvmlShutdown()" "libnvidia-ml.so.1") as (w'' & Hlib & Hget & Hslots);
      [vm_compute; reflexivity | reflexivity | reflexivity |].
    exists w''. split; [exact Hget|]. split; [exact Hlib | exact Hslots].
Defined.

(** C3, as stated, fails: after [unloadLibrary] the binding of the device
    count query resolved before is still held, bound to library handle 0.
    The next device count query is made through it, with no library load and
    no symbol resolution, and that stays so once the library has been loaded
    again under handle 1. *)
Lemma unload_leaves_stale_bindings :
  let sig := "int nvmlDeviceGetCount_v2(_Out_ uint *deviceCount)" in
  lib Mock.unloaded = None /\
  slots Mock.unloaded !! sig = Some (mkNvmlFunc 0%nat sig) /\
  since Mock.unloaded (Mock.after (nvmlDeviceGetCount Mock.host Mock.native) Mock.unloaded)
    = [EvCall (mkNvmlFunc 0%nat sig)] /\
  lib (Mock.after (nvmlDeviceGetCount Mock.host Mock.native) Mock.unloaded) = None /\
  lib Mock.reloaded = Some 1%nat /\
  since Mock.reloaded (Mock.after (nvmlDeviceGetCount Mock.host Mock.native) Mock.reloaded)
    = [EvCall (mkNvmlFunc 0%nat sig)].
Proof. repeat split; vm_compute; reflexivity. Qed.

(** *** The snapshot's timestamp *)

Section Snapshot.
Context (H : Host) {D : Type} (N : Native D).

Lemma ret_inv {A} (a : A) (w : World D) o w' :
  ret_ a w = (o, w') -> o = Returned a /\ w' = w.
Proof. intros E. inversion E. auto. Qed.

(** How [getSystemSnapshot] can end: with a snapshot whose parts are what
    the four steps returned, each run from the world the one before left,
    stamped right after the process loop returned; or otherwise within the
    footprint of the queries, the clock unread. *)
Lemma getSystemSnapshot_runs (w : World D) o w' :
  Nvml.getSystemSnapshot H N w = (o, w') ->
  (exists snap w1 w2 count w3 w4,
      o = Returned (Ok snap) /\
      Nvml.getDriverInfo H N w = (Returned (Ok (SystemSnapshot.driver snap)), w1) /\
      Nvml.getAllGpuStatus H N w1 = (Returned (Ok (SystemSnapshot.gpus snap)), w2) /\
      nvmlDeviceGetCount H N w2 = (Returned (0, count), w3) /\
      Nvml.pushProcesses H N (Z.to_nat count) 0 [] w3
        = (Returned (Ok (SystemSnapshot.processes snap)), w4) /\
      quiet w w4 /\
      trace w' = (trace w4 ++ [EvNow])%list /\
      SystemSnapshot.timestamp snap = wallclock H (trace w4)) \/
  ((forall snap, o <> Returned (Ok snap)) /\ quiet w w').
Proof.
  intros E. unfold Nvml.getSystemSnapshot in E.
  destruct (bind_inv _ _ _ _ _ E) as [([] & wa & Ea & E1)|(ex & Ea & ->)]; clear E;
    [|right; split; [discriminate | apply (keeps_ensureInitialized _ _ _ Ea)]].
  assert (wa = w) as ->.
  { unfold Nvml.ensureInitialized, bind, read in Ea.
    destruct (negb (initialized w)); inversion Ea; reflexivity. }
  destruct (bind_inv _ _ _ _ _ E1) as [(rd & wb & Eb & E2)|(ex & Eb & ->)]; clear E1;
    [|right; split; [discriminate | apply (keeps_getDriverInfo H N _ _ _ Eb)]].
  pose proof (keeps_getDriverInfo H N _ _ _ Eb) as Qb.
  destruct rd as [driverInfo|error];
    [|apply ret_inv in E2 as [-> ->]; right; split; [discriminate | exact Qb]].
  destruct (bind_inv _ _ _ _ _ E2) as [(rg & wc & Ec & E3)|(ex & Ec & ->)]; clear E2;
    [|right; split; [discriminate|];
      eapply quiet_trans; [exact Qb | apply (keeps_getAllGpuStatus H N _ _ _ Ec)]].
  pose proof (quiet_trans _ _ _ Qb (keeps_getAllGpuStatus H N _ _ _ Ec)) as Qc.
  destruct rg as [gpuStatus|error];
    [|apply ret_inv in E3 as [-> ->]; right; split; [discriminate | exact Qc]].
  destruct (bind_inv _ _ _ _ _ E3) as [([ret count] & wd & Ed & E4)|(ex & Ed & ->)];
    clear E3;
    [|right; split; [discriminate|];
      eapply quiet_trans; [exact Qc | apply (keeps_nvmlDeviceGetCount H N _ _ _ Ed)]].
  pose proof (quiet_trans _ _ _ Qc (keeps_nvmlDeviceGetCount H N _ _ _ Ed)) as Qd.
  destruct (isSuccess ret) eqn:Hs; cbn [negb] in E4;
    [|apply ret_inv in E4 as [-> ->]; right; split; [discriminate | exact Qd]].
  apply isSuccess_true in Hs. subst ret.
  destruct (bind_inv _ _ _ _ _ E4) as [(rp & we & Ee & E5)|(ex & Ee & ->)]; clear E4;
    [|right; split; [discriminate|];
      eapply quiet_trans; [exact Qd | apply (keeps_pushProcesses H N _ _ _ _ _ _ Ee)]].
  pose proof (quiet_trans _ _ _ Qd (keeps_pushProcesses H N _ _ _ _ _ _ Ee)) as Qe.
  destruct rp as [allProcesses|error];
    [|apply ret_inv in E5 as [-> ->]; right; split; [discriminate | exact Qe]].
  left. cbv [bind Nvml.newDate read emit ret_ ok] in E5. inversion E5; subst.
  eexists _, wb, wc, count, wd, we.
  split; [reflexivity|]. split; [exact Eb|]. split; [exact Ec|]. split; [exact Ed|].
  split; [exact Ee|]. split; [exact Qe|]. split; reflexivity.
Qed.
End Snapshot.

(** C5, as the code has it. A snapshot is stamped exactly once, and the
    clock is read last: the driver information, the status of every GPU,
    the second device count and the process enumeration of every device
    have each succeeded, one after the other, before it is read. The parts
    of the snapshot are what these steps returned, the timestamp is the
    clock's reading for the history up to the end of the process loop, the
    reading is the final effect of the call, and no other reading happens
    during the call; when the call does not return a snapshot, the clock is
    not read at all. *)
Theorem snapshot_is_stamped_once_after_everything :
  forall (H : Host) (D : Type) (N : Native D) (w : World D),
    (forall snap w',
        Nvml.getSystemSnapshot H N w = (Returned (Ok snap), w') ->
        exists w1 w2 count w3 w4 evs,
          Nvml.getDriverInfo H N w
            = (Returned (Ok (SystemSnapshot.driver snap)), w1) /\
          Nvml.getAllGpuStatus H N w1
            = (Returned (Ok (SystemSnapshot.gpus snap)), w2) /\
          nvmlDeviceGetCount H N w2 = (Returned (0, count), w3) /\
          Nvml.pushProcesses H N (Z.to_nat count) 0 [] w3
            = (Returned (Ok (SystemSnapshot.processes snap)), w4) /\
          trace w4 = (trace w ++ evs)%list /\ ~ In EvNow evs /\
          trace w' = (trace w4 ++ [EvNow])%list /\
          SystemSnapshot.timestamp snap = wallclock H (trace w4)) /\
    (forall o w',
        Nvml.getSystemSnapshot H N w = (o, w') ->
        (forall snap, o <> Returned (Ok snap)) ->
        exists evs, trace w' = (trace w ++ evs)%list /\ ~ In EvNow evs).
Proof.
  intros H D N w. split.
  - intros snap w' E.
    destruct (getSystemSnapshot_runs H N w _ _ E)
      as [(snap' & w1 & w2 & count & w3 & w4 & Ho & Ed & Eg & Ec & Ep & Q & Et & Es)
         |[Hno _]].
    + inversion Ho; subst snap'. destruct Q as (_ & _ & _ & evs & Htr & Hn).
      exists w1, w2, count, w3, w4, evs. auto 10.
    + exfalso. apply (Hno snap). reflexivity.
  - intros o w' E Hno.
    destruct (getSystemSnapshot_runs H N w _ _ E)
      as [(snap' & _ & _ & _ & _ & _ & Ho & _)|[_ Q]].
    + exfalso. apply (Hno snap'). exact Ho.
    + destruct Q as (_ & _ & _ & evs & Htr & Hn). exists evs. auto.
Qed.

Lemma snapshot_is_stamped_once_after_everything_witness :
  (exists snap w1 w2 count w3 w4 evs,
      fst (Nvml.getSystemSnapshot Mock.host Mock.native Mock.ready) = Returned (Ok snap) /\
      Nvml.getDriverInfo Mock.host Mock.native Mock.ready
        = (Returned (Ok (SystemSnapshot.driver snap)), w1) /\
      Nvml.getAllGpuStatus Mock.host Mock.native w1
        = (Returned (Ok (SystemSnapshot.gpus snap)), w2) /\
      nvmlDeviceGetCount Mock.host Mock.native w2 = (Returned (0, count), w3) /\
      Nvml.pushProcesses Mock.host Mock.native (Z.to_nat count) 0 [] w3
        = (Returned (Ok (SystemSnapshot.processes snap)), w4) /\
      trace w4 = (trace Mock.ready ++ evs)%list /\ ~ In EvNow evs /\
      trace (Mock.after (Nvml.getSystemSnapshot Mock.host Mock.native) Mock.ready)
        = (trace w4 ++ [EvNow])%list /\
      SystemSnapshot.timestamp snap = wallclock Mock.host (trace w4)) /\
  (exists evs,
      trace (Mock.after (Nvml.getSystemSnapshot Mock.host Mock.native)
                        (Mock.readyLostAfter 20))
        = (trace (Mock.readyLostAfter 20) ++ evs)%list /\ ~ In EvNow evs).
Proof.
  split.
  - destruct (Nvml.getSystemSnapshot Mock.host Mock.native Mock.ready) as [o w'] eqn:E.
    assert (Ho : exists snap, o = Returned (Ok snap)).
    { replace o with (fst (Nvml.getSystemSnapshot Mock.host Mock.native Mock.ready))
        by (rewrite E; reflexivity).
      vm_compute. eexists. reflexivity. }
    destruct Ho as [snap ->].
    destruct (proj1 (snapshot_is_stamped_once_after_everything
                       Mock.host _ Mock.native Mock.ready) snap w' E)
      as (w1 & w2 & count & w3 & w4 & evs & Hrest).
    exists snap, w1, w2, count, w3, w4, evs. unfold Mock.after. rewrite E. simpl.
    split; [reflexivity | exact Hrest].
  - eapply (proj2 (snapshot_is_stamped_once_after_everything
                     Mock.host _ Mock.native (Mock.readyLostAfter 20))).
    + apply run_outcome. reflexivity.
    + intros snap. vm_compute. discriminate.
Defined.

(** C5, as stated, fails: on the simulated machine the clock is read
    after, not before, the process enumeration. The reading is the last
    effect of [getSystemSnapshot]; the native calls that enumerate compute
    and graphics processes and look process names up all precede it. *)
Lemma snapshot_stamped_after_process_enumeration :
  let effects :=
    since Mock.ready (Mock.after (Nvml.getSystemSnapshot Mock.host Mock.native) Mock.ready) in
  exists before,
    effects = (before ++ [EvNow])%list /\
    (EvNow ∉ before) /\
    (EvCall (mkNvmlFunc 0%nat
       "int nvmlDeviceGetComputeRunningProcesses_v3(nvmlDevice* device, _Inout_ uint *infoCount, _Out_ nvmlProcessInfo_v2_t *infos)")
       ∈ before) /\
    (EvCall (mkNvmlFunc 0%nat
       "int nvmlDeviceGetGraphicsRunningProcesses_v3(nvmlDevice* device, _Inout_ uint *infoCount, _Out_ nvmlProcessInfo_v2_t *infos)")
       ∈ before) /\
    (EvCall (mkNvmlFunc 0%nat
       "int nvmlSystemGetProcessName(uint pid, _Out_ str *name, uint length)")
       ∈ before).
Proof.
  intros effects. exists (removelast effects).
  split; [vm_compute; reflexivity|].
  repeat split; apply (bool_decide_unpack _); vm_compute; exact I.
Qed.

(* ===================================================================== *)
(** ** Further properties of the code                                     *)
(* ===================================================================== *)

(** *** Error texts *)

Lemma messages_nonempty (ret : Z) (text : string) :
  messages !! ret = Some text -> text <> "".
Proof.
  unfold messages. intros Hl. apply elem_of_list_to_map_2 in Hl.
  repeat (apply elem_of_cons in Hl as [Hl|Hl]; [inversion Hl; discriminate|]).
  inversion Hl.
Qed.

Lemma append_nonempty (a b : string) : a <> "" -> a +:+ b <> "".
Proof. destruct a; [congruence | discriminate]. Qed.

Lemma nvmlErrorString_nonempty (ret : Z) : nvmlErrorString ret <> "".
Proof.
  unfold nvmlErrorString. destruct (messages !! ret) as [text|] eqn:E; simpl.
  - eapply messages_nonempty, E.
  - discriminate.
Qed.

(** X1. [nvmlErrorString] answers every integer with a non-empty text: the
    table's text for the 31 declared codes (0 to 29 and 999), and "Unknown
    error code: " followed by the number for every other one. *)
Theorem nvmlErrorString_total :
  forall ret : Z,
    nvmlErrorString ret <> "" /\
    (0 <= ret <= 29 \/ ret = 999 -> messages !! ret = Some (nvmlErrorString ret)) /\
    (~ (0 <= ret <= 29 \/ ret = 999) ->
     nvmlErrorString ret = "Unknown error code: " +:+ Js.show ret).
Proof.
  intros ret. split; [|split].
  - apply nvmlErrorString_nonempty.
  - intros Hin.
    assert (Hs : is_Some (messages !! ret)).
    { assert (Hc : exists n : nat, (n <= 29)%nat /\ (ret = Z.of_nat n \/ ret = 999)).
      { destruct Hin as [Hr| ->]; [exists (Z.to_nat ret); lia | exists 0%nat; lia]. }
      destruct Hc as (n & Hn & [-> | ->]); [|vm_compute; eauto].
      do 30 (destruct n as [|n]; [vm_compute; eauto|]). lia. }
    destruct Hs as [text E]. unfold nvmlErrorString. rewrite E. reflexivity.
  - intros Hout. unfold nvmlErrorString.
    assert (E : messages !! ret = None).
    { unfold messages. apply not_elem_of_list_to_map. intros Hin. vm_compute in Hin.
      repeat (apply elem_of_cons in Hin as [Hin|Hin]; [lia|]). inversion Hin. }
    rewrite E. reflexivity.
Qed.

Lemma nvmlErrorString_total_witness :
  messages !! 15 = Some (nvmlErrorString 15) /\
  nvmlErrorString (-7) = "Unknown error code: " +:+ Js.show (-7).
Proof.
  split.
  - apply (nvmlErrorString_total 15). lia.
  - apply (nvmlErrorString_total (-7)). lia.
Defined.

(** X2. An [NvmlError] made by [NvmlError.fromReturn] carries the status
    code it was made from and a message that is never empty: the text of
    the code alone when the context is absent or the empty string, and
    otherwise the context, a colon and a space, and the text of the code. *)
Theorem fromReturn_code_and_message :
  forall (ret : Z) (context : option string),
    code (fromReturn ret context) = ret /\
    message (fromReturn ret context) <> "" /\
    (context = None \/ context = Some "" ->
     message (fromReturn ret context) = nvmlErrorString ret) /\
    (forall c, context = Some c -> c <> "" ->
     message (fromReturn ret context) = c +:+ ": " +:+ nvmlErrorString ret).
Proof.
  intros ret context. pose proof (nvmlErrorString_nonempty ret) as Hne.
  unfold fromReturn, new_NvmlError. cbn [code message default].
  split; [reflexivity|]. split; [|split].
  - destruct context as [c|]; [|exact Hne].
    destruct (String.eqb_spec c ""); [exact Hne | apply append_nonempty; assumption].
  - intros [-> | ->]; reflexivity.
  - intros c -> Hc. destruct (String.eqb_spec c ""); [contradiction | reflexivity].
Qed.

Lemma fromReturn_code_and_message_witness :
  message (fromReturn 6 (Some "")) = nvmlErrorString 6 /\
  message (fromReturn 6 (Some "Device not found"))
    = "Device not found" +:+ ": " +:+ nvmlErrorString 6.
Proof.
  split.
  - apply (fromReturn_code_and_message 6 (Some "")). right. reflexivity.
  - apply (fromReturn_code_and_message 6 (Some "Device not found") ).
    + reflexivity.
    + discriminate.
Defined.

(** X3. Force-unwrapping a query: [unwrap] applied to what a query returned
    gives the value of a success, and throws the very [NvmlError] of a
    failure (the query's world is kept), while [unwrapOr] gives the value
    or the default; so unwrapping a single-field query whose native call
    returned a nonzero status throws an error with that status and the
    query's context. *)
Theorem unwrap_raises_the_failure :
  forall (D T A : Type) (q : M D (Result T)) (w w' : World D) (r : Result T)
         (fallback : T),
    q w = (Returned r, w') ->
    (forall v, r = Ok v ->
       (let* x := q in unwrap x) w = (Returned v, w') /\ unwrapOr r fallback = v) /\
    (forall e, r = Err e ->
       (let* x := q in unwrap x) w = (Thrown (ExnNvml e), w') /\
       unwrapOr r fallback = fallback) /\
    (forall (binding : M D A) status context a,
       strictQuery binding status q context ->
       binding w = (Returned a, w') -> status a <> 0 ->
       (let* x := q in unwrap x) w
         = (Thrown (ExnNvml (failureWith context (status a))), w')).
Proof.
  intros D T A q w w' r fallback E. split; [|split].
  - intros v ->. rewrite (bind_returned _ _ _ _ _ E). auto.
  - intros e ->. rewrite (bind_returned _ _ _ _ _ E). auto.
  - intros binding status context a Hs Eb Hne.
    destruct (Hs _ _ _ Eb) as [_ Hfail].
    rewrite (bind_returned _ _ _ _ _ (Hfail Hne)). reflexivity.
Qed.

Lemma unwrap_raises_the_failure_witness :
  (let* x := Device.getTemperature Mock.host Mock.native Mock.device in unwrap x)
    (Mock.readyLostAfter 0)
  = (Thrown (ExnNvml (failureWith "Failed to get temperature" 15)),
     Mock.after (Device.getTemperature Mock.host Mock.native Mock.device)
                (Mock.readyLostAfter 0)).
Proof.
  refine (proj1 (proj1 (proj2 (unwrap_raises_the_failure _ _ unit _ _ _ _ 0 _)) _ eq_refl)).
  apply run_outcome. vm_compute. reflexivity.
Defined.

(** *** Text read back from native buffers *)

Lemma remove_nuls_clean (s : string) : Js.includes (Js.remove_nuls s) Ascii.zero = false.
Proof.
  induction s as [|a s IH]; simpl; [reflexivity|].
  destruct (Ascii.eqb a Ascii.zero) eqn:E; [exact IH|].
  simpl. rewrite E. exact IH.
Qed.

Lemma remove_nuls_length (s : string) :
  (String.length (Js.remove_nuls s) <= String.length s)%nat.
Proof.
  induction s as [|a s IH]; simpl; [lia|].
  destruct (Ascii.eqb a Ascii.zero); simpl; lia.
Qed.

Lemma remove_nuls_app (a b : string) :
  Js.remove_nuls (a +:+ b) = Js.remove_nuls a +:+ Js.remove_nuls b.
Proof.
  induction a as [|c a IH]; simpl; [reflexivity|].
  destruct (Ascii.eqb c Ascii.zero); simpl; rewrite IH; reflexivity.
Qed.

Lemma buffer_length (size : nat) :
  forall written, String.length (Js.buffer size written) = size.
Proof.
  induction size as [|k IH]; intros written; simpl; [reflexivity|].
  destruct written; simpl; rewrite IH; reflexivity.
Qed.

Lemma remove_nuls_padding (k : nat) : Js.remove_nuls (Js.buffer k "") = "".
Proof. induction k as [|k IH]; simpl; [reflexivity | exact IH]. Qed.

Lemma decode_fitting (size : nat) :
  forall text,
    Js.includes text Ascii.zero = false -> (String.length text <= size)%nat ->
    Js.remove_nuls (Js.buffer size text) = text.
Proof.
  induction size as [|k IH]; intros text Hclean Hlen.
  - destruct text; [reflexivity | simpl in Hlen; lia].
  - destruct text as [|a text]; simpl.
    + apply remove_nuls_padding.
    + simpl in Hclean, Hlen. destruct (Ascii.eqb a Ascii.zero); [discriminate|].
      rewrite IH; [reflexivity | exact Hclean | lia].
Qed.

(** The buffer holds the first [size] characters written, then NULs. *)
Lemma remove_nuls_buffer (size : nat) :
  forall written,
    Js.remove_nuls (Js.buffer size written)
      = Js.remove_nuls (String.substring 0 size written).
Proof.
  induction size as [|k IH]; intros written.
  - destruct written; reflexivity.
  - destruct written as [|a written]; simpl.
    + apply remove_nuls_padding.
    + rewrite IH. reflexivity.
Qed.

Lemma substring_length (size : nat) :
  forall s, (String.length (String.substring 0 size s) <= size)%nat.
Proof.
  induction size as [|k IH]; intros s.
  - destruct s; simpl; lia.
  - destruct s as [|a s]; simpl; [lia|]. specialize (IH s). lia.
Qed.

Lemma substring_fitting (size : nat) :
  forall s, (String.length s <= size)%nat -> String.substring 0 size s = s.
Proof.
  induction size as [|k IH]; intros s Hlen.
  - destruct s; [reflexivity | simpl in Hlen; lia].
  - destruct s as [|a s]; simpl; [reflexivity|].
    rewrite IH by (simpl in Hlen; lia). reflexivity.
Qed.

Lemma remove_nuls_id (s : string) :
  Js.includes s Ascii.zero = false -> Js.remove_nuls s = s.
Proof.
  induction s as [|a s IH]; simpl; [reflexivity|].
  destruct (Ascii.eqb a Ascii.zero); [discriminate|]. intros Hc. rewrite IH; auto.
Qed.

Section TextBindings.
Context (H : Host) {D : Type} (N : Native D).

(** What a binding that decodes a text buffer of [size] bytes returns, by
    what its native call wrote: the status as it is, and the first [size]
    characters written with every NUL dropped. *)
Lemma decoded_text (getter : M D NvmlFunc) (call : NvmlFunc -> M D (Z * string))
    (size : nat) (w w1 w2 : World D) f ret written :
  getter w = (Returned f, w1) ->
  call f w1 = (Returned (ret, written), w2) ->
  (let* f := getter in
   let* (ret, written) := call f in
   ret_ (ret, Js.remove_nuls (Js.buffer size written))) w
    = (Returned (ret, Js.remove_nuls (String.substring 0 size written)), w2).
Proof.
  intros Eg Ec. rewrite (bind_returned _ _ _ _ _ Eg), (bind_returned _ _ _ _ _ Ec).
  cbv beta iota. rewrite remove_nuls_buffer. reflexivity.
Qed.
End TextBindings.



Lemma before_first_nul_clean (s : string) :
  Js.includes (Js.before_first_nul s) Ascii.zero = false.
Proof.
  induction s as [|a s IH]; simpl; [reflexivity|].
  destruct (Ascii.eqb a Ascii.zero) eqn:E; [reflexivity|].
  simpl. rewrite E. exact IH.
Qed.

Lemma before_first_nul_length (s : string) :
  (String.length (Js.before_first_nul s) <= String.length s)%nat.
Proof.
  induction s as [|a s IH]; simpl; [lia|].
  destruct (Ascii.eqb a Ascii.zero); simpl; lia.
Qed.

Lemma before_first_nul_padding (k : nat) : Js.before_first_nul (Js.buffer k "") = "".
Proof. destruct k; reflexivity. Qed.

Lemma before_first_nul_buffer (size : nat) :
  forall written,
    Js.before_first_nul (Js.buffer size written)
      = Js.before_first_nul (String.substring 0 size written).
Proof.
  induction size as [|k IH]; intros written.
  - destruct written; reflexivity.
  - destruct written as [|a written]; simpl.
    + reflexivity.
    + rewrite IH. reflexivity.
Qed.

Lemma before_first_nul_field (path rest : string) :
  Js.includes path Ascii.zero = false ->
  Js.before_first_nul (path +:+ String Ascii.zero rest) = path /\
  Js.before_first_nul path = path.
Proof.
  induction path as [|a path IH]; simpl; intros Hclean.
  - split; reflexivity.
  - destruct (Ascii.eqb a Ascii.zero); [discriminate|].
    destruct (IH Hclean) as [E1 E2]. rewrite E1, E2. split; reflexivity.
Qed.

Section NameBinding.
Context (H : Host) {D : Type} (N : Native D).

(** What a binding that keeps the first field of a text buffer of [size]
    bytes returns, by what its native call wrote. *)
Lemma first_field_text (getter : M D NvmlFunc) (call : NvmlFunc -> M D (Z * string))
    (size : nat) (w w1 w2 : World D) f ret written :
  getter w = (Returned f, w1) ->
  call f w1 = (Returned (ret, written), w2) ->
  (let* f := getter in
   let* (ret, written) := call f in
   ret_ (ret, Js.before_first_nul (Js.buffer size written))) w
    = (Returned (ret, Js.before_first_nul (String.substring 0 size written)), w2).
Proof.
  intros Eg Ec. rewrite (bind_returned _ _ _ _ _ Eg), (bind_returned _ _ _ _ _ Ec).
  cbv beta iota. rewrite before_first_nul_buffer. reflexivity.
Qed.
End NameBinding.



(** *** Process enumeration *)

Lemma filter_padding (k n : nat) :
  List.filter (fun info => (0 <? raw_pid info)%Z) (take k (infoArray n [])) = [].
Proof.
  revert k. induction n as [|n IH]; intros k; simpl.
  - destruct k; reflexivity.
  - destruct k; simpl; [reflexivity | apply IH].
Qed.

(** The zeroed cells the native side left untouched never show up. *)
Lemma validProcesses_of_array (n : nat) :
  forall (k : nat) (written : list RawProcessInfo),
    (k <= n)%nat ->
    List.filter (fun info => (0 <? raw_pid info)%Z) (take k (infoArray n written)) =
    List.filter (fun info => (0 <? raw_pid info)%Z) (take k written).
Proof.
  induction n as [|n IH]; intros k written Hk.
  - assert (k = 0)%nat as -> by lia. destruct written; reflexivity.
  - destruct k as [|k]; [destruct written; reflexivity|].
    destruct written as [|info rest]; simpl.
    + apply filter_padding.
    + rewrite IH by lia. reflexivity.
Qed.

Lemma validProcesses_spec (count : Z) (written : list RawProcessInfo) :
  let ps := validProcesses count (infoArray (Z.to_nat MAX_PROCESSES) written) in
  ps = List.filter (fun info => (0 <? raw_pid info)%Z)
                   (take (Z.to_nat (Z.min count MAX_PROCESSES)) written) /\
  List.Forall (fun info => 0 < raw_pid info) ps /\
  (List.length ps <= 128)%nat /\
  (Z.of_nat (List.length ps) <= Z.max count 0).
Proof.
  intros ps. subst ps. unfold validProcesses.
  rewrite validProcesses_of_array by (unfold MAX_PROCESSES; lia).
  split; [reflexivity|].
  set (k := Z.to_nat (Z.min count MAX_PROCESSES)).
  assert (Hlen : (List.length
            (List.filter (fun info => (0 <? raw_pid info)%Z) (take k written)) <= k)%nat).
  { etransitivity; [apply List.filter_length_le|]. rewrite length_take. lia. }
  split; [|split].
  - apply List.Forall_forall. intros info Hin. apply List.filter_In in Hin as [_ Hpos].
    apply Z.ltb_lt, Hpos.
  - subst k. unfold MAX_PROCESSES in *. lia.
  - subst k. unfold MAX_PROCESSES in *. lia.
Qed.

Section ProcessBindings.
Context (H : Host) {D : Type} (N : Native D).

(** What a process binding returns, whatever the native call was. *)
Lemma enumerated (getter : M D NvmlFunc)
    (call : NvmlFunc -> M D (Z * Z * list RawProcessInfo)) (w w' : World D) ret ps :
  (let* f := getter in
   let* (ret, count, written) := call f in
   ret_ (ret, validProcesses count (infoArray (Z.to_nat MAX_PROCESSES) written))) w
    = (Returned (ret, ps), w') ->
  exists count written,
    ps = List.filter (fun info => (0 <? raw_pid info)%Z)
                     (take (Z.to_nat (Z.min count MAX_PROCESSES)) written) /\
    List.Forall (fun info => 0 < raw_pid info) ps /\
    (List.length ps <= 128)%nat /\
    (Z.of_nat (List.length ps) <= Z.max count 0).
Proof.
  intros E.
  destruct (bind_inv _ _ _ _ _ E) as [(f & w1 & _ & E1)|(ex & _ & Hx)]; [|discriminate].
  destruct (bind_inv _ _ _ _ _ E1) as [([[r count] written] & w2 & _ & E2)|(ex & _ & Hx)];
    [|discriminate].
  inversion E2; subst. exists count, written. apply validProcesses_spec.
Qed.

(** What a process binding returns, by what its native call reported:
    the status as it is, and the entries with a positive process id among
    the first [min(count, 128)] cells written, in the order written. *)
Lemma enumerated_from (getter : M D NvmlFunc)
    (call : NvmlFunc -> M D (Z * Z * list RawProcessInfo))
    (w w1 w2 : World D) f ret count written :
  getter w = (Returned f, w1) ->
  call f w1 = (Returned (ret, count, written), w2) ->
  let kept := List.filter (fun info => (0 <? raw_pid info)%Z)
                          (take (Z.to_nat (Z.min count 128)) written) in
  (let* f := getter in
   let* (ret, count, written) := call f in
   ret_ (ret, validProcesses count (infoArray (Z.to_nat MAX_PROCESSES) written))) w
    = (Returned (ret, kept), w2) /\
  List.Forall (fun info => 0 < raw_pid info) kept /\
  (List.length kept <= 128)%nat /\
  (Z.of_nat (List.length kept) <= Z.max count 0).
Proof.
  intros Eg Ec kept.
  destruct (validProcesses_spec count written) as (Eps & Hpos & Hlen & Hcount).
  change MAX_PROCESSES with 128 in Eps at 2.
  rewrite (bind_returned _ _ _ _ _ Eg), (bind_returned _ _ _ _ _ Ec). cbv beta iota.
  subst kept. rewrite <- Eps. auto.
Qed.
End ProcessBindings.

(** X6. The two process bindings hand over the status of their native
    call as it is and, of the cells the native call wrote, the entries with
    a positive process id among the first [min(count, 128)], in the order
    written, [count] being the count the native call reported: an entry with
    process id 0 is skipped without an error, the zeroed cells of the
    pre-allocated array never show up, and there are at most 128 entries and
    no more than the count reported. *)
Theorem process_bindings_keep_valid_entries :
  forall (H : Host) (D : Type) (N : Native D) (w w1 w2 : World D)
         (device : KoffiNvmlDevice) (f : NvmlFunc) (ret count : Z)
         (written : list RawProcessInfo),
    let kept := List.filter (fun info => (0 <? raw_pid info)%Z)
                            (take (Z.to_nat (Z.min count 128)) written) in
    (getDeviceGetComputeRunningProcesses H w = (Returned f, w1) ->
     invoke N f (C.nvmlDeviceGetComputeRunningProcesses_v3 device MAX_PROCESSES) w1
       = (Returned (ret, count, written), w2) ->
     nvmlDeviceGetComputeRunningProcesses H N device w = (Returned (ret, kept), w2)) /\
    (getDeviceGetGraphicsRunningProcesses H w = (Returned f, w1) ->
     invoke N f (C.nvmlDeviceGetGraphicsRunningProcesses_v3 device MAX_PROCESSES) w1
       = (Returned (ret, count, written), w2) ->
     nvmlDeviceGetGraphicsRunningProcesses H N device w = (Returned (ret, kept), w2)) /\
    List.Forall (fun info => 0 < raw_pid info) kept /\
    (List.length kept <= 128)%nat /\
    (Z.of_nat (List.length kept) <= Z.max count 0) /\
    (forall info, List.In info kept <->
       0 < raw_pid info /\
       List.In info (take (Z.to_nat (Z.min count 128)) written)).
Proof.
  intros H D N w w1 w2 device f ret count written kept.
  split; [|split].
  - intros Eg Ec.
    exact (proj1 (enumerated_from (getDeviceGetComputeRunningProcesses H)
                    (fun g => invoke N g
                       (C.nvmlDeviceGetComputeRunningProcesses_v3 device MAX_PROCESSES))
                    _ _ _ _ _ _ _ Eg Ec)).
  - intros Eg Ec.
    exact (proj1 (enumerated_from (getDeviceGetGraphicsRunningProcesses H)
                    (fun g => invoke N g
                       (C.nvmlDeviceGetGraphicsRunningProcesses_v3 device MAX_PROCESSES))
                    _ _ _ _ _ _ _ Eg Ec)).
  - destruct (validProcesses_spec count written) as (Eps & Hpos & Hlen & Hcount).
    change MAX_PROCESSES with 128 in Eps at 2. fold kept in Eps.
    rewrite Eps in Hpos, Hlen, Hcount.
    split; [exact Hpos|]. split; [exact Hlen|]. split; [exact Hcount|].
    intros info. subst kept. rewrite List.filter_In, Z.ltb_lt. tauto.
Qed.

Lemma process_bindings_keep_valid_entries_witness :
  let f := mkNvmlFunc 0%nat
    "int nvmlDeviceGetComputeRunningProcesses_v3(nvmlDevice* device, _Inout_ uint *infoCount, _Out_ nvmlProcessInfo_v2_t *infos)" in
  let w1 := Mock.after (getDeviceGetComputeRunningProcesses Mock.host) Mock.ready in
  let call := C.nvmlDeviceGetComputeRunningProcesses_v3 Mock.mockDeviceHandle
                MAX_PROCESSES in
  let written := [ mkRawProcessInfo 1234 (512 * 1024 * 1024) 0 0;
                   mkRawProcessInfo 5678 (1024 * 1024 * 1024) 0 0 ] in
  nvmlDeviceGetComputeRunningProcesses Mock.host Mock.native Mock.mockDeviceHandle
    Mock.ready
  = (Returned (0, List.filter (fun info => (0 <? raw_pid info)%Z)
                              (take (Z.to_nat (Z.min 2 128)) written)),
     Mock.after (invoke Mock.native f call) w1).
Proof.
  intros f w1 call written.
  apply (proj1 (process_bindings_keep_valid_entries Mock.host _ Mock.native Mock.ready w1
                  (Mock.after (invoke Mock.native f call) w1)
                  Mock.mockDeviceHandle f 0 2 written)).
  - apply (run_outcome (getDeviceGetComputeRunningProcesses Mock.host)).
    vm_compute. reflexivity.
  - apply (run_outcome (invoke Mock.native f call)). vm_compute. reflexivity.
Defined.

(** *** Library discovery and loading *)

Lemma since_app {D} (w w' : World D) evs :
  trace w' = (trace w ++ evs)%list -> since w w' = evs.
Proof. intros E. unfold since. rewrite E. apply drop_app_length. Qed.

Lemma tryDefaultPaths_default (H : Host) :
  tryDefaultPaths H DEFAULT_LIBRARY_PATHS = Some "libnvidia-ml.so.1".
Proof. reflexivity. Qed.

(** X7. [findLibraryPath] never answers [null]: it answers the override of
    the environment variable when that is set, non-empty and exists on disk,
    and the bare name "libnvidia-ml.so.1" (left to the dynamic linker) in
    every other case, whatever exists on disk. It warns exactly when the
    override is set and non-empty but does not exist, and has no other
    effect. The path it answers is one of [getSearchPaths]. *)
Theorem findLibraryPath_always_answers :
  forall (H : Host) (D : Type) (w : World D),
    exists path w',
      findLibraryPath H w = (Returned (Some path), w') /\
      (forall p, env_NVML_LIBRARY_PATH H = Some p -> p <> "" ->
                 existsSync H p = true -> path = p /\ since w w' = []) /\
      (forall p, env_NVML_LIBRARY_PATH H = Some p -> p <> "" ->
                 existsSync H p = false ->
                 path = "libnvidia-ml.so.1" /\
                 since w w' = [EvWarn ("NVML_LIBRARY_PATH set to '" +:+ p +:+
                                       "' but file not found, searching default paths")]) /\
      (env_NVML_LIBRARY_PATH H = None \/ env_NVML_LIBRARY_PATH H = Some "" ->
       path = "libnvidia-ml.so.1" /\ since w w' = []) /\
      List.In path (getSearchPaths H).
Proof.
  intros H D w. unfold findLibraryPath, getSearchPaths.
  rewrite tryDefaultPaths_default.
  assert (Hnil : forall w0 : World D, since w0 w0 = []).
  { intros w0. apply since_app. symmetry. apply app_nil_r. }
  assert (Hdef : List.In "libnvidia-ml.so.1" DEFAULT_LIBRARY_PATHS) by (left; reflexivity).
  destruct (env_NVML_LIBRARY_PATH H) as [envPath|].
  - unfold truthy. destruct (String.eqb_spec envPath "") as [->|Hne]; cbn [negb].
    + exists "libnvidia-ml.so.1", w. repeat split; try congruence; auto.
    + destruct (existsSync H envPath) eqn:Ex.
      * exists envPath, w. split; [reflexivity|]. split; [|split; [|split]].
        -- intros p [= <-] _ _. auto.
        -- intros p [= <-] _ Hp. congruence.
        -- intros [?|[= ->]]; congruence.
        -- left. reflexivity.
      * eexists "libnvidia-ml.so.1", _. split; [reflexivity|]. split; [|split; [|split]].
        -- intros p [= <-] _ Hp. congruence.
        -- intros p [= <-] _ _. split; [reflexivity|]. apply since_app. reflexivity.
        -- intros [?|[= ->]]; congruence.
        -- right. exact Hdef.
  - exists "libnvidia-ml.so.1", w. repeat split; try congruence; auto.
Qed.

Lemma findLibraryPath_always_answers_witness :
  let H := mkHost (Some "/opt/nvml/libnvidia-ml.so.1")
                  (fun p => String.eqb p "/usr/lib64/libnvidia-ml.so.1")
                  (fun _ => Loaded) (fun _ _ => Bound) (fun _ => 0) in
  exists path w',
    findLibraryPath H Mock.fresh = (Returned (Some path), w') /\
    path = "libnvidia-ml.so.1" /\
    since Mock.fresh w' =
      [EvWarn ("NVML_LIBRARY_PATH set to '" +:+ "/opt/nvml/libnvidia-ml.so.1" +:+
               "' but file not found, searching default paths")].
Proof.
  intros H.
  destruct (findLibraryPath_always_answers H _ Mock.fresh)
    as (path & w' & E & _ & Hmissing & _).
  exists path, w'. split; [exact E|].
  apply (Hmissing "/opt/nvml/libnvidia-ml.so.1"); [reflexivity | discriminate | reflexivity].
Defined.

Section LibraryManager.
Context (H : Host) {D : Type}.

Lemma discovered_some : exists path, discovered H = Some path.
Proof.
  unfold discovered. rewrite tryDefaultPaths_default.
  destruct (env_NVML_LIBRARY_PATH H) as [p|]; [|eauto].
  destruct (truthy p && existsSync H p); eauto.
Qed.

(** [findLibraryPath] records at most one warning and nothing else. *)
Lemma findLibraryPath_events (w : World D) :
  exists evs,
    findLibraryPath H w =
      (Returned (discovered H),
       mkWorld (initialized w) (lib w) (libraryPath w) (slots w) (loads w)
               (driver w) (trace w ++ evs)%list) /\
    (evs = [] \/ exists msg, evs = [EvWarn msg]).
Proof.
  assert (Hnil : forall w0 : World D,
    w0 = mkWorld (initialized w0) (lib w0) (libraryPath w0) (slots w0) (loads w0)
                 (driver w0) (trace w0 ++ [])%list).
  { intros [? ? ? ? ? ? ?]; simpl. rewrite app_nil_r. reflexivity. }
  unfold findLibraryPath, discovered.
  destruct (env_NVML_LIBRARY_PATH H) as [envPath|].
  - destruct (truthy envPath); simpl.
    + destruct (existsSync H envPath); simpl.
      * exists []. split; [unfold ret_; f_equal; apply Hnil | auto].
      * eexists [_]. split; [reflexivity | eauto].
    + exists []. split; [unfold ret_; f_equal; apply Hnil | auto].
  - exists []. split; [unfold ret_; f_equal; apply Hnil | auto].
Qed.

(** How [getLibrary] ends on a world without a library. *)
Lemma getLibrary_unloaded (w : World D) :
  lib w = None ->
  exists path evs,
    discovered H = Some path /\ (evs = [] \/ exists msg, evs = [EvWarn msg]) /\
    getLibrary H w =
      match koffi_load H path with
      | Loaded =>
          (Returned (loads w),
           mkWorld (initialized w) (Some (loads w)) (Some path) (slots w) (S (loads w))
                   (driver w) (trace w ++ evs ++ [EvLoad path (loads w)])%list)
      | LoadThrowsError reason =>
          (Thrown (ExnError ("Failed to load NVML library from '" +:+ path +:+
                             "': " +:+ reason)),
           mkWorld (initialized w) None (libraryPath w) (slots w) (loads w)
                   (driver w) (trace w ++ evs)%list)
      | LoadThrowsOther =>
          (Thrown (ExnError ("Failed to load NVML library from '" +:+ path +:+
                             "': " +:+ "Unknown error loading library")),
           mkWorld (initialized w) None (libraryPath w) (slots w) (loads w)
                   (driver w) (trace w ++ evs)%list)
      end.
Proof.
  intros El. destruct discovered_some as [path Ed].
  destruct (findLibraryPath_events w) as (evs & E1 & Hev).
  exists path, evs. split; [exact Ed|]. split; [exact Hev|].
  unfold getLibrary. unfold bind at 1. unfold read. rewrite El.
  unfold bind at 1. rewrite E1, Ed.
  destruct (koffi_load H path).
  - cbv [bind fresh_handle emit set_lib ret_]. simpl. rewrite <- app_assoc. reflexivity.
  - unfold throw. rewrite El. reflexivity.
  - unfold throw. rewrite El. reflexivity.
Qed.

(** The outcome of [getLibrary] on a world without a library depends on
    the host alone. *)
Lemma getLibrary_unloaded_outcome (w w0 : World D) :
  lib w = None -> lib w0 = None ->
  match fst (getLibrary H w) with
  | Thrown ex => fst (getLibrary H w0) = Thrown ex
  | Returned _ => True
  end.
Proof.
  intros El El0.
  destruct (getLibrary_unloaded w El) as (path & evs & Ed & _ & E).
  destruct (getLibrary_unloaded w0 El0) as (path0 & evs0 & Ed0 & _ & E0).
  assert (path0 = path) as -> by congruence.
  rewrite E, E0. destruct (koffi_load H path); simpl; auto.
Qed.
End LibraryManager.

(** X8. [getLibrary] memoizes: once it has returned a handle, the library
    counts as loaded and every later call returns that same handle with no
    effect at all, also after any binding or query has run in between. A
    call on a world without a library loads the discovered path exactly
    once and remembers handle and path; a call on a world with a library
    changes nothing. *)
Theorem getLibrary_loads_once :
  forall (H : Host) (D : Type) (w w1 : World D) (l : LibHandle),
    getLibrary H w = (Returned l, w1) ->
    lib w1 = Some l /\
    isLibraryLoaded w1 = (Returned true, w1) /\
    (forall w2, quiet w1 w2 -> getLibrary H w2 = (Returned l, w2)) /\
    (lib w = None ->
       getLoadedLibraryPath w1 = (Returned (discovered H), w1) /\
       exists path warnings,
         discovered H = Some path /\ koffi_load H path = Loaded /\
         since w w1 = (warnings ++ [EvLoad path l])%list /\
         (warnings = [] \/ exists msg, warnings = [EvWarn msg])) /\
    (lib w <> None -> w1 = w).
Proof.
  intros H D w w1 l E.
  assert (Hl : lib w1 = Some l).
  { destruct (lib w) as [l0|] eqn:El.
    - rewrite (getLibrary_loaded H w l0 El) in E. inversion E; subst. exact El.
    - destruct (getLibrary_unloaded H w El) as (path & evs & _ & _ & E').
      rewrite E' in E. destruct (koffi_load H path); inversion E; subst. reflexivity. }
  split; [exact Hl|]. split; [|split; [|split]].
  - unfold isLibraryLoaded, read. rewrite Hl. reflexivity.
  - intros w2 (_ & _ & Hkeep & _). apply getLibrary_loaded, Hkeep, Hl.
  - intros El. destruct (getLibrary_unloaded H w El) as (path & evs & Ed & Hev & E').
    rewrite E' in E. destruct (koffi_load H path) eqn:Ek; inversion E; subst.
    split; [unfold getLoadedLibraryPath, read; cbn [libraryPath]; rewrite Ed; reflexivity|].
    exists path, evs. split; [exact Ed|]. split; [exact Ek|].
    split; [apply since_app; reflexivity | exact Hev].
  - intros Hsome. destruct (lib w) as [l0|] eqn:El; [|congruence].
    rewrite (getLibrary_loaded H w l0 El) in E. inversion E. reflexivity.
Qed.

Lemma getLibrary_loads_once_witness :
  lib Mock.ready = Some 0%nat /\
  (exists path warnings,
      discovered Mock.host = Some path /\ koffi_load Mock.host path = Loaded /\
      since Mock.fresh (Mock.after (getLibrary Mock.host) Mock.fresh)
        = (warnings ++ [EvLoad path 0%nat])%list /\
      (warnings = [] \/ exists msg, warnings = [EvWarn msg])).
Proof.
  assert (E : getLibrary Mock.host Mock.fresh =
              (Returned 0%nat, Mock.after (getLibrary Mock.host) Mock.fresh))
    by (apply run_outcome; vm_compute; reflexivity).
  pose proof (getLibrary_loads_once Mock.host _ _ _ _ E) as (_ & _ & _ & Hfirst & _).
  split; [vm_compute; reflexivity|].
  apply Hfirst. reflexivity.
Defined.

(** X9. When [getLibrary] fails it throws a plain [Error], never an
    [NvmlError], whose message names the path it tried and the loader's
    reason; the discovery never comes back empty, so this is the only way it
    fails. Nothing is remembered: the library stays unloaded and the next
    call tries the loader again and fails the same way. *)
Theorem getLibrary_failure_is_not_cached :
  forall (H : Host) (D : Type) (w w1 : World D) (ex : Exn),
    getLibrary H w = (Thrown ex, w1) ->
    lib w = None /\ lib w1 = None /\ libraryPath w1 = libraryPath w /\
    isLibraryLoaded w1 = (Returned false, w1) /\
    fst (getLibrary H w1) = Thrown ex /\
    exists path reason,
      discovered H = Some path /\
      (koffi_load H path = LoadThrowsError reason \/
       koffi_load H path = LoadThrowsOther /\ reason = "Unknown error loading library") /\
      ex = ExnError ("Failed to load NVML library from '" +:+ path +:+ "': " +:+ reason).
Proof.
  intros H D w w1 ex E.
  destruct (lib w) as [l0|] eqn:El.
  { rewrite (getLibrary_loaded H w l0 El) in E. discriminate. }
  assert (El1 : lib w1 = None /\ libraryPath w1 = libraryPath w).
  { destruct (getLibrary_unloaded H w El) as (path & evs & Ed & _ & E').
    rewrite E' in E. destruct (koffi_load H path); inversion E; subst; auto. }
  destruct El1 as [El1 Ep].
  split; [reflexivity|]. split; [exact El1|]. split; [exact Ep|].
  split; [unfold isLibraryLoaded, read; rewrite El1; reflexivity|].
  split.
  - pose proof (getLibrary_unloaded_outcome H w w1 El El1) as Hsame.
    rewrite E in Hsame. exact Hsame.
  - destruct (getLibrary_unloaded H w El) as (path & evs & Ed & _ & E').
    rewrite E' in E. destruct (koffi_load H path) as [|reason|] eqn:Ek; inversion E; subst.
    + exists path, reason. auto.
    + exists path, "Unknown error loading library". auto.
Qed.

Lemma getLibrary_failure_is_not_cached_witness :
  let H := mkHost None (fun _ => false)
                  (fun _ => LoadThrowsError "cannot open shared object file")
                  (fun _ _ => Bound) (fun _ => 0) in
  lib (Mock.after (getLibrary H) Mock.fresh) = None /\
  fst (getLibrary H (Mock.after (getLibrary H) Mock.fresh)) =
    Thrown (ExnError
      "Failed to load NVML library from 'libnvidia-ml.so.1': cannot open shared object file").
Proof.
  intros H.
  assert (E : getLibrary H Mock.fresh =
    (Thrown (ExnError
       "Failed to load NVML library from 'libnvidia-ml.so.1': cannot open shared object file"),
     Mock.after (getLibrary H) Mock.fresh))
    by (apply run_outcome; vm_compute; reflexivity).
  pose proof (getLibrary_failure_is_not_cached H _ _ _ _ E)
    as (_ & Hnone & _ & _ & Hagain & _).
  split; [exact Hnone | exact Hagain].
Defined.

(** *** Lazily resolved bindings *)

Section Getters.
Context (H : Host) {D : Type}.

Lemma getLibrary_returned (w w1 : World D) l :
  getLibrary H w = (Returned l, w1) -> lib w1 = Some l.
Proof.
  intros E. destruct (lib w) as [l0|] eqn:El.
  - rewrite (getLibrary_loaded H w l0 El) in E. inversion E; subst. exact El.
  - destruct (getLibrary_unloaded H w El) as (path & evs & _ & _ & E').
    rewrite E' in E. destruct (koffi_load H path); inversion E; subst. reflexivity.
Qed.

Lemma getLibrary_thrown (w w1 : World D) ex :
  getLibrary H w = (Thrown ex, w1) ->
  lib w = None /\ lib w1 = None /\ fst (getLibrary H w1) = Thrown ex.
Proof.
  intros E. destruct (lib w) as [l0|] eqn:El.
  { rewrite (getLibrary_loaded H w l0 El) in E. discriminate. }
  assert (El1 : lib w1 = None).
  { destruct (getLibrary_unloaded H w El) as (path & evs & _ & _ & E').
    rewrite E' in E. destruct (koffi_load H path); inversion E; subst; reflexivity. }
  split; [reflexivity|]. split; [exact El1|].
  pose proof (getLibrary_unloaded_outcome H w w1 El El1) as Hsame.
  rewrite E in Hsame. exact Hsame.
Qed.

(** How a getter whose symbol is not held ends, by what [getLibrary] and
    the resolver do. *)
Lemma lazyBinding_cases (w w1 : World D) sig (o : Outcome NvmlFunc) :
  slots w !! sig = None -> lazyBinding H sig w = (o, w1) ->
  (exists l w0,
      getLibrary H w = (Returned l, w0) /\ koffi_func H l sig = Bound /\
      o = Returned (mkNvmlFunc l sig) /\
      w1 = mkWorld (initialized w0) (lib w0) (libraryPath w0)
                   (<[sig := mkNvmlFunc l sig]> (slots w0)) (loads w0) (driver w0)
                   (trace w0 ++ [EvBind (mkNvmlFunc l sig)])%list) \/
  (exists l message,
      getLibrary H w = (Returned l, w1) /\ koffi_func H l sig = FuncThrows message /\
      o = Thrown (ExnError message)) \/
  (exists ex, getLibrary H w = (Thrown ex, w1) /\ o = Thrown ex).
Proof.
  intros Es E. destruct (getLibrary H w) as [[l|ex] w0] eqn:El.
  - destruct (koffi_func H l sig) as [|message] eqn:Ef.
    + rewrite (lazyBinding_resolves H w w0 sig l Es El Ef) in E. inversion E; subst.
      left. exists l, w0. auto.
    + rewrite (lazyBinding_missing H w w0 sig l message Es El Ef) in E.
      inversion E; subst. right. left. exists l, message. auto.
  - rewrite (lazyBinding_unloaded H w w0 sig ex Es El) in E. inversion E; subst.
    right. right. exists ex. auto.
Qed.
End Getters.

(** X10. A binding getter resolves its symbol once. When it returns a
    callable, that callable is held from then on: every later use of the
    getter returns the same callable and leaves the world untouched, also
    after any other binding or query has run, so that a native call made
    through the getter is then its only effect. When the symbol was not held
    and a library is loaded, the callable is bound to that library and the
    resolution is the only effect. When the getter throws, nothing was held
    before and nothing is held after, and the next use tries again and
    throws the same: either the library could not be loaded, and none is
    loaded afterwards, or the library is loaded and does not export the
    symbol, and then it stays loaded and the exception is the resolver's
    [Error]. *)
Theorem binding_is_resolved_once :
  forall (H : Host) (D : Type) (N : Native D) (sig : string) (w w1 : World D)
         (o : Outcome NvmlFunc),
    lazyBinding H sig w = (o, w1) ->
    match o with
    | Returned f =>
        slots w1 !! sig = Some f /\
        (forall l, slots w !! sig = None -> lib w = Some l ->
                   koffi_func H l sig = Bound /\
                   f = mkNvmlFunc l sig /\ since w w1 = [EvBind f]) /\
        (forall w2, quiet w1 w2 ->
           lazyBinding H sig w2 = (Returned f, w2) /\
           forall R (c : C.Call R),
             exists r w3,
               (let* g := lazyBinding H sig in invoke N g c) w2 = (Returned r, w3) /\
               since w2 w3 = [EvCall f] /\
               slots w3 = slots w2 /\ lib w3 = lib w2 /\ loads w3 = loads w2)
    | Thrown ex =>
        slots w !! sig = None /\ slots w1 = slots w /\
        fst (lazyBinding H sig w1) = Thrown ex /\
        ((getLibrary H w = (Thrown ex, w1) /\ lib w1 = None) \/
         (exists l message,
             getLibrary H w = (Returned l, w1) /\ lib w1 = Some l /\
             koffi_func H l sig = FuncThrows message /\ ex = ExnError message))
    end.
Proof.
  intros H D N sig w w1 o E. destruct o as [f|ex].
  - assert (Hheld : slots w1 !! sig = Some f).
    { destruct (slots w !! sig) as [f0|] eqn:Es.
      - rewrite (lazyBinding_held H w sig f0 Es) in E. inversion E; subst. exact Es.
      - destruct (lazyBinding_cases H w w1 sig _ Es E)
          as [(l & w0 & _ & _ & Ho & ->)|[(l & m & _ & _ & Ho)|(ex & _ & Ho)]];
          [|discriminate|discriminate].
        inversion Ho; subst. cbn [slots]. apply lookup_insert_eq. }
    split; [exact Hheld|]. split.
    + intros l Es Hl.
      destruct (lazyBinding_cases H w w1 sig _ Es E)
        as [(l' & w0 & El & Ef & Ho & ->)|[(l' & m & _ & _ & Ho)|(ex & _ & Ho)]];
        [|discriminate|discriminate].
      rewrite (getLibrary_loaded H w l Hl) in El. inversion El; subst.
      inversion Ho; subst. split; [exact Ef|]. split; [reflexivity|].
      apply since_app. reflexivity.
    + intros w2 (_ & Hsub & _).
      assert (Hheld2 : slots w2 !! sig = Some f)
        by (eapply lookup_weaken; eassumption).
      split; [apply lazyBinding_held, Hheld2|].
      intros R c.
      rewrite (bind_returned _ _ _ _ _ (lazyBinding_held H w2 sig f Hheld2)).
      unfold invoke. destruct (N R (bound_lib f) c (driver w2)) as [r d].
      do 2 eexists. split; [reflexivity|].
      split; [apply since_app; reflexivity|]. auto.
  - destruct (slots w !! sig) as [f0|] eqn:Es.
    { rewrite (lazyBinding_held H w sig f0 Es) in E. discriminate. }
    split; [reflexivity|].
    destruct (lazyBinding_cases H w w1 sig _ Es E)
      as [(l & w0 & _ & _ & Ho & _)|[(l & m & El & Ef & Ho)|(ex' & El & Ho)]];
      [discriminate| |]; inversion Ho; subst.
    + destruct (getLibrary_frame H _ _ _ El) as [Hs _].
      pose proof (getLibrary_returned H _ _ _ El) as Hl.
      assert (Es1 : slots w1 !! sig = None) by (rewrite Hs; exact Es).
      split; [exact Hs|]. split.
      * rewrite (lazyBinding_missing H w1 w1 sig l m Es1 (getLibrary_loaded H w1 l Hl) Ef).
        reflexivity.
      * right. exists l, m. auto.
    + destruct (getLibrary_frame H _ _ _ El) as [Hs _].
      destruct (getLibrary_thrown H _ _ _ El) as (_ & Hl1 & Hagain).
      assert (Es1 : slots w1 !! sig = None) by (rewrite Hs; exact Es).
      split; [exact Hs|]. split.
      * destruct (getLibrary H w1) as [[l|ex0] w2] eqn:El1; simpl in Hagain;
          [discriminate|]. inversion Hagain; subst.
        rewrite (lazyBinding_unloaded H w1 w2 sig ex' Es1 El1). reflexivity.
      * left. auto.
Qed.

Lemma binding_is_resolved_once_witness :
  let sig := "int nvmlDeviceGetName(nvmlDevice* device, _Out_ str *name, uint length)" in
  let H := Mock.hostWithout sig in
  let ex := ExnError ("Cannot find function in shared library: " +:+ sig) in
  let w := Mock.after (Nvml.init H Mock.native) Mock.fresh in
  let w1 := Mock.after (lazyBinding H sig) w in
  slots w1 = slots w /\
  fst (lazyBinding H sig w1) = Thrown ex /\
  ((getLibrary H w = (Thrown ex, w1) /\ lib w1 = None) \/
   (exists l message,
       getLibrary H w = (Returned l, w1) /\ lib w1 = Some l /\
       koffi_func H l sig = FuncThrows message /\ ex = ExnError message)).
Proof.
  intros sig H ex w w1.
  assert (E : lazyBinding H sig w = (Thrown ex, w1))
    by (apply (run_outcome (lazyBinding H sig)); vm_compute; reflexivity).
  exact (proj2 (binding_is_resolved_once H _ Mock.native sig _ _ _ E)).
Defined.

(** *** Device lookups *)

Section Lookups.
Context (H : Host) {D : Type} (N : Native D).

(** What a lookup does with the native answer [(ret, device)]: a device
    object only for status 0 together with a handle, an [NvmlError] built
    from [ret] in every other case. *)
Lemma lookup_answer {A} (binding : M D (Z * option KoffiNvmlDevice))
    (context : string) (build : KoffiNvmlDevice -> A) (w w' : World D) (o : Outcome A) :
  truthy context = true ->
  (let* (ret, device) := binding in
   match device with
   | Some device =>
       if negb (isSuccess ret) then throw (ExnNvml (fromReturn ret (Some context)))
       else ret_ (build device)
   | None => throw (ExnNvml (fromReturn ret (Some context)))
   end) w = (o, w') ->
  match o with
  | Returned a =>
      exists h, a = build h /\ binding w = (Returned (0, Some h), w')
  | Thrown ex =>
      binding w = (Thrown ex, w') \/
      exists ret device,
        binding w = (Returned (ret, device), w') /\
        (ret <> 0 \/ device = None) /\
        ex = ExnNvml (failureWith context ret)
  end.
Proof.
  intros Hc E.
  destruct (bind_inv _ _ _ _ _ E) as [([ret device] & w1 & Eb & Ek)|(ex & Eb & ->)];
    [|left; exact Eb].
  rewrite (fromReturn_context ret context Hc) in Ek.
  destruct device as [h|].
  - destruct (isSuccess ret) eqn:Hs; cbn [negb] in Ek; inversion Ek; subst.
    + apply isSuccess_true in Hs. subst ret. exists h. auto.
    + apply isSuccess_false in Hs. right. exists ret, (Some h). auto.
  - inversion Ek; subst. right. exists ret, None. auto.
Qed.
End Lookups.

(** X11. [Device.getByIndex] returns a device object exactly when the index
    is non-negative and the native lookup answered status 0 together with a
    handle; the object then carries that handle and the index asked for. A
    negative index is rejected with a plain [Error] before anything else
    happens: the world is untouched, so no binding is resolved and no native
    call is made. Every other failure is an [NvmlError] built from the native
    status, also when the status is 0 and the handle is missing; an
    exception of the binding itself passes through. *)
Theorem getByIndex_outcomes :
  forall (H : Host) (D : Type) (N : Native D) (index : Z) (w w' : World D)
         (o : Outcome Device.t),
    Device.getByIndex H N index w = (o, w') ->
    match o with
    | Returned d =>
        0 <= index /\ Device.index d = index /\
        nvmlDeviceGetHandleByIndex H N index w
          = (Returned (0, Some (Device.getHandle d)), w')
    | Thrown ex =>
        (index < 0 /\ w' = w /\
         ex = ExnError ("Invalid device index: expected non-negative integer, got "
                        +:+ Js.show index)) \/
        (0 <= index /\ nvmlDeviceGetHandleByIndex H N index w = (Thrown ex, w')) \/
        (0 <= index /\
         exists ret device,
           nvmlDeviceGetHandleByIndex H N index w = (Returned (ret, device), w') /\
           (ret <> 0 \/ device = None) /\
           ex = ExnNvml (failureWith ("Failed to get device at index " +:+ Js.show index)
                                     ret))
    end.
Proof.
  intros H D N index w w' o E. unfold Device.getByIndex in E.
  destruct (Z.ltb_spec index 0) as [Hneg|Hpos].
  - inversion E; subst. left. auto.
  - apply (lookup_answer (nvmlDeviceGetHandleByIndex H N index)
             ("Failed to get device at index " +:+ Js.show index)
             (fun h => Device.mk h index)) in E; [|reflexivity].
    destruct o as [d|ex].
    + destruct E as (h & -> & Eb). auto.
    + destruct E as [Eb|Hn]; auto.
Qed.

Lemma getByIndex_outcomes_witness :
  nvmlDeviceGetHandleByIndex Mock.host Mock.native 0 Mock.ready
    = (Returned (0, Some Mock.mockDeviceHandle),
       Mock.after (Device.getByIndex Mock.host Mock.native 0) Mock.ready).
Proof.
  assert (E : Device.getByIndex Mock.host Mock.native 0 Mock.ready =
              (Returned Mock.device,
               Mock.after (Device.getByIndex Mock.host Mock.native 0) Mock.ready))
    by (apply run_outcome; vm_compute; reflexivity).
  exact (proj2 (proj2 (getByIndex_outcomes Mock.host _ Mock.native 0 _ _ _ E))).
Defined.

(** X12. [Device.getByUUID] returns a device object exactly when the UUID
    has a character that is not white space and the native lookup answered
    status 0 together with a handle; the object carries that handle and the
    index -1. A UUID that is empty or all white space is rejected with a
    plain [Error] and the world untouched; every other failure is an
    [NvmlError] built from the native status, whose message quotes the UUID
    as it was given. *)
Theorem getByUUID_outcomes :
  forall (H : Host) (D : Type) (N : Native D) (uuid : string) (w w' : World D)
         (o : Outcome Device.t),
    Device.getByUUID H N uuid w = (o, w') ->
    match o with
    | Returned d =>
        Js.trim_is_empty uuid = false /\ Device.index d = -1 /\
        nvmlDeviceGetHandleByUUID H N uuid w
          = (Returned (0, Some (Device.getHandle d)), w')
    | Thrown ex =>
        (Js.trim_is_empty uuid = true /\ w' = w /\
         ex = ExnError "Invalid device UUID: expected non-empty string") \/
        (Js.trim_is_empty uuid = false /\
         nvmlDeviceGetHandleByUUID H N uuid w = (Thrown ex, w')) \/
        (Js.trim_is_empty uuid = false /\
         exists ret device,
           nvmlDeviceGetHandleByUUID H N uuid w = (Returned (ret, device), w') /\
           (ret <> 0 \/ device = None) /\
           ex = ExnNvml (failureWith ("Failed to get device with UUID " +:+ uuid) ret))
    end.
Proof.
  intros H D N uuid w w' o E. unfold Device.getByUUID in E.
  destruct (Js.trim_is_empty uuid) eqn:Hblank.
  - inversion E; subst. left. auto.
  - apply (lookup_answer (nvmlDeviceGetHandleByUUID H N uuid)
             ("Failed to get device with UUID " +:+ uuid)
             (fun h => Device.mk h (-1))) in E; [|reflexivity].
    destruct o as [d|ex].
    + destruct E as (h & -> & Eb). auto.
    + destruct E as [Eb|Hn]; auto.
Qed.

Lemma getByUUID_outcomes_witness :
  nvmlDeviceGetHandleByUUID Mock.host Mock.native Mock.mockUuid Mock.ready
    = (Returned (0, Some Mock.mockDeviceHandle),
       Mock.after (Device.getByUUID Mock.host Mock.native Mock.mockUuid) Mock.ready).
Proof.
  assert (E : Device.getByUUID Mock.host Mock.native Mock.mockUuid Mock.ready =
              (Returned (Device.mk Mock.mockDeviceHandle (-1)),
               Mock.after (Device.getByUUID Mock.host Mock.native Mock.mockUuid) Mock.ready))
    by (apply run_outcome; vm_compute; reflexivity).
  exact (proj2 (proj2 (getByUUID_outcomes Mock.host _ Mock.native _ _ _ _ E))).
Defined.

(** *** Enumerating the devices *)

Section Enumeration.
Context (H : Host) {D : Type} (N : Native D).

Lemma getByIndex_index (i : Z) (w w' : World D) (d : Device.t) :
  Device.getByIndex H N i w = (Returned d, w') -> Device.index d = i.
Proof.
  unfold Device.getByIndex. destruct (i <? 0)%Z; [discriminate|]. intros E.
  apply (lookup_answer (nvmlDeviceGetHandleByIndex H N i)
           ("Failed to get device at index " +:+ Js.show i)
           (fun h => Device.mk h i)) in E; [|reflexivity].
  destruct E as (h & -> & _). reflexivity.
Qed.

Lemma keeps_pushDevices n : forall i acc, keeps (Nvml.pushDevices H N n i acc).
Proof.
  induction n as [|n IH]; intros i acc; simpl; [apply keeps_ret|].
  apply keeps_bind; [apply keeps_getByIndex | intros device; apply IH].
Qed.

Lemma lookedUp_indices i ds (w w' : World D) :
  lookedUp H N i ds w w' ->
  List.map Device.index ds = seqZ i (Z.of_nat (List.length ds)).
Proof.
  induction 1 as [|i d ds w w1 w2 E _ IH]; [reflexivity|].
  cbn [List.map List.length]. rewrite seqZ_cons by lia.
  rewrite (getByIndex_index _ _ _ _ E), IH. do 2 f_equal. lia.
Qed.

(** The lookup loop: it looks the devices of the indices [i], [i+1], ...
    up one after the other, each from the world the one before left, and
    pushes what the lookups return; it ends at the first lookup that
    throws. *)
Lemma pushDevices_runs n :
  forall i acc (w w' : World D) o,
    Nvml.pushDevices H N n i acc w = (o, w') ->
    match o with
    | Returned ds =>
        exists new, ds = (acc ++ new)%list /\ List.length new = n /\
                    lookedUp H N i new w w'
    | Thrown ex =>
        exists new w0,
          lookedUp H N i new w w0 /\ (List.length new < n)%nat /\
          Device.getByIndex H N (i + Z.of_nat (List.length new)) w0 = (Thrown ex, w')
    end.
Proof.
  induction n as [|n IH]; intros i acc w w' o E; simpl in E.
  - inversion E; subst. exists [].
    split; [symmetry; apply app_nil_r|]. split; [reflexivity | constructor].
  - destruct (bind_inv _ _ _ _ _ E) as [(d & w1 & E1 & E2)|(ex & E1 & ->)].
    + specialize (IH _ _ _ _ _ E2). destruct o as [ds|ex].
      * destruct IH as (new & -> & Hlen & Hnew). exists (d :: new).
        split; [rewrite <- app_assoc; reflexivity|].
        split; [simpl; lia | econstructor; eassumption].
      * destruct IH as (new & w0 & Hnew & Hlen & Ej). exists (d :: new), w0.
        split; [econstructor; eassumption|]. split; [simpl; lia|].
        replace (i + Z.of_nat (List.length (d :: new)))
          with (i + 1 + Z.of_nat (List.length new)) by (cbn [List.length]; lia).
        exact Ej.
    + exists [], w. split; [constructor|]. split; [simpl; lia|].
      simpl. rewrite Z.add_0_r. exact E1.
Qed.
End Enumeration.

(** X13. [Nvml.getAllDevices] asks for the device count once and then looks
    the devices up by index 0, 1, ... one after the other, each lookup from
    the world the one before left. When it returns, every one of these
    lookups has returned and the list holds what they returned, in that
    order: one device per index below the count (none for a count that is
    not positive), with the lifecycle flag and the held bindings as before.
    When a lookup throws, the lookups before it have returned and
    [getAllDevices] throws that same exception from the world that lookup
    left; no partial list is returned and no later lookup is made. *)
Theorem getAllDevices_in_index_order :
  forall (H : Host) (D : Type) (N : Native D) (w w' : World D)
         (o : Outcome (list Device.t)),
    Nvml.getAllDevices H N w = (o, w') ->
    match o with
    | Returned ds =>
        exists count w1,
          Nvml.getDeviceCount H N w = (Returned count, w1) /\
          lookedUp H N 0 ds w1 w' /\
          List.length ds = Z.to_nat count /\
          List.map Device.index ds = seqZ 0 count /\
          quiet w w'
    | Thrown ex =>
        Nvml.getDeviceCount H N w = (Thrown ex, w') \/
        exists count w1 ds w0,
          Nvml.getDeviceCount H N w = (Returned count, w1) /\
          lookedUp H N 0 ds w1 w0 /\
          Z.of_nat (List.length ds) < count /\
          Device.getByIndex H N (Z.of_nat (List.length ds)) w0 = (Thrown ex, w')
    end.
Proof.
  intros H D N w w' o E. unfold Nvml.getAllDevices in E.
  destruct (bind_inv _ _ _ _ _ E) as [(count & w1 & E1 & E2)|(ex & E1 & ->)];
    [|left; exact E1].
  pose proof (pushDevices_runs H N _ _ _ _ _ _ E2) as Hrun.
  destruct o as [ds|ex].
  - destruct Hrun as (new & -> & Hlen & Hnew). exists count, w1. cbn [app].
    split; [exact E1|]. split; [exact Hnew|]. split; [exact Hlen|]. split.
    + rewrite (lookedUp_indices H N _ _ _ _ Hnew), Hlen.
      unfold seqZ. rewrite Nat2Z.id. reflexivity.
    + eapply quiet_trans; [apply (keeps_getDeviceCount H N _ _ _ E1)|].
      apply (keeps_pushDevices H N _ _ _ _ _ _ E2).
  - destruct Hrun as (new & w0 & Hnew & Hlen & Ej). right. exists count, w1, new, w0.
    split; [exact E1|]. split; [exact Hnew|]. split; [lia | exact Ej].
Qed.

Lemma getAllDevices_in_index_order_witness :
  exists count w1,
    Nvml.getDeviceCount Mock.host Mock.native Mock.ready = (Returned count, w1) /\
    lookedUp Mock.host Mock.native 0 [Mock.device] w1
      (Mock.after (Nvml.getAllDevices Mock.host Mock.native) Mock.ready) /\
    List.length [Mock.device] = Z.to_nat count /\
    List.map Device.index [Mock.device] = seqZ 0 count /\
    quiet Mock.ready (Mock.after (Nvml.getAllDevices Mock.host Mock.native) Mock.ready).
Proof.
  assert (E : Nvml.getAllDevices Mock.host Mock.native Mock.ready =
              (Returned [Mock.device],
               Mock.after (Nvml.getAllDevices Mock.host Mock.native) Mock.ready))
    by (apply run_outcome; vm_compute; reflexivity).
  exact (getAllDevices_in_index_order Mock.host _ Mock.native _ _ _ E).
Defined.

(** *** How a process listing can end *)

Lemma firstOccurrencesFrom_length (raws : list RawProcessInfo) :
  forall seen : gset Z,
    (List.length (firstOccurrencesFrom seen raws) <= List.length raws)%nat.
Proof.
  induction raws as [|r rest IH]; intros seen; simpl; [lia|].
  case_bool_decide; simpl.
  - specialize (IH seen). lia.
  - specialize (IH ({[ raw_pid r ]} ∪ seen)). lia.
Qed.

Lemma firstOccurrencesFrom_in (raws : list RawProcessInfo) :
  forall (seen : gset Z) (r : RawProcessInfo),
    List.In r (firstOccurrencesFrom seen raws) -> List.In r raws.
Proof.
  induction raws as [|r0 rest IH]; intros seen r; simpl; [tauto|].
  case_bool_decide; simpl.
  - intros Hr. right. eapply IH, Hr.
  - intros [->|Hr]; [left; reflexivity | right; eapply IH, Hr].
Qed.

Lemma zipEntries_gpuIndex (i : Z) (rs : list RawProcessInfo) :
  forall replies,
    List.Forall (fun p => GpuProcess.gpuIndex p = i) (zipEntries i rs replies).
Proof.
  induction rs as [|r rs IH]; intros [|reply replies]; simpl; constructor;
    [reflexivity | apply IH].
Qed.


(** X14. A listing [getProcesses] returns has pairwise distinct process
    ids, all of them positive, at most 256 entries, and every entry carries
    the index of the device object the listing was asked on. A failure it
    returns is the nonzero status of the compute enumeration, or, when that
    one succeeded, of the graphics enumeration, wrapped in the context of
    that enumeration, and the world is the one that enumeration left: no
    process name was looked up, and a name lookup never fails the listing. *)
Theorem getProcesses_outcomes :
  forall (H : Host) (D : Type) (N : Native D) (d : Device.t) (w w' : World D)
         (r : Result (list GpuProcess.t)),
    Device.getProcesses H N d w = (Returned r, w') ->
    match r with
    | Ok ps =>
        List.NoDup (List.map GpuProcess.pid ps) /\
        List.Forall (fun p => 0 < GpuProcess.pid p) ps /\
        List.Forall (fun p => GpuProcess.gpuIndex p = Device.index d) ps /\
        (List.length ps <= 256)%nat
    | Err e =>
        code e <> 0 /\
        ((exists cs,
             nvmlDeviceGetComputeRunningProcesses H N (Device.handle d) w
               = (Returned (code e, cs), w') /\
             e = failureWith "Failed to get compute processes" (code e)) \/
         (exists cs gs w1,
             nvmlDeviceGetComputeRunningProcesses H N (Device.handle d) w
               = (Returned (0, cs), w1) /\
             nvmlDeviceGetGraphicsRunningProcesses H N (Device.handle d) w1
               = (Returned (code e, gs), w') /\
             e = failureWith "Failed to get graphics processes" (code e)))
    end.
Proof.
  intros H D N d w w' r E. apply getProcesses_runs in E. destruct r as [ps|e].
  - destruct E as (cs & gs & w1 & w2 & replies & Ec & Eg & El & ->).
    set (kept := firstOccurrences (cs ++ gs)) in *.
    assert (Hpids : List.map GpuProcess.pid (zipEntries (Device.index d) kept replies)
                    = List.map raw_pid kept).
    { apply zipEntries_pids. rewrite (lookupNames_length H N _ _ _ _ El).
      apply length_map. }
    destruct (enumerated _ _ _ _ _ _ Ec) as (_ & _ & _ & Hcs & Hcl & _).
    destruct (enumerated _ _ _ _ _ _ Eg) as (_ & _ & _ & Hgs & Hgl & _).
    split; [|split; [|split]].
    + rewrite Hpids. apply firstOccurrencesFrom_NoDup.
    + apply List.Forall_map. rewrite Hpids. apply List.Forall_map.
      apply List.Forall_forall. intros r Hr.
      apply firstOccurrencesFrom_in, in_app_iff in Hr.
      rewrite List.Forall_forall in Hcs, Hgs. destruct Hr; auto.
    + apply zipEntries_gpuIndex.
    + rewrite <- (length_map GpuProcess.pid), Hpids, length_map.
      etransitivity; [apply firstOccurrencesFrom_length|].
      rewrite length_app. lia.
  - destruct E as [(ret & cs & Ec & Hret & ->)|(cs & ret & gs & w1 & Ec & Eg & Hret & ->)];
      (split; [exact Hret|]); [left | right].
    + exists cs. split; [exact Ec | reflexivity].
    + exists cs, gs, w1. split; [exact Ec|]. split; [exact Eg | reflexivity].
Qed.

Lemma getProcesses_outcomes_witness :
  let ps := [ GpuProcess.mk 0 1234 "/usr/bin/python3" 512%float;
              GpuProcess.mk 0 4242 "pid:4242" 64%float;
              GpuProcess.mk 0 777 "pid:777" 3%float ] in
  List.NoDup (List.map GpuProcess.pid ps) /\
  List.Forall (fun p => 0 < GpuProcess.pid p) ps /\
  List.Forall (fun p => GpuProcess.gpuIndex p = Device.index Mock.device) ps /\
  (List.length ps <= 256)%nat.
Proof.
  exact (getProcesses_outcomes Mock.host _ Mock.native Mock.device Mock.readyShared _ _
           (run_outcome _ _ _ getProcesses_shared_and_unnamed)).
Defined.

(** *** What the composite results are made of *)

Section CompositeContent.
Context (H : Host) {D : Type} (N : Native D).

(** The next single-field query of a composite that ended in a success
    has itself ended in a success. *)
Local Ltac field E :=
  let r := fresh "r" in
  let w1 := fresh "w" in
  let E1 := fresh "Ef" in
  let E2 := fresh "Er" in
  destruct (bind_inv _ _ _ _ _ E) as [(r & w1 & E1 & E2)|(? & _ & ?)];
    [clear E; destruct r as [?|?]; [|inversion E2]; rename E2 into E | discriminate].

Lemma getBasicInfo_returned (d : Device.t) (w w' : World D) (info : GpuBasicInfo.t) :
  Device.getBasicInfo H N d w = (Returned (Ok info), w') ->
  exists name m w1,
    Device.getName H N d w = (Returned (Ok name), w1) /\
    Device.getMemoryInfo H N d w1 = (Returned (Ok m), w') /\
    GpuBasicInfo.index info = Device.index d /\
    GpuBasicInfo.name info = name /\
    GpuBasicInfo.memoryTotalMiB info
      = Js.Number (Z.quot (MemoryInfo.total m) (1024 * 1024)).
Proof.
  intros E. unfold Device.getBasicInfo in E.
  field E. field E. inversion E; subst. do 3 eexists. eauto.
Qed.

Lemma getStatus_returned (d : Device.t) (w w' : World D) (st : GpuStatus.t) :
  Device.getStatus H N d w = (Returned (Ok st), w') ->
  GpuStatus.index st = Device.index d /\
  exists m wa wb,
    quiet w wa /\
    Device.getMemoryInfo H N d wa = (Returned (Ok m), wb) /\
    GpuStatus.memoryUsedMiB st = Js.Number (Z.quot (MemoryInfo.used m) (1024 * 1024)) /\
    GpuStatus.memoryTotalMiB st = Js.Number (Z.quot (MemoryInfo.total m) (1024 * 1024)).
Proof.
  intros E. unfold Device.getStatus in E.
  field E. pose proof (keeps_getName H N _ _ _ _ Ef) as Q.
  field E. pose proof (quiet_trans _ _ _ Q (keeps_getPersistenceMode H N _ _ _ _ Ef0)) as Q0.
  field E. pose proof (quiet_trans _ _ _ Q0 (keeps_getPciInfo H N _ _ _ _ Ef1)) as Q1.
  field E. pose proof (quiet_trans _ _ _ Q1 (keeps_getDisplayActive H N _ _ _ _ Ef2)) as Q2.
  field E. pose proof (quiet_trans _ _ _ Q2 (keeps_getEccErrorsCorrected H N _ _ _ _ Ef3)) as Q3.
  field E. pose proof (quiet_trans _ _ _ Q3 (keeps_getFanSpeed H N _ _ _ _ Ef4)) as Q4.
  field E. pose proof (quiet_trans _ _ _ Q4 (keeps_getTemperature H N _ _ _ _ Ef5)) as Q5.
  field E. pose proof (quiet_trans _ _ _ Q5 (keeps_getPerformanceState H N _ _ _ _ Ef6)) as Q6.
  field E. pose proof (quiet_trans _ _ _ Q6 (keeps_getPowerUsage H N _ _ _ _ Ef7)) as Q7.
  field E. pose proof (quiet_trans _ _ _ Q7 (keeps_getPowerLimit H N _ _ _ _ Ef8)) as Q8.
  field E. field E. field E. field E.
  inversion E; subst. split; [reflexivity|].
  do 3 eexists. split; [exact Q8|]. split; [exact Ef9|]. split; reflexivity.
Qed.
End CompositeContent.



(** *** The status of every GPU *)

Section StatusEnumeration.
Context (H : Host) {D : Type} (N : Native D).

Lemma statusesTaken_indices i sts (w w' : World D) :
  statusesTaken H N i sts w w' ->
  List.map GpuStatus.index sts = seqZ i (Z.of_nat (List.length sts)).
Proof.
  induction 1 as [|i d st sts w w1 w2 w3 E Es _ IH]; [reflexivity|].
  cbn [List.map List.length]. rewrite seqZ_cons by lia.
  destruct (getStatus_returned H N _ _ _ _ Es) as [Hst _].
  rewrite Hst, (getByIndex_index H N _ _ _ _ E), IH. do 2 f_equal. lia.
Qed.

(** The status loop: index by index from [i] it looks the device up and
    queries its status, each step from the world the one before left; it
    ends at the first status query that fails, with that failure, and at the
    first lookup or query that throws. *)
Lemma pushStatuses_runs n :
  forall i acc (w w' : World D) o,
    Nvml.pushStatuses H N n i acc w = (o, w') ->
    match o with
    | Returned (Ok sts) =>
        exists new, sts = (acc ++ new)%list /\ List.length new = n /\
                    statusesTaken H N i new w w'
    | Returned (Err e) =>
        exists new w0 d w1,
          statusesTaken H N i new w w0 /\ (List.length new < n)%nat /\
          Device.getByIndex H N (i + Z.of_nat (List.length new)) w0 = (Returned d, w1) /\
          Device.getStatus H N d w1 = (Returned (Err e), w')
    | Thrown ex =>
        exists new w0,
          statusesTaken H N i new w w0 /\ (List.length new < n)%nat /\
          (Device.getByIndex H N (i + Z.of_nat (List.length new)) w0 = (Thrown ex, w') \/
           exists d w1,
             Device.getByIndex H N (i + Z.of_nat (List.length new)) w0
               = (Returned d, w1) /\
             Device.getStatus H N d w1 = (Thrown ex, w'))
    end.
Proof.
  induction n as [|n IH]; intros i acc w w' o E; simpl in E.
  - inversion E; subst. exists [].
    split; [symmetry; apply app_nil_r|]. split; [reflexivity | constructor].
  - assert (Hhere : i + Z.of_nat (@List.length GpuStatus.t []) = i) by (simpl; lia).
    destruct (bind_inv _ _ _ _ _ E) as [(d & w1 & E1 & E2)|(ex & E1 & ->)]; clear E.
    2:{ exists [], w. split; [constructor|]. split; [simpl; lia|].
        left. rewrite Hhere. exact E1. }
    destruct (bind_inv _ _ _ _ _ E2) as [(r & w2 & E3 & E4)|(ex & E3 & ->)]; clear E2.
    2:{ exists [], w. split; [constructor|]. split; [simpl; lia|].
        right. exists d, w1. rewrite Hhere. auto. }
    destruct r as [st|e].
    + assert (Hnext : forall new : list GpuStatus.t,
                 i + Z.of_nat (List.length (st :: new))
                 = i + 1 + Z.of_nat (List.length new))
        by (intros new; cbn [List.length]; lia).
      specialize (IH _ _ _ _ _ E4). destruct o as [[sts|e]|ex].
      * destruct IH as (new & -> & Hlen & Hnew). exists (st :: new).
        split; [rewrite <- app_assoc; reflexivity|].
        split; [simpl; lia | econstructor; eassumption].
      * destruct IH as (new & w0 & d' & wd & Hnew & Hlen & Ej & Es).
        exists (st :: new), w0, d', wd.
        split; [econstructor; eassumption|]. split; [simpl; lia|].
        rewrite Hnext. auto.
      * destruct IH as (new & w0 & Hnew & Hlen & Ej).
        exists (st :: new), w0.
        split; [econstructor; eassumption|]. split; [simpl; lia|].
        rewrite Hnext. exact Ej.
    + inversion E4; subst. exists [], w, d, w1.
      split; [constructor|]. split; [simpl; lia|]. rewrite Hhere. auto.
Qed.
End StatusEnumeration.

(** X16. Once initialised, [Nvml.getAllGpuStatus] asks for the device count
    and then, index by index from 0, looks the device up and queries its
    status, each step from the world the one before left. A list it returns
    holds what these status queries returned, in index order, one per index
    below the count. A failure it returns is that of the count query
    (context "Failed to get device count"), or that of the first status
    query that failed, every lookup and status query before it having
    succeeded; the world is the one that query left, so no later device was
    touched. Although it returns a [Result], a failing handle lookup is
    thrown, not returned. *)
Theorem getAllGpuStatus_outcomes :
  forall (H : Host) (D : Type) (N : Native D) (w w' : World D)
         (o : Outcome (Result (list GpuStatus.t))),
    initialized w = true ->
    Nvml.getAllGpuStatus H N w = (o, w') ->
    match o with
    | Returned (Ok sts) =>
        exists count w1,
          nvmlDeviceGetCount H N w = (Returned (0, count), w1) /\
          statusesTaken H N 0 sts w1 w' /\
          List.length sts = Z.to_nat count /\
          List.map GpuStatus.index sts = seqZ 0 count
    | Returned (Err e) =>
        (exists count,
            nvmlDeviceGetCount H N w = (Returned (code e, count), w') /\
            code e <> 0 /\ e = failureWith "Failed to get device count" (code e)) \/
        (exists count w1 sts w0 d w2,
            nvmlDeviceGetCount H N w = (Returned (0, count), w1) /\
            statusesTaken H N 0 sts w1 w0 /\
            Z.of_nat (List.length sts) < count /\
            Device.getByIndex H N (Z.of_nat (List.length sts)) w0 = (Returned d, w2) /\
            Device.getStatus H N d w2 = (Returned (Err e), w'))
    | Thrown ex =>
        nvmlDeviceGetCount H N w = (Thrown ex, w') \/
        exists count w1 sts w0,
          nvmlDeviceGetCount H N w = (Returned (0, count), w1) /\
          statusesTaken H N 0 sts w1 w0 /\
          Z.of_nat (List.length sts) < count /\
          (Device.getByIndex H N (Z.of_nat (List.length sts)) w0 = (Thrown ex, w') \/
           exists d w2,
             Device.getByIndex H N (Z.of_nat (List.length sts)) w0 = (Returned d, w2) /\
             Device.getStatus H N d w2 = (Thrown ex, w'))
    end.
Proof.
  intros H D N w w' o Hi E. unfold Nvml.getAllGpuStatus in E.
  rewrite (bind_returned _ _ _ _ _ (ensureInitialized_up w Hi)) in E.
  destruct (bind_inv _ _ _ _ _ E) as [([ret count] & w1 & E1 & E2)|(ex & E1 & ->)];
    [clear E | left; exact E1].
  destruct (isSuccess ret) eqn:Hs; cbn [negb] in E2.
  - apply isSuccess_true in Hs. subst ret.
    pose proof (pushStatuses_runs H N _ _ _ _ _ _ E2) as Hrun.
    destruct o as [[sts|e]|ex].
    + destruct Hrun as (new & -> & Hlen & Hnew). exists count, w1. cbn [app].
      split; [exact E1|]. split; [exact Hnew|]. split; [exact Hlen|].
      rewrite (statusesTaken_indices H N _ _ _ _ Hnew), Hlen.
      unfold seqZ. rewrite Nat2Z.id. reflexivity.
    + destruct Hrun as (new & w0 & d & w2 & Hnew & Hlen & Ej & Es).
      right. exists count, w1, new, w0, d, w2.
      split; [exact E1|]. split; [exact Hnew|]. split; [lia|]. auto.
    + destruct Hrun as (new & w0 & Hnew & Hlen & Ej).
      right. exists count, w1, new, w0.
      split; [exact E1|]. split; [exact Hnew|]. split; [lia | exact Ej].
  - apply isSuccess_false in Hs.
    rewrite errFromReturn_context in E2 by reflexivity. inversion E2; subst.
    left. exists count. split; [exact E1|]. split; [exact Hs | reflexivity].
Qed.

Lemma getAllGpuStatus_outcomes_witness :
  let ex := ExnNvml (mkNvmlError 15 "Failed to get device at index 0: GPU is lost") in
  let w' := Mock.after (Nvml.getAllGpuStatus Mock.host Mock.native) (Mock.readyLostAfter 1) in
  nvmlDeviceGetCount Mock.host Mock.native (Mock.readyLostAfter 1) = (Thrown ex, w') \/
  exists count w1 sts w0,
    nvmlDeviceGetCount Mock.host Mock.native (Mock.readyLostAfter 1)
      = (Returned (0, count), w1) /\
    statusesTaken Mock.host Mock.native 0 sts w1 w0 /\
    Z.of_nat (List.length sts) < count /\
    (Device.getByIndex Mock.host Mock.native (Z.of_nat (List.length sts)) w0
       = (Thrown ex, w') \/
     exists d w2,
       Device.getByIndex Mock.host Mock.native (Z.of_nat (List.length sts)) w0
         = (Returned d, w2) /\
       Device.getStatus Mock.host Mock.native d w2 = (Thrown ex, w')).
Proof.
  intros ex w'.
  assert (E : Nvml.getAllGpuStatus Mock.host Mock.native (Mock.readyLostAfter 1) =
              (Thrown ex, w'))
    by (apply (run_outcome (Nvml.getAllGpuStatus Mock.host Mock.native));
        vm_compute; reflexivity).
  assert (Hi : initialized (Mock.readyLostAfter 1) = true) by reflexivity.
  exact (getAllGpuStatus_outcomes Mock.host _ Mock.native _ _ _ Hi E).
Defined.

(** *** Driver and version information *)

Section DriverInformation.
Context (H : Host) {D : Type} (N : Native D).

(** One step of a fail-fast chain: the binding was called, and either its
    status was 0 and the rest ran, or the chain ended with the failure. *)
Lemma strict_step {A T} (binding : M D (Z * A)) (context : string)
    (rest : A -> M D (Result T)) (w w' : World D) (r : Result T) :
  truthy context = true ->
  (let* (ret, a) := binding in
   if negb (isSuccess ret) then ret_ (errFromReturn ret (Some context))
   else rest a) w = (Returned r, w') ->
  (exists a w1, binding w = (Returned (0, a), w1) /\ rest a w1 = (Returned r, w')) \/
  (exists ret a, binding w = (Returned (ret, a), w') /\ ret <> 0 /\
                 r = Err (failureWith context ret)).
Proof.
  intros Hc E.
  destruct (bind_inv _ _ _ _ _ E) as [([ret a] & w1 & Eb & Ek)|(ex & _ & Hx)];
    [|discriminate].
  destruct (isSuccess ret) eqn:Hs; cbn [negb] in Ek.
  - apply isSuccess_true in Hs. subst ret. left. eauto.
  - apply isSuccess_false in Hs. rewrite errFromReturn_context in Ek by exact Hc.
    inversion Ek; subst. right. eauto.
Qed.

(** A gated query over one binding: every nonzero status is a failure
    with the query's context, status 0 gives the converted value. *)
Lemma gated_strict {A T} (binding : M D (Z * A)) (context : string) (convert : A -> T)
    (w w' : World D) (ret : Z) (a : A) :
  truthy context = true -> initialized w = true ->
  binding w = (Returned (ret, a), w') ->
  (Nvml.ensureInitialized ;;
   let* (ret, a) := binding in
   if negb (isSuccess ret) then ret_ (errFromReturn ret (Some context))
   else ret_ (ok (convert a))) w =
  (Returned (if (ret =? 0)%Z then Ok (convert a) else Err (failureWith context ret)), w').
Proof.
  intros Hc Hi E.
  rewrite (bind_returned _ _ _ _ _ (ensureInitialized_up w Hi)).
  rewrite (bind_returned _ _ _ _ _ E). cbv beta iota.
  unfold isSuccess, NvmlReturn.SUCCESS. destruct (ret =? 0)%Z; cbn [negb].
  - reflexivity.
  - rewrite errFromReturn_context by exact Hc. reflexivity.
Qed.
End DriverInformation.

(** X17. Once initialised, [Nvml.getDriverInfo] asks for the driver
    version, the NVML version and the CUDA version in that order and stops
    at the first nonzero status. Its success carries the two version texts
    as the bindings returned them and the CUDA version rendered by
    [cudaVersionToString]. A failure it returns is the status of the first
    query that failed, wrapped in that query's context, and the world is the
    one that query left: the later queries were not made. *)
Theorem getDriverInfo_stops_at_first_failure :
  forall (H : Host) (D : Type) (N : Native D) (w w' : World D)
         (r : Result DriverInfo.t),
    initialized w = true ->
    Nvml.getDriverInfo H N w = (Returned r, w') ->
    match r with
    | Ok info =>
        exists cuda w1 w2,
          nvmlSystemGetDriverVersion H N w
            = (Returned (0, DriverInfo.driverVersion info), w1) /\
          nvmlSystemGetNvmlVersion H N w1
            = (Returned (0, DriverInfo.nvmlVersion info), w2) /\
          nvmlSystemGetCudaDriverVersion_v2 H N w2 = (Returned (0, cuda), w') /\
          DriverInfo.cudaVersion info = cudaVersionToString cuda
    | Err e =>
        code e <> 0 /\
        ((exists v,
             nvmlSystemGetDriverVersion H N w = (Returned (code e, v), w') /\
             e = failureWith "Failed to get driver version" (code e)) \/
         (exists dv v w1,
             nvmlSystemGetDriverVersion H N w = (Returned (0, dv), w1) /\
             nvmlSystemGetNvmlVersion H N w1 = (Returned (code e, v), w') /\
             e = failureWith "Failed to get NVML version" (code e)) \/
         (exists dv nv v w1 w2,
             nvmlSystemGetDriverVersion H N w = (Returned (0, dv), w1) /\
             nvmlSystemGetNvmlVersion H N w1 = (Returned (0, nv), w2) /\
             nvmlSystemGetCudaDriverVersion_v2 H N w2 = (Returned (code e, v), w') /\
             e = failureWith "Failed to get CUDA version" (code e)))
    end.
Proof.
  intros H D N w w' r Hi E. unfold Nvml.getDriverInfo in E.
  rewrite (bind_returned _ _ _ _ _ (ensureInitialized_up w Hi)) in E.
  apply strict_step in E; [|reflexivity].
  destruct E as [(dv & w1 & Ed & E)|(ret & v & Ed & Hret & ->)].
  2:{ split; [exact Hret|]. left. exists v. auto. }
  apply strict_step in E; [|reflexivity].
  destruct E as [(nv & w2 & En & E)|(ret & v & En & Hret & ->)].
  2:{ split; [exact Hret|]. right. left. exists dv, v, w1. auto. }
  apply (strict_step (nvmlSystemGetCudaDriverVersion_v2 H N) "Failed to get CUDA version"
           (fun cuda => ret_ (ok (DriverInfo.mk dv nv (cudaVersionToString cuda)))))
    in E; [|reflexivity].
  destruct E as [(cuda & w3 & Ec & E)|(ret & v & Ec & Hret & ->)].
  2:{ split; [exact Hret|]. right. right. exists dv, nv, v, w1, w2. auto. }
  inversion E; subst. exists cuda, w1, w2. auto.
Qed.

Lemma getDriverInfo_stops_at_first_failure_witness :
  let w' := Mock.after (Nvml.getDriverInfo Mock.host Mock.native) Mock.ready in
  exists cuda w1 w2,
    nvmlSystemGetDriverVersion Mock.host Mock.native Mock.ready
      = (Returned (0, "535.154.05"), w1) /\
    nvmlSystemGetNvmlVersion Mock.host Mock.native w1
      = (Returned (0, "12.535.154.05"), w2) /\
    nvmlSystemGetCudaDriverVersion_v2 Mock.host Mock.native w2 = (Returned (0, cuda), w') /\
    "12.4" = cudaVersionToString cuda.
Proof.
  intros w'.
  assert (E : Nvml.getDriverInfo Mock.host Mock.native Mock.ready =
              (Returned (Ok (DriverInfo.mk "535.154.05" "12.535.154.05" "12.4")), w'))
    by (apply (run_outcome (Nvml.getDriverInfo Mock.host Mock.native));
        vm_compute; reflexivity).
  assert (Hi : initialized Mock.ready = true) by (vm_compute; reflexivity).
  exact (getDriverInfo_stops_at_first_failure Mock.host _ Mock.native _ _ _ Hi E).
Defined.

(** X18. Once initialised, the three single version queries of [Nvml] treat
    every nonzero status of their binding as a failure with their own
    context, the not-supported status included, and answer status 0 with the
    text the binding returned; [getCudaVersion] renders the integer the
    binding returned with [cudaVersionToString]. The world they leave is the
    one the binding left. *)
Theorem version_queries_are_strict :
  forall (H : Host) (D : Type) (N : Native D) (w w' : World D),
    initialized w = true ->
    (forall ret version,
        nvmlSystemGetDriverVersion H N w = (Returned (ret, version), w') ->
        Nvml.getDriverVersion H N w =
          (Returned (if (ret =? 0)%Z then Ok version
                     else Err (failureWith "Failed to get driver version" ret)), w')) /\
    (forall ret version,
        nvmlSystemGetNvmlVersion H N w = (Returned (ret, version), w') ->
        Nvml.getNvmlVersion H N w =
          (Returned (if (ret =? 0)%Z then Ok version
                     else Err (failureWith "Failed to get NVML version" ret)), w')) /\
    (forall ret version,
        nvmlSystemGetCudaDriverVersion_v2 H N w = (Returned (ret, version), w') ->
        Nvml.getCudaVersion H N w =
          (Returned (if (ret =? 0)%Z then Ok (cudaVersionToString version)
                     else Err (failureWith "Failed to get CUDA version" ret)), w')).
Proof.
  intros H D N w w' Hi. split; [|split]; intros ret version E.
  - apply (gated_strict (nvmlSystemGetDriverVersion H N) "Failed to get driver version"
             (fun v => v)); auto.
  - apply (gated_strict (nvmlSystemGetNvmlVersion H N) "Failed to get NVML version"
             (fun v => v)); auto.
  - apply (gated_strict (nvmlSystemGetCudaDriverVersion_v2 H N) "Failed to get CUDA version"
             cudaVersionToString); auto.
Qed.

Lemma version_queries_are_strict_witness :
  Nvml.getCudaVersion Mock.host Mock.native Mock.ready =
    (Returned (Ok (cudaVersionToString 12040)),
     Mock.after (nvmlSystemGetCudaDriverVersion_v2 Mock.host Mock.native) Mock.ready) /\
  Nvml.getDriverVersion Mock.host Mock.native (Mock.readyLostAfter 0) =
    (Returned (Err (failureWith "Failed to get driver version" 15)),
     Mock.after (nvmlSystemGetDriverVersion Mock.host Mock.native) (Mock.readyLostAfter 0)).
Proof.
  assert (Hi : initialized Mock.ready = true) by (vm_compute; reflexivity).
  assert (Hi' : initialized (Mock.readyLostAfter 0) = true) by reflexivity.
  split.
  - apply (proj2 (proj2 (version_queries_are_strict Mock.host _ Mock.native _ _ Hi))
             0 12040).
    apply (run_outcome (nvmlSystemGetCudaDriverVersion_v2 Mock.host Mock.native)).
    vm_compute. reflexivity.
  - apply (proj1 (version_queries_are_strict Mock.host _ Mock.native _ _ Hi')
             15 "535.154.05").
    apply (run_outcome (nvmlSystemGetDriverVersion Mock.host Mock.native)).
    vm_compute. reflexivity.
Defined.

(** *** When a native function is not available *)

Section Unavailable.
Context (H : Host) {D : Type} (N : Native D).

(** Resolving a symbol that is not held, when no library is loaded and
    the loader fails: the loader's error, and the world [getLibrary]
    leaves. *)
Lemma lazyBinding_unavailable (w : World D) (path reason sig : string) :
  lib w = None -> slots w !! sig = None ->
  discovered H = Some path -> koffi_load H path = LoadThrowsError reason ->
  lazyBinding H sig w =
    (Thrown (ExnError ("Failed to load NVML library from '" +:+ path +:+ "': " +:+ reason)),
     snd (getLibrary H w)).
Proof.
  intros El Es Ed Ek.
  destruct (getLibrary_unloaded H w El) as (path' & evs & Ed' & _ & E).
  assert (path' = path) as -> by congruence. rewrite Ek in E.
  rewrite (lazyBinding_unloaded H w _ sig _ Es E), E. reflexivity.
Qed.

Lemma getLibrary_unavailable (w : World D) (path reason : string) :
  lib w = None -> discovered H = Some path -> koffi_load H path = LoadThrowsError reason ->
  let w' := snd (getLibrary H w) in
  initialized w' = initialized w /\ lib w' = None /\ slots w' = slots w /\
  driver w' = driver w /\ forall f, ~ In (EvCall f) (since w w').
Proof.
  intros El Ed Ek.
  destruct (getLibrary_unloaded H w El) as (path' & evs & Ed' & Hev & E).
  assert (path' = path) as -> by congruence. rewrite Ek in E. rewrite E.
  cbn [snd initialized lib slots driver]. repeat split.
  intros f. rewrite (since_app w _ evs) by reflexivity.
  destruct Hev as [->|[msg ->]]; simpl; [tauto | intros [?|[]]; discriminate].
Qed.

(** Resolving a symbol that is not held, when a library is loaded that
    does not export it: the resolver's error, and the world untouched. *)
Lemma lazyBinding_not_exported (w : World D) (l : LibHandle) (sig message : string) :
  lib w = Some l -> slots w !! sig = None -> koffi_func H l sig = FuncThrows message ->
  lazyBinding H sig w = (Thrown (ExnError message), w).
Proof.
  intros El Es Ef.
  apply (lazyBinding_missing H w w sig l message Es (getLibrary_loaded H w l El) Ef).
Qed.
End Unavailable.

(** X19. When no library is loaded and the loader fails, every entry point
    that can be the first to need a native function throws the loader's
    plain [Error], with the path tried and the loader's reason, provided its
    symbol is not held yet: [init], [shutdown] and the two device lookups
    with a valid argument. No native call is made, the lifecycle flag, the
    bindings and the driver are as before, and no library is remembered, so
    the same call made again fails the same way. *)
Theorem load_failure_is_thrown :
  forall (H : Host) (D : Type) (N : Native D) (w : World D) (path reason : string),
    lib w = None ->
    discovered H = Some path -> koffi_load H path = LoadThrowsError reason ->
    let ex := ExnError ("Failed to load NVML library from '" +:+ path +:+ "': "
                        +:+ reason) in
    let w' := snd (getLibrary H w) in
    (slots w !! "int nvmlInit_v2()" = None ->
     Nvml.init H N w = (Thrown ex, w') /\ fst (Nvml.init H N w') = Thrown ex) /\
    (slots w !! "int nvmlShutdown()" = None ->
     Nvml.shutdown H N w = (Thrown ex, w') /\ fst (Nvml.shutdown H N w') = Thrown ex) /\
    (forall i,
        0 <= i ->
        slots w !! "int nvmlDeviceGetHandleByIndex_v2(uint index, _Out_ nvmlDevice* *device)"
          = None ->
        Device.getByIndex H N i w = (Thrown ex, w') /\
        fst (Device.getByIndex H N i w') = Thrown ex) /\
    (forall u,
        Js.trim_is_empty u = false ->
        slots w !! "int nvmlDeviceGetHandleByUUID(str uuid, _Out_ nvmlDevice* *device)"
          = None ->
        Device.getByUUID H N u w = (Thrown ex, w') /\
        fst (Device.getByUUID H N u w') = Thrown ex) /\
    initialized w' = initialized w /\ lib w' = None /\ slots w' = slots w /\
    driver w' = driver w /\ (forall f, ~ In (EvCall f) (since w w')).
Proof.
  intros H D N w path reason El Ed Ek ex w'.
  pose proof (getLibrary_unavailable H w path reason El Ed Ek)
    as (Hflag & Hlib & Hslots & Hdrv & Hcalls).
  fold w' in Hflag, Hlib, Hslots, Hdrv, Hcalls.
  assert (Hlazy : forall sig, slots w !! sig = None ->
             lazyBinding H sig w = (Thrown ex, w') /\
             lazyBinding H sig w' = (Thrown ex, snd (getLibrary H w'))).
  { intros sig Hs. split.
    - apply (lazyBinding_unavailable H w path reason sig); assumption.
    - apply (lazyBinding_unavailable H w' path reason sig); try assumption.
      rewrite Hslots. exact Hs. }
  split; [|split; [|split; [|split]]].
  - intros Hs. destruct (Hlazy _ Hs) as [E1 E2].
    unfold Nvml.init, nvmlInit, getNvmlInit.
    rewrite (bind_thrown _ _ _ _ _ (bind_thrown _ _ _ _ _ E1)).
    rewrite (bind_thrown _ _ _ _ _ (bind_thrown _ _ _ _ _ E2)). auto.
  - intros Hs. destruct (Hlazy _ Hs) as [E1 E2].
    unfold Nvml.shutdown, nvmlShutdown, getNvmlShutdown.
    rewrite (bind_thrown _ _ _ _ _ (bind_thrown _ _ _ _ _ E1)).
    rewrite (bind_thrown _ _ _ _ _ (bind_thrown _ _ _ _ _ E2)). auto.
  - intros i Hi Hs. destruct (Hlazy _ Hs) as [E1 E2].
    unfold Device.getByIndex. destruct (Z.ltb_spec i 0); [lia|].
    unfold nvmlDeviceGetHandleByIndex, getDeviceGetHandleByIndex.
    rewrite (bind_thrown _ _ _ _ _ (bind_thrown _ _ _ _ _ E1)).
    rewrite (bind_thrown _ _ _ _ _ (bind_thrown _ _ _ _ _ E2)). auto.
  - intros u Hu Hs. destruct (Hlazy _ Hs) as [E1 E2].
    unfold Device.getByUUID. rewrite Hu.
    unfold nvmlDeviceGetHandleByUUID, getDeviceGetHandleByUUID.
    rewrite (bind_thrown _ _ _ _ _ (bind_thrown _ _ _ _ _ E1)).
    rewrite (bind_thrown _ _ _ _ _ (bind_thrown _ _ _ _ _ E2)). auto.
  - auto.
Qed.

Lemma load_failure_is_thrown_witness :
  let H := Mock.hostWithoutLibrary in
  let ex := ExnError
    ("Failed to load NVML library from '" +:+ "libnvidia-ml.so.1" +:+ "': "
     +:+ "cannot open shared object file") in
  let w' := snd (getLibrary H Mock.fresh) in
  (Nvml.init H Mock.native Mock.fresh = (Thrown ex, w') /\
   fst (Nvml.init H Mock.native w') = Thrown ex) /\
  (Device.getByIndex H Mock.native 0 Mock.fresh = (Thrown ex, w') /\
   fst (Device.getByIndex H Mock.native 0 w') = Thrown ex) /\
  initialized w' = false.
Proof.
  intros H ex w'.
  pose proof (load_failure_is_thrown H _ Mock.native Mock.fresh
                "libnvidia-ml.so.1" "cannot open shared object file"
                eq_refl eq_refl eq_refl)
    as (Hinit & _ & Hindex & _ & Hflag & _).
  split; [apply Hinit; reflexivity|].
  split; [apply (Hindex 0); [lia | reflexivity] | exact Hflag].
Defined.

(** X23. When a library is loaded that does not export the symbol an
    operation binds, and that symbol is not held yet, the operation throws
    the resolver's plain [Error] and leaves the world exactly as it was: the
    library stays loaded, the lifecycle flag stays as it is and no native
    call is made. This holds for the queries that otherwise return a
    [Result] too: a [Device] query throws when its own symbol is missing,
    [getBasicInfo] and [getStatus] throw when the name symbol is missing,
    and, once initialised, [getDeviceCount], [getAllDevices],
    [getAllGpuStatus] throw when the count symbol is missing and
    [getDriverInfo], [getDriverVersion] and [getSystemSnapshot] throw when
    the driver-version symbol is missing. *)
Theorem missing_symbol_is_thrown :
  forall (H : Host) (D : Type) (N : Native D) (w : World D) (l : LibHandle)
         (sig message : string),
    lib w = Some l -> slots w !! sig = None ->
    koffi_func H l sig = FuncThrows message ->
    let ex := ExnError message in
    lazyBinding H sig w = (Thrown ex, w) /\
    (sig = "int nvmlShutdown()" -> Nvml.shutdown H N w = (Thrown ex, w)) /\
    (forall d,
        sig = "int nvmlDeviceGetName(nvmlDevice* device, _Out_ str *name, uint length)" ->
        Device.getName H N d w = (Thrown ex, w) /\
        Device.getBasicInfo H N d w = (Thrown ex, w) /\
        Device.getStatus H N d w = (Thrown ex, w)) /\
    (forall d,
        sig = "int nvmlDeviceGetTemperature(nvmlDevice* device, int sensorType, _Out_ uint *temp)" ->
        Device.getTemperature H N d w = (Thrown ex, w)) /\
    (forall d,
        sig = "int nvmlDeviceGetComputeRunningProcesses_v3(nvmlDevice* device, _Inout_ uint *infoCount, _Out_ nvmlProcessInfo_v2_t *infos)" ->
        Device.getProcesses H N d w = (Thrown ex, w)) /\
    (initialized w = true ->
     sig = "int nvmlDeviceGetCount_v2(_Out_ uint *deviceCount)" ->
     Nvml.getDeviceCount H N w = (Thrown ex, w) /\
     Nvml.getAllDevices H N w = (Thrown ex, w) /\
     Nvml.getAllGpuStatus H N w = (Thrown ex, w)) /\
    (initialized w = true ->
     sig = "int nvmlSystemGetDriverVersion(_Out_ str *version, uint length)" ->
     Nvml.getDriverInfo H N w = (Thrown ex, w) /\
     Nvml.getDriverVersion H N w = (Thrown ex, w) /\
     Nvml.getSystemSnapshot H N w = (Thrown ex, w)).
Proof.
  intros H D N w l sig message El Es Ef ex.
  pose proof (lazyBinding_not_exported H w l sig message El Es Ef) as Hlazy.
  fold ex in Hlazy.
  split; [exact Hlazy|].
  split; [intros ->; unfold Nvml.shutdown, nvmlShutdown, getNvmlShutdown;
          do 2 apply bind_thrown; exact Hlazy|].
  split.
  { intros d ->.
    assert (Hname : Device.getName H N d w = (Thrown ex, w)).
    { unfold Device.getName, nvmlDeviceGetName, getDeviceGetName.
      do 2 apply bind_thrown. exact Hlazy. }
    split; [exact Hname|]. split.
    - unfold Device.getBasicInfo. apply bind_thrown, Hname.
    - unfold Device.getStatus. apply bind_thrown, Hname. }
  split.
  { intros d ->. unfold Device.getTemperature, nvmlDeviceGetTemperature,
      getDeviceGetTemperature.
    do 2 apply bind_thrown. exact Hlazy. }
  split.
  { intros d ->. unfold Device.getProcesses, nvmlDeviceGetComputeRunningProcesses,
      getDeviceGetComputeRunningProcesses.
    do 2 apply bind_thrown. exact Hlazy. }
  split.
  { intros Hi ->.
    assert (Hcount : nvmlDeviceGetCount H N w = (Thrown ex, w)).
    { unfold nvmlDeviceGetCount, getDeviceGetCount. apply bind_thrown, Hlazy. }
    assert (Hget : Nvml.getDeviceCount H N w = (Thrown ex, w)).
    { unfold Nvml.getDeviceCount.
      rewrite (bind_returned _ _ _ _ _ (ensureInitialized_up w Hi)).
      apply bind_thrown, Hcount. }
    split; [exact Hget|]. split.
    - unfold Nvml.getAllDevices. apply bind_thrown, Hget.
    - unfold Nvml.getAllGpuStatus.
      rewrite (bind_returned _ _ _ _ _ (ensureInitialized_up w Hi)).
      apply bind_thrown, Hcount. }
  intros Hi ->.
  assert (Hver : nvmlSystemGetDriverVersion H N w = (Thrown ex, w)).
  { unfold nvmlSystemGetDriverVersion, getSystemGetDriverVersion.
    apply bind_thrown, Hlazy. }
  assert (Hinfo : Nvml.getDriverInfo H N w = (Thrown ex, w)).
  { unfold Nvml.getDriverInfo.
    rewrite (bind_returned _ _ _ _ _ (ensureInitialized_up w Hi)).
    apply bind_thrown, Hver. }
  split; [exact Hinfo|]. split.
  - unfold Nvml.getDriverVersion.
    rewrite (bind_returned _ _ _ _ _ (ensureInitialized_up w Hi)).
    apply bind_thrown, Hver.
  - unfold Nvml.getSystemSnapshot.
    rewrite (bind_returned _ _ _ _ _ (ensureInitialized_up w Hi)).
    apply bind_thrown, Hinfo.
Qed.

Lemma missing_symbol_is_thrown_witness :
  let sig := "int nvmlDeviceGetName(nvmlDevice* device, _Out_ str *name, uint length)" in
  let H := Mock.hostWithout sig in
  let ex := ExnError ("Cannot find function in shared library: " +:+ sig) in
  let w := Mock.after (Nvml.getDevice H Mock.native 0)
             (Mock.after (Nvml.init H Mock.native) Mock.fresh) in
  fst (Nvml.getDevice H Mock.native 0 (Mock.after (Nvml.init H Mock.native) Mock.fresh))
    = Returned Mock.device /\
  Device.getName H Mock.native Mock.device w = (Thrown ex, w) /\
  Device.getBasicInfo H Mock.native Mock.device w = (Thrown ex, w) /\
  Device.getStatus H Mock.native Mock.device w = (Thrown ex, w).
Proof.
  intros sig H ex w.
  split; [vm_compute; reflexivity|].
  assert (El : lib w = Some 0%nat) by (vm_compute; reflexivity).
  assert (Es : slots w !! sig = None) by (vm_compute; reflexivity).
  pose proof (missing_symbol_is_thrown H _ Mock.native w 0%nat sig
                ("Cannot find function in shared library: " +:+ sig)
                El Es eq_refl)
    as (_ & _ & Hname & _).
  apply (Hname Mock.device). reflexivity.
Defined.

(** *** What a snapshot is made of *)

Section SnapshotContent.
Context (H : Host) {D : Type} (N : Native D).

(** The process loop: the listings of the devices of index [i], [i+1],
    ... appended in that order; it ends at the first listing that fails. *)
Lemma pushProcesses_runs n :
  forall i acc (w w' : World D) r,
    Nvml.pushProcesses H N n i acc w = (Returned r, w') ->
    match r with
    | Ok ps =>
        exists listings,
          ps = (acc ++ concat listings)%list /\
          List.Forall2
            (fun j listing => List.Forall (fun p => GpuProcess.gpuIndex p = j) listing)
            (seqZ i (Z.of_nat n)) listings
    | Err e =>
        exists d w0, i <= Device.index d < i + Z.of_nat n /\ quiet w w0 /\
                     Device.getProcesses H N d w0 = (Returned (Err e), w')
    end.
Proof.
  induction n as [|n IH]; intros i acc w w' r E; simpl in E.
  - inversion E; subst. exists []. split; [symmetry; apply app_nil_r | constructor].
  - destruct (bind_inv _ _ _ _ _ E) as [(d & w1 & E1 & E2)|(ex & _ & Hx)];
      [clear E | discriminate].
    pose proof (getByIndex_index H N _ _ _ _ E1) as Hd.
    pose proof (keeps_getByIndex H N _ _ _ _ E1) as Q1.
    destruct (bind_inv _ _ _ _ _ E2) as [(pr & w2 & E3 & E4)|(ex & _ & Hx)];
      [clear E2 | discriminate].
    pose proof (keeps_getProcesses H N _ _ _ _ E3) as Q2.
    destruct pr as [listing|e].
    + assert (Hl : List.Forall (fun p => GpuProcess.gpuIndex p = i) listing).
      { apply getProcesses_runs in E3.
        destruct E3 as (cs & gs & wa & wb & replies & _ & _ & _ & ->).
        rewrite <- Hd. apply zipEntries_gpuIndex. }
      specialize (IH _ _ _ _ _ E4). destruct r as [ps|e].
      * destruct IH as (listings & -> & Hall). exists (listing :: listings). split.
        -- cbn [concat]. rewrite app_assoc. reflexivity.
        -- rewrite seqZ_cons by lia. constructor; [exact Hl|].
           replace (Z.pred (Z.of_nat (S n))) with (Z.of_nat n) by lia. exact Hall.
      * destruct IH as (d' & w0 & Hj & Q & Ej). exists d', w0.
        split; [lia|]. split; [|exact Ej].
        eapply quiet_trans; [exact Q1|]. eapply quiet_trans; eassumption.
    + inversion E4; subst. exists d, w1. split; [lia|]. auto.
Qed.
End SnapshotContent.



(** *** How many native calls a query makes *)

Lemma nativeCalls_app (a b : list Event) :
  nativeCalls (a ++ b) = (nativeCalls a + nativeCalls b)%nat.
Proof.
  induction a as [|ev a IH]; [reflexivity|].
  destruct ev; simpl; rewrite IH; reflexivity.
Qed.

Section CallCount.
Context (H : Host) {D : Type} (N : Native D).

Lemma spends_ret {A} (a : A) : spends 0 (ret_ a : M D A).
Proof. intros w a' w' E. inversion E; subst. lia. Qed.

Lemma spends_throw {A} k ex : spends k (throw ex : M D A).
Proof. intros w a w' E. discriminate. Qed.

Lemma spends_bind {A B} k1 k2 k (m : M D A) (f : A -> M D B) :
  spends k1 m -> (forall a, spends k2 (f a)) -> k = (k1 + k2)%nat ->
  spends k (bind m f).
Proof.
  intros Hm Hf -> w b w' E.
  destruct (bind_inv _ _ _ _ _ E) as [(a & w1 & E1 & E2)|(ex & _ & Hx)]; [|discriminate].
  rewrite (Hf _ _ _ _ E2), (Hm _ _ _ E1). lia.
Qed.

Lemma spends_invoke {R} (f : NvmlFunc) (c : C.Call R) : spends 1 (invoke N f c).
Proof.
  intros w a w' E. unfold invoke in E.
  destruct (N R (bound_lib f) c (driver w)) as [r d]. inversion E; subst.
  cbn [trace]. rewrite nativeCalls_app. reflexivity.
Qed.

Lemma spends_getLibrary : spends 0 (getLibrary H : M D _).
Proof.
  intros w l w' E. destruct (lib w) as [l0|] eqn:El.
  - rewrite (getLibrary_loaded H w l0 El) in E. inversion E; subst. lia.
  - destruct (getLibrary_unloaded H w El) as (path & evs & _ & Hev & E').
    rewrite E' in E. destruct (koffi_load H path); inversion E; subst.
    cbn [trace]. rewrite !nativeCalls_app.
    destruct Hev as [->|[msg ->]]; simpl; lia.
Qed.

Lemma spends_lazyBinding sig : spends 0 (lazyBinding H sig : M D _).
Proof.
  intros w f w' E. destruct (slots w !! sig) as [f0|] eqn:Es.
  - rewrite (lazyBinding_held H w sig f0 Es) in E. inversion E; subst. lia.
  - destruct (lazyBinding_cases H w w' sig _ Es E)
      as [(l & w0 & El & _ & _ & ->)|[(l & m & _ & _ & Ho)|(ex & _ & Ho)]];
      [|discriminate|discriminate].
    cbn [trace]. rewrite nativeCalls_app, (spends_getLibrary _ _ _ El). simpl. lia.
Qed.
End CallCount.

(** Count the native calls of a computation along its structure. *)
Ltac count_calls :=
  repeat first
    [ apply spends_ret | apply spends_throw | apply spends_invoke
    | apply spends_lazyBinding
    | eapply spends_bind; [ | intros | ]
    | match goal with
      | |- spends _ (match ?x with _ => _ end) => destruct x
      | |- (_ = _)%nat => reflexivity
      end ].

Section QueryCallCount.
Context (H : Host) {D : Type} (N : Native D).

Local Ltac single f := intros; unfold f; autounfold with bindings; count_calls.

Lemma spends_getName d : spends 1 (Device.getName H N d).
Proof. single @Device.getName. Qed.
Lemma spends_getUUID d : spends 1 (Device.getUUID H N d).
Proof. single @Device.getUUID. Qed.
Lemma spends_getMemoryInfo d : spends 1 (Device.getMemoryInfo H N d).
Proof. single @Device.getMemoryInfo. Qed.
Lemma spends_getUtilizationRates d : spends 1 (Device.getUtilizationRates H N d).
Proof. single @Device.getUtilizationRates. Qed.
Lemma spends_getTemperature d : spends 1 (Device.getTemperature H N d).
Proof. single @Device.getTemperature. Qed.
Lemma spends_getPowerUsage d : spends 1 (Device.getPowerUsage H N d).
Proof. single @Device.getPowerUsage. Qed.
Lemma spends_getPowerLimit d : spends 1 (Device.getPowerLimit H N d).
Proof. single @Device.getPowerLimit. Qed.
Lemma spends_getFanSpeed d : spends 1 (Device.getFanSpeed H N d).
Proof. single @Device.getFanSpeed. Qed.
Lemma spends_getPerformanceState d : spends 1 (Device.getPerformanceState H N d).
Proof. single @Device.getPerformanceState. Qed.
Lemma spends_getPciInfo d : spends 1 (Device.getPciInfo H N d).
Proof. single @Device.getPciInfo. Qed.
Lemma spends_getPersistenceMode d : spends 1 (Device.getPersistenceMode H N d).
Proof. single @Device.getPersistenceMode. Qed.
Lemma spends_getDisplayActive d : spends 1 (Device.getDisplayActive H N d).
Proof. single @Device.getDisplayActive. Qed.
Lemma spends_getComputeMode d : spends 1 (Device.getComputeMode H N d).
Proof. single @Device.getComputeMode. Qed.
Lemma spends_getMigMode d : spends 1 (Device.getMigMode H N d).
Proof. single @Device.getMigMode. Qed.
Lemma spends_getEccErrorsCorrected d : spends 1 (Device.getEccErrorsCorrected H N d).
Proof. single @Device.getEccErrorsCorrected. Qed.
End QueryCallCount.

Section CompositeCallCount.
Context (H : Host) {D : Type} (N : Native D).

Local Ltac binding := intros; autounfold with bindings; count_calls.

Lemma spends_nvmlSystemGetProcessName pid : spends 1 (nvmlSystemGetProcessName H N pid).
Proof. binding. Qed.
Lemma spends_nvmlDeviceGetComputeRunningProcesses h :
  spends 1 (nvmlDeviceGetComputeRunningProcesses H N h).
Proof. binding. Qed.
Lemma spends_nvmlDeviceGetGraphicsRunningProcesses h :
  spends 1 (nvmlDeviceGetGraphicsRunningProcesses H N h).
Proof. binding. Qed.

Lemma spends_lookupNames (pids : list Z) :
  spends (List.length pids) (lookupNames H N pids).
Proof.
  induction pids as [|pid rest IH]; simpl; [apply spends_ret|].
  eapply spends_bind; [apply spends_nvmlSystemGetProcessName | intros reply | reflexivity].
  eapply spends_bind; [apply IH | intros; apply spends_ret | lia].
Qed.

(** The next single-field query of a composite that ended in a success
    has ended in a success, at the price of one native call. *)
Local Ltac paid E price :=
  let r := fresh "r" in
  let w1 := fresh "w" in
  let E1 := fresh "Ef" in
  let E2 := fresh "Er" in
  destruct (bind_inv _ _ _ _ _ E) as [(r & w1 & E1 & E2)|(? & _ & ?)];
    [clear E; destruct r as [?|?]; [|inversion E2]; rename E2 into E;
     apply price in E1 | discriminate].

Lemma getBasicInfo_calls d (w w' : World D) info :
  Device.getBasicInfo H N d w = (Returned (Ok info), w') ->
  nativeCalls (trace w') = (nativeCalls (trace w) + 2)%nat.
Proof.
  intros E. unfold Device.getBasicInfo in E.
  paid E (spends_getName H N d). paid E (spends_getMemoryInfo H N d).
  inversion E; subst. lia.
Qed.

Lemma getStatus_calls d (w w' : World D) st :
  Device.getStatus H N d w = (Returned (Ok st), w') ->
  nativeCalls (trace w') = (nativeCalls (trace w) + 14)%nat.
Proof.
  intros E. unfold Device.getStatus in E.
  paid E (spends_getName H N d). paid E (spends_getPersistenceMode H N d).
  paid E (spends_getPciInfo H N d). paid E (spends_getDisplayActive H N d).
  paid E (spends_getEccErrorsCorrected H N d). paid E (spends_getFanSpeed H N d).
  paid E (spends_getTemperature H N d). paid E (spends_getPerformanceState H N d).
  paid E (spends_getPowerUsage H N d). paid E (spends_getPowerLimit H N d).
  paid E (spends_getMemoryInfo H N d). paid E (spends_getUtilizationRates H N d).
  paid E (spends_getComputeMode H N d). paid E (spends_getMigMode H N d).
  inversion E; subst. lia.
Qed.

Lemma getProcesses_calls d (w w' : World D) ps :
  Device.getProcesses H N d w = (Returned (Ok ps), w') ->
  nativeCalls (trace w') = (nativeCalls (trace w) + 2 + List.length ps)%nat.
Proof.
  intros E. apply getProcesses_runs in E.
  destruct E as (cs & gs & w1 & w2 & replies & Ec & Eg & El & ->).
  assert (Hlen : List.length (zipEntries (Device.index d) (firstOccurrences (cs ++ gs))
                                         replies)
                 = List.length (List.map raw_pid (firstOccurrences (cs ++ gs)))).
  { rewrite <- (length_map GpuProcess.pid). f_equal. apply zipEntries_pids.
    rewrite (lookupNames_length H N _ _ _ _ El). apply length_map. }
  rewrite Hlen.
  apply spends_nvmlDeviceGetComputeRunningProcesses in Ec.
  apply spends_nvmlDeviceGetGraphicsRunningProcesses in Eg.
  apply spends_lookupNames in El. lia.
Qed.

Lemma spends_probe {T} (q : M D (Result T)) k : spends k q -> spends k (probe q).
Proof.
  intros Hq. unfold probe.
  eapply spends_bind; [exact Hq | intros; apply spends_ret | lia].
Qed.

Lemma spends_fields d q :
  List.In q (probe (Device.getUUID H N d) :: statusFields H N d) -> spends 1 q.
Proof.
  intros Hq. simpl in Hq.
  repeat (destruct Hq as [<-|Hq];
          [apply spends_probe;
           first [ apply spends_getUUID | apply spends_getName
                 | apply spends_getPersistenceMode | apply spends_getPciInfo
                 | apply spends_getDisplayActive | apply spends_getEccErrorsCorrected
                 | apply spends_getFanSpeed | apply spends_getTemperature
                 | apply spends_getPerformanceState | apply spends_getPowerUsage
                 | apply spends_getPowerLimit | apply spends_getMemoryInfo
                 | apply spends_getUtilizationRates | apply spends_getComputeMode
                 | apply spends_getMigMode ]|]).
  contradiction.
Qed.
End CompositeCallCount.

(** X21. The native calls a query makes: each of the fifteen single-field
    queries of a device makes exactly one when it returns, whether it
    returns a success or a failure; a successful [getBasicInfo] has made
    two and a successful [getStatus] fourteen, so the memory is read once
    although two fields come from it; a successful [getProcesses] has made
    the two enumerations and one name lookup per entry it returns. Loading
    the library and resolving a symbol on the way count as none. *)
Theorem native_call_budget :
  forall (H : Host) (D : Type) (N : Native D) (d : Device.t) (w w' : World D),
    (forall q failure,
        List.In q (probe (Device.getUUID H N d) :: statusFields H N d) ->
        q w = (Returned failure, w') ->
        nativeCalls (trace w') = (nativeCalls (trace w) + 1)%nat) /\
    (forall info,
        Device.getBasicInfo H N d w = (Returned (Ok info), w') ->
        nativeCalls (trace w') = (nativeCalls (trace w) + 2)%nat) /\
    (forall st,
        Device.getStatus H N d w = (Returned (Ok st), w') ->
        nativeCalls (trace w') = (nativeCalls (trace w) + 14)%nat) /\
    (forall ps,
        Device.getProcesses H N d w = (Returned (Ok ps), w') ->
        nativeCalls (trace w') = (nativeCalls (trace w) + 2 + List.length ps)%nat).
Proof.
  intros H D N d w w'. split; [|split; [|split]].
  - intros q failure Hq E. apply (spends_fields H N d q Hq _ _ _ E).
  - intros info. apply getBasicInfo_calls.
  - intros st. apply getStatus_calls.
  - intros ps. apply getProcesses_calls.
Qed.

Lemma native_call_budget_witness :
  let w' := Mock.after (Device.getProcesses Mock.host Mock.native Mock.device)
                       Mock.readyShared in
  nativeCalls (trace w') = (nativeCalls (trace Mock.readyShared) + 2 + 3)%nat.
Proof.
  intros w'.
  pose proof (native_call_budget Mock.host _ Mock.native Mock.device Mock.readyShared w')
    as (_ & _ & _ & Hps).
  exact (Hps _ (run_outcome _ _ _ getProcesses_shared_and_unnamed)).
Defined.

Section NamespaceCallCount.
Context (H : Host) {D : Type} (N : Native D).

Lemma spends_read {A} (f : World D -> A) : spends 0 (read f).
Proof. intros w a w' E. inversion E; subst. lia. Qed.

Lemma spends_set_initialized b : spends 0 (set_initialized b : M D unit).
Proof. intros w a w' E. inversion E; subst. cbn [trace]. lia. Qed.

Lemma spends_ensureInitialized : spends 0 (Nvml.ensureInitialized (D := D)).
Proof.
  unfold Nvml.ensureInitialized.
  eapply spends_bind; [apply spends_read | intros flag | reflexivity].
  destruct (negb flag); [apply spends_throw | apply spends_ret].
Qed.

Local Ltac gated :=
  eapply spends_bind; [apply spends_ensureInitialized | intros | reflexivity].

Lemma spends_init : spends 1 (Nvml.init H N).
Proof.
  unfold Nvml.init. autounfold with bindings.
  eapply spends_bind; [count_calls | intros ret | reflexivity].
  destruct (negb (isSuccess ret)); [apply spends_throw | apply spends_set_initialized].
Qed.

Lemma spends_shutdown : spends 1 (Nvml.shutdown H N).
Proof.
  unfold Nvml.shutdown. autounfold with bindings.
  eapply spends_bind; [count_calls | intros ret | reflexivity].
  destruct (negb (isSuccess ret)); [apply spends_throw | apply spends_set_initialized].
Qed.

Lemma spends_nvmlDeviceGetCount : spends 1 (nvmlDeviceGetCount H N).
Proof. autounfold with bindings. count_calls. Qed.

Lemma spends_getDeviceCount : spends 1 (Nvml.getDeviceCount H N).
Proof.
  unfold Nvml.getDeviceCount. gated.
  eapply spends_bind; [apply spends_nvmlDeviceGetCount | intros [ret count] | reflexivity].
  destruct (negb (isSuccess ret)); [apply spends_throw | apply spends_ret].
Qed.

Lemma spends_getByIndex i : spends 1 (Device.getByIndex H N i).
Proof.
  unfold Device.getByIndex. destruct (i <? 0)%Z; [apply spends_throw|].
  autounfold with bindings.
  eapply spends_bind; [count_calls | intros [ret [device|]] | reflexivity].
  - destruct (negb (isSuccess ret)); [apply spends_throw | apply spends_ret].
  - apply spends_throw.
Qed.

Lemma pushDevices_calls n :
  forall i acc (w w' : World D) ds,
    Nvml.pushDevices H N n i acc w = (Returned ds, w') ->
    nativeCalls (trace w') = (nativeCalls (trace w) + n)%nat /\
    List.length ds = (List.length acc + n)%nat.
Proof.
  induction n as [|n IH]; intros i acc w w' ds E; simpl in E.
  - inversion E; subst. lia.
  - destruct (bind_inv _ _ _ _ _ E) as [(d & w1 & E1 & E2)|(ex & _ & Hx)];
      [|discriminate].
    apply spends_getByIndex in E1. apply IH in E2 as [Hc Hl].
    rewrite length_app in Hl. simpl in Hl. lia.
Qed.

Lemma pushStatuses_calls n :
  forall i acc (w w' : World D) sts,
    Nvml.pushStatuses H N n i acc w = (Returned (Ok sts), w') ->
    nativeCalls (trace w') = (nativeCalls (trace w) + 15 * n)%nat /\
    List.length sts = (List.length acc + n)%nat.
Proof.
  induction n as [|n IH]; intros i acc w w' sts E; simpl in E.
  - inversion E; subst. lia.
  - destruct (bind_inv _ _ _ _ _ E) as [(d & w1 & E1 & E2)|(ex & _ & Hx)];
      [|discriminate].
    destruct (bind_inv _ _ _ _ _ E2) as [([st|e] & w2 & E3 & E4)|(ex & _ & Hx)];
      [| inversion E4 | discriminate].
    apply spends_getByIndex in E1. apply (getStatus_calls H N) in E3.
    apply IH in E4 as [Hc Hl]. rewrite length_app in Hl. simpl in Hl. lia.
Qed.

Lemma getDriverInfo_calls (w w' : World D) info :
  Nvml.getDriverInfo H N w = (Returned (Ok info), w') ->
  nativeCalls (trace w') = (nativeCalls (trace w) + 3)%nat.
Proof.
  intros E. unfold Nvml.getDriverInfo in E.
  destruct (bind_inv _ _ _ _ _ E) as [([] & wa & Ea & E1)|(ex & _ & Hx)];
    [clear E | discriminate].
  apply spends_ensureInitialized in Ea.
  apply strict_step in E1; [|reflexivity].
  destruct E1 as [(dv & w1 & Ed & E)|(ret & v & _ & _ & Hx)]; [|discriminate].
  apply strict_step in E; [|reflexivity].
  destruct E as [(nv & w2 & En & E)|(ret & v & _ & _ & Hx)]; [|discriminate].
  apply (strict_step (nvmlSystemGetCudaDriverVersion_v2 H N) "Failed to get CUDA version"
           (fun cuda => ret_ (ok (DriverInfo.mk dv nv (cudaVersionToString cuda)))))
    in E; [|reflexivity].
  destruct E as [(cuda & w3 & Ec & E)|(ret & v & _ & _ & Hx)]; [|discriminate].
  inversion E; subst.
  assert (Hd : spends 1 (nvmlSystemGetDriverVersion H N))
    by (autounfold with bindings; count_calls).
  assert (Hn : spends 1 (nvmlSystemGetNvmlVersion H N))
    by (autounfold with bindings; count_calls).
  assert (Hc : spends 1 (nvmlSystemGetCudaDriverVersion_v2 H N))
    by (autounfold with bindings; count_calls).
  apply Hd in Ed. apply Hn in En. apply Hc in Ec. lia.
Qed.
End NamespaceCallCount.

(** X22. The native calls an operation of [Nvml] has made when it returns:
    [init] and [shutdown] one each, whatever the lifecycle flag says, so
    neither is skipped when it is redundant; [getDeviceCount] one; a
    successful [getDriverInfo] three; [getAllDevices] one and one more per
    device it returns; a successful [getAllGpuStatus] one and fifteen more
    per status it returns, the handle lookup being made again each time. *)
Theorem namespace_call_budget :
  forall (H : Host) (D : Type) (N : Native D) (w w' : World D),
    (Nvml.init H N w = (Returned tt, w') ->
     nativeCalls (trace w') = (nativeCalls (trace w) + 1)%nat) /\
    (Nvml.shutdown H N w = (Returned tt, w') ->
     nativeCalls (trace w') = (nativeCalls (trace w) + 1)%nat) /\
    (forall count,
        Nvml.getDeviceCount H N w = (Returned count, w') ->
        nativeCalls (trace w') = (nativeCalls (trace w) + 1)%nat) /\
    (forall info,
        Nvml.getDriverInfo H N w = (Returned (Ok info), w') ->
        nativeCalls (trace w') = (nativeCalls (trace w) + 3)%nat) /\
    (forall ds,
        Nvml.getAllDevices H N w = (Returned ds, w') ->
        nativeCalls (trace w') = (nativeCalls (trace w) + 1 + List.length ds)%nat) /\
    (forall sts,
        Nvml.getAllGpuStatus H N w = (Returned (Ok sts), w') ->
        nativeCalls (trace w')
          = (nativeCalls (trace w) + 1 + 15 * List.length sts)%nat).
Proof.
  intros H D N w w'. repeat match goal with |- _ /\ _ => split end.
  - apply spends_init.
  - apply spends_shutdown.
  - intros count. apply spends_getDeviceCount.
  - intros info. apply getDriverInfo_calls.
  - intros ds E. unfold Nvml.getAllDevices in E.
    destruct (bind_inv _ _ _ _ _ E) as [(count & w1 & E1 & E2)|(ex & _ & Hx)];
      [|discriminate].
    apply spends_getDeviceCount in E1. apply pushDevices_calls in E2 as [Hc Hl].
    simpl in Hl. lia.
  - intros sts E. unfold Nvml.getAllGpuStatus in E.
    destruct (bind_inv _ _ _ _ _ E) as [([] & wa & Ea & E1)|(ex & _ & Hx)];
      [clear E | discriminate].
    apply spends_ensureInitialized in Ea.
    destruct (bind_inv _ _ _ _ _ E1) as [([ret count] & w1 & Ec & E2)|(ex & _ & Hx)];
      [clear E1 | discriminate].
    apply spends_nvmlDeviceGetCount in Ec.
    destruct (negb (isSuccess ret)); [inversion E2|].
    apply pushStatuses_calls in E2 as [Hc Hl]. simpl in Hl. lia.
Qed.

Lemma namespace_call_budget_witness :
  let w' := Mock.after (Nvml.init Mock.host Mock.native) Mock.ready in
  nativeCalls (trace w') = (nativeCalls (trace Mock.ready) + 1)%nat.
Proof.
  intros w'.
  apply (proj1 (namespace_call_budget Mock.host _ Mock.native Mock.ready w')).
  apply (run_outcome (Nvml.init Mock.host Mock.native)). vm_compute. reflexivity.
Defined.
